(** * Lead-Automation: the outreach campaign services

    A shallow embedding of the backend services of
    [agency/lead-automation-system1] (email_service.py, sheets_service.py,
    payment_service.py, tracking_service.py) and the properties of the
    campaign state machine, the region routing, the template engine, the
    lead store and the analytics that hold of them.

    Conventions.  A Python [str] is a [string] (the UTF-8 bytes of the text);
    a value that is a [str] or [None] is an [option string]; a lead is the
    string-valued [dict] that [SheetsService.get_leads] builds, a
    [gmap string string]; [datetime] values are integers (microseconds);
    the SMTP server, the clock formatting and the process configuration are
    the variables of the section [Services]. *)

From Stdlib Require Import ZArith Ascii String List DecimalString Floats
  Sorted.
From stdpp Require Import base option list gmap strings.

Local Open Scope Z_scope.

(** ** Python built-ins on [str] *)

Module Py.

Definition dquote : string := String (ascii_of_nat 34) EmptyString.

(** [not s] for a string: the empty string is falsy. *)
Definition falsy (s : string) : bool :=
  match s with EmptyString => true | String _ _ => false end.

(** Truth value of [x] where [x] is a [str] or [None]. *)
Definition falsy_opt (o : option string) : bool :=
  match o with None => true | Some s => falsy s end.

(** [o == s] where [o] is a [str] or [None] and [s] a [str]. *)
Definition eq_str (o : option string) (s : string) : bool :=
  match o with None => false | Some x => String.eqb x s end.

Definition lower_char (c : ascii) : ascii :=
  let n := nat_of_ascii c in
  if (65 <=? n)%nat && (n <=? 90)%nat then ascii_of_nat (n + 32) else c.

(** [s.lower()]; on the UTF-8 bytes only the ASCII letters change. *)
Fixpoint lower (s : string) : string :=
  match s with
  | EmptyString => EmptyString
  | String c s' => String (lower_char c) (lower s')
  end.

(** [sub in s]. *)
Fixpoint contains (sub s : string) : bool :=
  String.prefix sub s ||
  match s with
  | EmptyString => false
  | String _ s' => contains sub s'
  end.

(** The scan of [s.replace(old, new)] for a non-empty [old]: left to
    right, the occurrences replaced do not overlap; [skip] counts the
    characters of a matched occurrence still to be dropped. *)
Fixpoint replace_scan (old new : string) (skip : nat) (s : string) : string :=
  match s with
  | EmptyString => EmptyString
  | String c s' =>
      match skip with
      | S k => replace_scan old new k s'
      | O =>
          if String.prefix old s
          then new +:+ replace_scan old new (String.length old - 1) s'
          else String c (replace_scan old new 0 s')
      end
  end.

(** [s.replace("", new)] puts [new] before every character and at the end. *)
Fixpoint intersperse (new s : string) : string :=
  match s with
  | EmptyString => new
  | String c s' => new +:+ String c (intersperse new s')
  end.

(** [s.replace(old, new)]. *)
Definition replace (s old new : string) : string :=
  match old with
  | EmptyString => intersperse new s
  | String _ _ => replace_scan old new 0 s
  end.

End Py.

(** A value of a JSON object that a webhook posts, as far as the handlers
    tell values apart: a string, [null] (which is [None]), or a value of
    another type (a number, a boolean, a list, an object), kept as the
    text that [str] gives for it. *)
Inductive Json := JString (s : string) | JNull | JOther (shown : string).

Module PyJson.

(** [x == j] where [x] is a [str] or [None]: a string equals a string with
    the same characters, [None] equals [None] only. *)
Definition eq_json (x : option string) (j : Json) : bool :=
  match x, j with
  | Some a, JString b => String.eqb a b
  | None, JNull => true
  | _, _ => false
  end.

(** [f"{j}"]. *)
Definition str (j : Json) : string :=
  match j with
  | JString s => s
  | JNull => "None"
  | JOther shown => shown
  end.

(** The value as a [str] or [None], where it is one of them. *)
Definition as_str (j : Json) : option string :=
  match j with JString s => Some s | JNull | JOther _ => None end.

End PyJson.

(** ** Dictionaries that keep their insertion order

    [EmailService.active_campaigns] and the literal tables of the services
    are Python dicts; a follow-up pass walks [active_campaigns] in insertion
    order, so they are association lists with one entry per key. *)

Module Dict.
Section Operations.
Context {K V : Type} `{EqDecision K}.

Fixpoint get (d : list (K * V)) (k : K) : option V :=
  match d with
  | [] => None
  | (k', v) :: d' => if decide (k' = k) then Some v else get d' k
  end.

(** [d[k] = v]: an existing key keeps its place, a new one goes last. *)
Fixpoint set (d : list (K * V)) (k : K) (v : V) : list (K * V) :=
  match d with
  | [] => [(k, v)]
  | (k', v') :: d' =>
      if decide (k' = k) then (k, v) :: d' else (k', v') :: set d' k v
  end.

(** [del d[k]] for a key that may be absent (the callers test [k in d]). *)
Fixpoint del (d : list (K * V)) (k : K) : list (K * V) :=
  match d with
  | [] => []
  | (k', v') :: d' =>
      if decide (k' = k) then del d' k else (k', v') :: del d' k
  end.

(** An assignment to a field of the object that [d] holds under [k]:
    the entry changes where it is, and no entry appears. *)
Fixpoint mutate (d : list (K * V)) (k : K) (v : V) : list (K * V) :=
  match d with
  | [] => []
  | (k', v') :: d' =>
      if decide (k' = k) then (k, v) :: d' else (k', v') :: mutate d' k v
  end.

Definition keys (d : list (K * V)) : list K := map fst d.

Definition mem (d : list (K * V)) (k : K) : bool :=
  match get d k with Some _ => true | None => false end.
End Operations.
End Dict.

Arguments Dict.keys : simpl never.

(** ** Templates (email_service.py, [_get_email_templates]) *)

Record Template := { subject : string; body : string }.

Import Py.

Definition initial_us : Template :=
  {| subject := "Quick question about {{company}}";
     body := "
                    <p>Hi {{first_name}},</p>
                    <p>I noticed you're the owner of {{company}} and I wanted to reach out.</p>
                    <p>We've been helping {{business_type}} like yours streamline their operations and increase revenue.</p>
                    <p>Would you be interested in a quick 15-minute chat to see if we could help you too?</p>
                    <p>Best regards,<br>Your Name</p>
                    " |}.

Definition initial_india : Template :=
  {| subject := "Regarding your business: {{company}}";
     body := "
                    <p>Hello {{first_name}},</p>
                    <p>I came across {{company}} while researching leading {{business_type}} in {{country}}.</p>
                    <p>Our company specializes in helping businesses like yours increase efficiency and growth.</p>
                    <p>Would you be open to a brief conversation about how we might help your business?</p>
                    <p>Regards,<br>Your Name</p>
                    " |}.

Definition follow_up_1_us : Template :=
  {| subject := "Following up: {{company}}";
     body := "
                    <p>Hi {{first_name}},</p>
                    <p>I wanted to follow up on my previous email about how we could help {{company}}.</p>
                    <p>Many {{business_type}} owners we work with have seen significant improvements in just a few weeks.</p>
                    <p>Would you be available for a quick call this week?</p>
                    <p>Best regards,<br>Your Name</p>
                    " |}.

Definition follow_up_1_india : Template :=
  {| subject := "Quick follow-up: {{company}}";
     body := "
                    <p>Hello {{first_name}},</p>
                    <p>I'm following up on my previous message regarding {{company}}.</p>
                    <p>We've helped several {{business_type}} in India achieve remarkable results recently.</p>
                    <p>Would you like to schedule a short call to discuss how we could help you too?</p>
                    <p>Regards,<br>Your Name</p>
                    " |}.

Definition follow_up_2_us : Template :=
  {| subject := "One more thing about {{company}}";
     body := "
                    <p>Hi {{first_name}},</p>
                    <p>I thought I'd share that we recently helped a {{business_type}} similar to {{company}} increase their revenue by 30%.</p>
                    <p>I'd love to show you how we did it in a quick call.</p>
                    <p>Let me know if you're interested!</p>
                    <p>Best regards,<br>Your Name</p>
                    " |}.

Definition follow_up_2_india : Template :=
  {| subject := "Case study for {{company}}";
     body := "
                    <p>Hello {{first_name}},</p>
                    <p>I wanted to share a case study about how we helped a {{business_type}} in India similar to {{company}}.</p>
                    <p>They were facing challenges with growth, and we helped them implement solutions that increased their revenue.</p>
                    <p>Would you like to see how we could apply similar strategies to your business?</p>
                    <p>Regards,<br>Your Name</p>
                    " |}.

Definition follow_up_3_us : Template :=
  {| subject := "Final thoughts for {{company}}";
     body := "
                    <p>Hi {{first_name}},</p>
                    <p>I've reached out a few times about how we could help {{company}} grow as a {{business_type}}.</p>
                    <p>I understand you might be busy, so this will be my last email for now.</p>
                    <p>If you'd like to explore how we could work together in the future, please feel free to reach out.</p>
                    <p>Best regards,<br>Your Name</p>
                    " |}.

Definition follow_up_3_india : Template :=
  {| subject := "Last message regarding {{company}}";
     body := "
                    <p>Hello {{first_name}},</p>
                    <p>I've sent a few messages about how we could support {{company}} as a growing {{business_type}} in India.</p>
                    <p>This will be my last email, but please know my offer to help still stands.</p>
                    <p>Whenever you're ready to discuss, I'm here to help.</p>
                    <p>Regards,<br>Your Name</p>
                    " |}.

Definition call_invite_us : Template :=
  {| subject := "Call details for our discussion";
     body := ("
                    <p>Hi {{first_name}},</p>
                    <p>Thank you for your interest in discussing how we can help {{company}}.</p>
                    <p>You can book a time on my calendar here: <a href=" +:+ dquote +:+ "{{calendly_link}}" +:+ dquote +:+ ">Schedule a Call</a></p>
                    <p>I look forward to our conversation!</p>
                    <p>Best regards,<br>Your Name</p>
                    ") |}.

Definition call_invite_india : Template :=
  {| subject := "Schedule our call";
     body := ("
                    <p>Hello {{first_name}},</p>
                    <p>Thanks for your interest in exploring how we can help {{company}} grow.</p>
                    <p>Please use this link to book a time that works for you: <a href=" +:+ dquote +:+ "{{calendly_link}}" +:+ dquote +:+ ">Book a Call</a></p>
                    <p>I'm looking forward to our discussion!</p>
                    <p>Regards,<br>Your Name</p>
                    ") |}.

Definition pricing_info_us : Template :=
  {| subject := "Investment details for {{company}}";
     body := ("
                    <p>Hi {{first_name}},</p>
                    <p>Thank you for your interest in our services for {{company}}.</p>
                    <p>Based on our discussion, the investment for our solution would be ${{price}}.</p>
                    <p>You can make the payment securely through this link: <a href=" +:+ dquote +:+ "{{payment_link}}" +:+ dquote +:+ ">Make Payment</a></p>
                    <p>Once the payment is confirmed, we'll begin the onboarding process right away.</p>
                    <p>Best regards,<br>Your Name</p>
                    ") |}.

Definition pricing_info_india : Template :=
  {| subject := "Pricing information for {{company}}";
     body := ("
                    <p>Hello {{first_name}},</p>
                    <p>Thank you for considering our services for {{company}}.</p>
                    <p>The investment for our solution would be ₹{{price}}.</p>
                    <p>You can complete the payment through this secure link: <a href=" +:+ dquote +:+ "{{payment_link}}" +:+ dquote +:+ ">Make Payment</a></p>
                    <p>After payment confirmation, we'll start the onboarding process immediately.</p>
                    <p>Regards,<br>Your Name</p>
                    ") |}.

Definition templates : list (string * list (string * Template)) :=
  [("initial", [("us", initial_us); ("india", initial_india)]);
   ("follow_up_1", [("us", follow_up_1_us); ("india", follow_up_1_india)]);
   ("follow_up_2", [("us", follow_up_2_us); ("india", follow_up_2_india)]);
   ("follow_up_3", [("us", follow_up_3_us); ("india", follow_up_3_india)]);
   ("call_invite", [("us", call_invite_us); ("india", call_invite_india)]);
   ("pricing_info", [("us", pricing_info_us); ("india", pricing_info_india)])].

(** A subscript [d[k]] raises [KeyError] on a missing key: the error type
    of the lookups below. *)
Inductive KeyError := key_error (k : string).

Definition subscript {V} (d : list (string * V)) (k : string)
  : KeyError + V :=
  match Dict.get d k with
  | Some v => inr v
  | None => inl (key_error k)
  end.

(** [d.get(k, d[k0])]: the default is evaluated before the lookup. *)
Definition get_or_subscript {V} (d : list (string * V)) (k k0 : string)
  : KeyError + V :=
  match subscript d k0 with
  | inl e => inl e
  | inr dflt => inr (default dflt (Dict.get d k))
  end.

(** [return templates.get(sequence_type, templates["initial"])]. *)
Definition _get_email_templates (sequence_type : string)
  : KeyError + list (string * Template) :=
  get_or_subscript templates sequence_type "initial".

(** [country_code = "us" if country == "US" else "india"]. *)
Definition country_code (country : option string) : string :=
  if Py.eq_str country "US" then "us" else "india".

(** [templates = self._get_email_templates(stage)] followed by
    [template_data = templates.get(template_set, templates["us"])]: the
    lookup of a template by stage and template set. *)
Definition lookup_template (stage template_set : string)
  : KeyError + Template :=
  match _get_email_templates stage with
  | inl e => inl e
  | inr t => get_or_subscript t template_set "us"
  end.

(** The lookup at its call sites, where the template set is the
    [country_code] of the lead. *)
Definition template_data (stage : string) (country : option string)
  : KeyError + Template :=
  lookup_template stage (country_code country).

(** ** Leads and personalisation (email_service.py, [_personalize_template]) *)

Abbreviation Lead := (gmap string string).

(** [lead.get(k, dflt)]. *)
Definition lead_get (lead : Lead) (k dflt : string) : string :=
  default dflt (lead !! k).

Definition business_type_of (lead : Lead) : string :=
  let business_type := lead_get lead "industry" "business" in
  if Py.falsy business_type || String.eqb (Py.lower business_type) "n/a" then
    if Py.contains "agency" (Py.lower (lead_get lead "company" "")) then
      "digital agency"
    else if Py.contains "coach" (Py.lower (lead_get lead "title" "")) then
      "coaching business"
    else if Py.contains "consult" (Py.lower (lead_get lead "title" "")) then
      "consulting business"
    else "business"
  else business_type.

(** The dict [replacements], in the order of its literal. *)
Definition replacements (calendly_link : string) (lead : Lead)
  : list (string * string) :=
  [ ("{{first_name}}", lead_get lead "first_name" "there");
    ("{{last_name}}", lead_get lead "last_name" "");
    ("{{company}}", lead_get lead "company" "your business");
    ("{{business_type}}", business_type_of lead);
    ("{{country}}",
      if Py.eq_str (lead !! "country") "US" then "the United States"
      else "India");
    ("{{calendly_link}}", calendly_link);
    ("{{payment_link}}", lead_get lead "payment_link" "#") ].

(** [for key, value in replacements.items(): personalized =
    personalized.replace(key, value)]. *)
Definition apply_replacements (rs : list (string * string)) (template : string)
  : string :=
  fold_left (fun personalized kv => Py.replace personalized kv.1 kv.2)
            rs template.

Definition _personalize_template (calendly_link : string)
    (template : string) (lead : Lead) : string :=
  apply_replacements (replacements calendly_link lead) template.

(** *** Templates as text and tokens *)

(** A template read as literal text and placeholder tokens. *)
Inductive Segment :=
| Lit (text : string)
| Placeholder (name : string).

Definition token (name : string) : string := "{{" +:+ name +:+ "}}".

Fixpoint flatten (segs : list Segment) : string :=
  match segs with
  | [] => ""
  | Lit text :: rest => text +:+ flatten rest
  | Placeholder name :: rest => token name +:+ flatten rest
  end.

(** The variables of [replacements], by name. *)
Definition variables (calendly_link : string) (lead : Lead)
  : list (string * string) :=
  [ ("first_name", lead_get lead "first_name" "there");
    ("last_name", lead_get lead "last_name" "");
    ("company", lead_get lead "company" "your business");
    ("business_type", business_type_of lead);
    ("country",
      if Py.eq_str (lead !! "country") "US" then "the United States"
      else "India");
    ("calendly_link", calendly_link);
    ("payment_link", lead_get lead "payment_link" "#") ].

(** The rendering the specification describes: a token of a variable is
    replaced by the value of the variable, any other token stays as it
    is. *)
Fixpoint render_tokens (vars : list (string * string)) (segs : list Segment)
  : string :=
  match segs with
  | [] => ""
  | Lit text :: rest => text +:+ render_tokens vars rest
  | Placeholder name :: rest =>
      match Dict.get vars name with
      | Some value => value +:+ render_tokens vars rest
      | None => token name +:+ render_tokens vars rest
      end
  end.

(** [c] does not occur in [s]. *)
Fixpoint without (c : ascii) (s : string) : bool :=
  match s with
  | EmptyString => true
  | String a s' => negb (Ascii.eqb a c) && without c s'
  end.

Definition open_brace : ascii := ascii_of_nat 123.
Definition close_brace : ascii := ascii_of_nat 125.

(** Literal text has no opening brace; a placeholder name has no brace. *)
Definition plain (seg : Segment) : bool :=
  match seg with
  | Lit text => without open_brace text
  | Placeholder name => without open_brace name && without close_brace name
  end.

(** One pass of the loop over [replacements], on the segments. *)
Definition subst_token (k v : string) (seg : Segment) : Segment :=
  match seg with
  | Lit _ => seg
  | Placeholder n => if decide (k = n) then Lit v else seg
  end.

(** The segments once every pass is done. *)
Definition resolve (vars : list (string * string)) (seg : Segment) : Segment :=
  match seg with
  | Lit _ => seg
  | Placeholder n =>
      match Dict.get vars n with
      | Some v => Lit v
      | None => seg
      end
  end.

Definition plain_name (k : string) : bool :=
  without open_brace k && without close_brace k.

(** Reading a template: the text up to a "{{" is literal text, the text
    from there to the next "}}" is the name of a placeholder; a "{{" that is
    not closed is literal text. *)
Inductive Reading := InText | InName.

Definition literal (acc : string) : list Segment :=
  if Py.falsy acc then [] else [Lit acc].

Fixpoint tokens_from (mode : Reading) (acc : string) (s : string)
  : list Segment :=
  match s with
  | EmptyString =>
      match mode with
      | InText => literal acc
      | InName => [Lit ("{{" +:+ acc)]
      end
  | String c s' =>
      match mode with
      | InText =>
          match s' with
          | String c' s'' =>
              if Ascii.eqb c open_brace && Ascii.eqb c' open_brace
              then literal acc ++ tokens_from InName "" s''
              else tokens_from InText (acc +:+ String c "") s'
          | EmptyString => tokens_from InText (acc +:+ String c "") s'
          end
      | InName =>
          match s' with
          | String c' s'' =>
              if Ascii.eqb c close_brace && Ascii.eqb c' close_brace
              then Placeholder acc :: tokens_from InText "" s''
              else tokens_from InName (acc +:+ String c "") s'
          | EmptyString => tokens_from InName (acc +:+ String c "") s'
          end
      end
  end.

Definition tokens (s : string) : list Segment := tokens_from InText "" s.

(** The names of the variables of [replacements]. *)
Definition variable_names : list string :=
  [ "first_name"; "last_name"; "company"; "business_type"; "country";
    "calendly_link"; "payment_link" ].

(** A segment that personalisation leaves without a token: literal text,
    or the placeholder of a variable. *)
Definition filled (seg : Segment) : bool :=
  match seg with
  | Lit _ => true
  | Placeholder name => bool_decide (name ∈ variable_names)
  end.

(** A template text is made of literal text without an opening brace and
    of placeholders of variables only. *)
Definition well_formed (s : string) : bool :=
  String.eqb (flatten (tokens s)) s
  && forallb plain (tokens s)
  && forallb filled (tokens s).

(** The templates of the outreach: every stage of the table but
    "pricing_info". *)
Definition outreach_templates : list Template :=
  [ initial_us; initial_india; follow_up_1_us; follow_up_1_india;
    follow_up_2_us; follow_up_2_india; follow_up_3_us; follow_up_3_india;
    call_invite_us; call_invite_india ].

(** Both fallbacks of the lookup exist in the literal table, so
    [template_data] never raises; [template_of] is its value. *)
Definition template_of (stage : string) (country : option string) : Template :=
  match template_data stage country with
  | inr t => t
  | inl _ => initial_us
  end.

(** The bodies of the two "pricing_info" templates, as text and tokens. *)
Definition pricing_info_us_body : list Segment :=
  [ Lit "
                    <p>Hi ";
    Placeholder "first_name";
    Lit ",</p>
                    <p>Thank you for your interest in our services for ";
    Placeholder "company";
    Lit ".</p>
                    <p>Based on our discussion, the investment for our solution would be $";
    Placeholder "price";
    Lit (".</p>
                    <p>You can make the payment securely through this link: <a href=" +:+ dquote);
    Placeholder "payment_link";
    Lit (dquote +:+ ">Make Payment</a></p>
                    <p>Once the payment is confirmed, we'll begin the onboarding process right away.</p>
                    <p>Best regards,<br>Your Name</p>
                    ") ].

Definition pricing_info_india_body : list Segment :=
  [ Lit "
                    <p>Hello ";
    Placeholder "first_name";
    Lit ",</p>
                    <p>Thank you for considering our services for ";
    Placeholder "company";
    Lit ".</p>
                    <p>The investment for our solution would be ₹";
    Placeholder "price";
    Lit (".</p>
                    <p>You can complete the payment through this secure link: <a href=" +:+ dquote);
    Placeholder "payment_link";
    Lit (dquote +:+ ">Make Payment</a></p>
                    <p>After payment confirmation, we'll start the onboarding process immediately.</p>
                    <p>Regards,<br>Your Name</p>
                    ") ].

(** [str(n)] for an [int]. *)
Definition str_of_int (n : Z) : string := NilEmpty.string_of_int (Z.to_int n).

(** ** The spreadsheet (sheets_service.py)

    A sheet is the list of rows that [values().get(range="<sheet>!A1:R")]
    returns, header row first; a row is the list of its cells.  Calls to the
    Sheets API succeed whenever the service was initialised. *)

Abbreviation Row := (list string).
Abbreviation Sheet := (list Row).

Record Spreadsheet := { US_Leads : Sheet; India_Leads : Sheet }.

Inductive SheetName := US_Leads_sheet | India_Leads_sheet.

Definition sheet_of (sp : Spreadsheet) (n : SheetName) : Sheet :=
  match n with US_Leads_sheet => US_Leads sp | India_Leads_sheet => India_Leads sp end.

Definition with_sheet (sp : Spreadsheet) (n : SheetName) (sh : Sheet)
  : Spreadsheet :=
  match n with
  | US_Leads_sheet => {| US_Leads := sh; India_Leads := India_Leads sp |}
  | India_Leads_sheet => {| US_Leads := US_Leads sp; India_Leads := sh |}
  end.

(** Column numbers of the cells the services address. *)
Definition col_status : nat := 13.
Definition col_last_contact : nat := 16.
Definition col_notes : nat := 17.

(** [values().update] of one cell: a row shorter than the column is
    filled with empty cells up to it. *)
Definition set_cell (col : nat) (v : string) (row : Row) : Row :=
  <[col := v]> (row ++ replicate (S col - length row) "").

Definition write_cell (sh : Sheet) (i col : nat) (v : string) : Sheet :=
  alter (set_cell col v) i sh.

(** The headers of [get_leads]. *)
Definition headers : list string :=
  [ "id"; "first_name"; "last_name"; "email"; "phone";
    "linkedin_url"; "title"; "company"; "company_website";
    "industry"; "company_size"; "country";
    "estimated_revenue"; "status"; "source";
    "date_added"; "last_contact"; "notes" ].

(** [padded_row = row + [""] * (len(headers) - len(row))] and
    [lead = dict(zip(headers, padded_row))]. *)
Definition padded_row (row : Row) : Row :=
  row ++ replicate (length headers - length row) "".

Definition lead_of_row (row : Row) : Lead :=
  list_to_map (zip headers (padded_row row)).

(** Outcome of the search [for i, row in enumerate(rows[1:], start=2): if
    row[0] == lead_id]: the index of the row in the sheet, or no such row,
    or the [IndexError] of [row[0]] on a row without cells. *)
Inductive Scan := Found (i : nat) (row : Row) | Missing | Raised.

Fixpoint find_row (rows : list Row) (lead_id : string) (i : nat) : Scan :=
  match rows with
  | [] => Missing
  | row :: rest =>
      match row with
      | [] => Raised
      | c :: _ =>
          if String.eqb c lead_id then Found i row
          else find_row rest lead_id (S i)
      end
  end.

Definition scan_sheet (sh : Sheet) (lead_id : string) : Scan :=
  if (length sh <=? 1)%nat then Missing else find_row (tail sh) lead_id 1.

(** The row of a lead as [update_lead] finds it: the first row with the id,
    in "US_Leads" and then in "India_Leads". *)
Definition lead_row (sp : Spreadsheet) (lead_id : string) : option Row :=
  match scan_sheet (US_Leads sp) lead_id with
  | Found _ row => Some row
  | Raised => None
  | Missing =>
      match scan_sheet (India_Leads sp) lead_id with
      | Found _ row => Some row
      | Raised | Missing => None
      end
  end.

(** The status and the notes of a lead, as the spreadsheet has them. *)
Definition status_of (sp : Spreadsheet) (lead_id : string) : option string :=
  lead_row sp lead_id ≫= fun row => row !! col_status.

Definition notes_of (sp : Spreadsheet) (lead_id : string) : option string :=
  lead_row sp lead_id ≫= fun row => row !! col_notes.

(** The two templates of [PaymentService._send_onboarding_email]. *)
Definition onboarding_template_us : string :=
  "
                <p>Hi {{first_name}},</p>
                <p>Thank you for your payment! We're excited to start working with {{company}}.</p>
                <p>Here are the next steps:</p>
                <ol>
                    <li>Complete our onboarding questionnaire: [LINK]</li>
                    <li>Schedule your kickoff call: [LINK]</li>
                    <li>Review our welcome packet: [LINK]</li>
                </ol>
                <p>Best regards,<br>Your Name</p>
                ".

Definition onboarding_template_other : string :=
  "
                <p>Hello {{first_name}},</p>
                <p>Thank you for your payment! We're thrilled to begin working with {{company}}.</p>
                <p>Here's what happens next:</p>
                <ol>
                    <li>Fill out our onboarding form: [LINK]</li>
                    <li>Book your initial strategy call: [LINK]</li>
                    <li>Check out our welcome materials: [LINK]</li>
                </ol>
                <p>Regards,<br>Your Name</p>
                ".


(** ** Analytics (tracking_service.py, sheets_service.py)

    The rates are Python floats: IEEE 754 binary64 numbers, here the
    primitive floats.  [a / b] on two ints is the quotient rounded once to
    the nearest float; [round(x, 2)] is the float nearest to the decimal
    with two places that is nearest to [x], ties to even. *)

Definition int_to_SF (z : Z) : spec_float :=
  match z with
  | Z0 => S754_zero false
  | Zpos p => S754_finite false p 0
  | Zneg p => S754_finite true p 0
  end.

Definition SF_is_finite (x : spec_float) : bool :=
  match x with
  | S754_zero _ | S754_finite _ _ _ => true
  | S754_infinity _ | S754_nan => false
  end.

(** The exceptions of the arithmetic. *)
Inductive ArithmeticError := ZeroDivisionError | OverflowError.

(** [a / b] for two ints. *)
Definition py_truediv (a b : Z) : ArithmeticError + float :=
  if b =? 0 then inl ZeroDivisionError
  else
    let q := SFdiv prec emax (int_to_SF a) (int_to_SF b) in
    if SF_is_finite q then inr (SF2Prim q) else inl OverflowError.

(** [num / den] rounded to the nearest integer, ties to even. *)
Definition round_half_even_div (num den : Z) : Z :=
  let q := num / den in
  let r := num mod den in
  if 2 * r <? den then q
  else if den <? 2 * r then q + 1
  else if Z.even q then q else q + 1.



(** The counts of one region in [get_analytics_data]. *)
Record RegionStats := {
  total : Z;
  by_status : list (string * Z)
}.

(** The analytics of [get_analytics_data]; the list "recent_activities",
    which no rate depends on, is left out. *)
Record AnalyticsData := {
  us_leads : RegionStats;
  india_leads : RegionStats;
  overall_conversion_rate : float
}.

(** [status = lead.get("status", "New")], then [by_status[status] = 0] for
    a new status, then [by_status[status] += 1]. *)
Definition count_status (d : list (string * Z)) (l : Lead)
  : list (string * Z) :=
  let status := lead_get l "status" "New" in
  let d0 := if Dict.mem d status then d else Dict.set d status 0 in
  Dict.set d0 status (default 0 (Dict.get d0 status) + 1).

Definition region_stats (ls : list Lead) : RegionStats :=
  {| total := Z.of_nat (length ls);
     by_status := fold_left count_status ls [] |}.



(** ** Suggested prices (payment_service.py, [suggest_pricing])

    A price is an int until a factor is applied to it and a float
    afterwards; both are formatted by the same format specifications. *)

Inductive Num := IntV (n : Z) | FloatV (x : float).

(** [float(n)] for an int: the nearest float, ties to even. *)
Definition float_of_int (n : Z) : float :=
  SF2Prim (binary_normalize prec emax n 0 false).

Definition to_float (v : Num) : float :=
  match v with IntV n => float_of_int n | FloatV x => x end.

(** [v * f] for a float [f]. *)
Definition times (f : float) (v : Num) : Num :=
  FloatV (to_float v * f)%float.

(** [x > n] for a float and an int, which Python compares by value. *)
Definition float_gt_int (x : float) (n : Z) : bool :=
  match Prim2SF x with
  | S754_zero _ => n <? 0
  | S754_infinity s => negb s
  | S754_nan => false
  | S754_finite s m e =>
      let a := if s then Zneg m else Zpos m in
      if 0 <=? e then n <? a * 2 ^ e else n * 2 ^ (- e) <? a
  end.

(** [v > n] for an int [n]. *)
Definition exceeds (v : Num) (n : Z) : bool :=
  match v with
  | IntV m => n <? m
  | FloatV x => float_gt_int x n
  end.

(** [int(v)], which raises on an infinity and on a NaN. *)
Definition truncated (v : Num) : option Z :=
  match v with
  | IntV n => Some n
  | FloatV x =>
      match Prim2SF x with
      | S754_zero _ => Some 0
      | S754_finite s m e =>
          let a := if 0 <=? e then Zpos m * 2 ^ e else Zpos m / 2 ^ (- e) in
          Some (if s then - a else a)
      | S754_infinity _ | S754_nan => None
      end
  end.

(** The digits of a number, least significant first, with a comma after
    every group of three that more digits follow. *)
Fixpoint commas (k : nat) (digits : list ascii) : list ascii :=
  match digits with
  | [] => []
  | c :: rest =>
      match k with
      | 3%nat => "," :: c :: commas 1 rest
      | _ => c :: commas (S k) rest
      end
  end%char.

(** [f"{n:,}"] for an int. *)
Definition grouped (n : Z) : string :=
  (if n <? 0 then "-" else "")
  +:+ string_of_list_ascii
        (rev (commas 0 (rev (list_ascii_of_string (str_of_int (Z.abs n)))))).

Definition two_digits (n : Z) : string :=
  (if n <? 10 then "0" else "") +:+ str_of_int n.

(** [f"{x:,.2f}"] for a float: the decimal with two places nearest to
    [x], ties to even, its integer part grouped. *)
Definition two_places (x : float) : string :=
  match Prim2SF x with
  | S754_zero s => (if s then "-" else "") +:+ "0.00"
  | S754_infinity s => if s then "-inf" else "inf"
  | S754_nan => "nan"
  | S754_finite s m e =>
      let n :=
        if 0 <=? e then Zpos m * 2 ^ e * 100
        else round_half_even_div (Zpos m * 100) (2 ^ (- e)) in
      (if s then "-" else "")
      +:+ grouped (n / 100) +:+ "." +:+ two_digits (n mod 100)
  end.

(** The dict that [suggest_pricing] returns; [pricing_currency] is its key
    "currency". *)
Record Suggestion := {
  pricing : list (string * Num);
  formatted : list (string * string);
  pricing_currency : string
}.

(** [{k: f(v) for k, v in d.items()}]. *)
Definition map_values {A B} (f : A -> B) (d : list (string * A))
  : list (string * B) :=
  map (fun kv => (kv.1, f kv.2)) d.

(** The same where [f] may raise. *)
Definition try_map_values {A B} (f : A -> option B) (d : list (string * A))
  : option (list (string * B)) :=
  mapM (fun kv => b ← f kv.2; Some (kv.1, b)) d.

Section SuggestPricing.

(** [int(s)] and [float(s)] for a string, [None] where they raise. *)
Variable int_of_str : string -> option Z.
Variable float_of_str : string -> option float.

(** [company_size] after the conversion: 0 for a lead without the key and
    for a text that [int] rejects. *)
Definition company_size_of (lead : Lead) : Z :=
  match lead !! "company_size" with
  | None => 0
  | Some s => default 0 (int_of_str s)
  end.

(** [revenue] after the conversion. *)
Definition revenue_of (lead : Lead) : Num :=
  match lead !! "estimated_revenue" with
  | None => IntV 0
  | Some s =>
      let s := Py.replace (Py.replace (Py.replace s "$" "") "₹" "") "," "" in
      match float_of_str s with
      | Some x => FloatV x
      | None => IntV 0
      end
  end.

Definition suggest_pricing (lead : Lead) : option Suggestion :=
  let country := lead_get lead "country" "US" in
  let revenue := revenue_of lead in
  let company_size := company_size_of lead in
  let pricing :=
    if String.eqb country "US" then
      [("standard", IntV 2500); ("premium", IntV 3500);
       ("enterprise", IntV 5000)]
    else
      [("standard", IntV 40000); ("premium", IntV 85000);
       ("enterprise", IntV 150000)] in
  let pricing :=
    if 100 <? company_size then
      map_values (times 0x1.3333333333333p+0) pricing
    else if company_size <? 10 then
      map_values (times 0x1.ccccccccccccdp-1) pricing
    else pricing in
  let pricing :=
    if String.eqb country "US" then
      if exceeds revenue 10000000 then
        map_values (times 0x1.4cccccccccccdp+0) pricing
      else if exceeds revenue 5000000 then
        map_values (times 0x1.199999999999ap+0) pricing
      else pricing
    else
      if exceeds revenue 100000000 then
        map_values (times 0x1.4cccccccccccdp+0) pricing
      else if exceeds revenue 50000000 then
        map_values (times 0x1.199999999999ap+0) pricing
      else pricing in
  formatted_pricing ←
    (if String.eqb country "US" then
       Some (map_values (fun v => "$" +:+ two_places (to_float v)) pricing)
     else
       try_map_values
         (fun v => n ← truncated v; Some ("₹" +:+ grouped n)) pricing);
  Some {| pricing := pricing;
          formatted := formatted_pricing;
          pricing_currency :=
            if String.eqb country "US" then "USD" else "INR" |}.

End SuggestPricing.

(** ** Process configuration and the outside world *)

(** The environment variables the services read when they are built. *)
Record Config := {
  gmail_username : option string;
  gmail_password : option string;
  outlook_email : option string;
  outlook_password : option string;
  calendly_link : string;
  (** [SheetsService.service] is not [None] *)
  sheets_service : bool;
  stripe_api_key : option string;
  (** [PaymentService.razorpay_client] is not [None] *)
  razorpay_client : bool;
  (** [from email_service import EmailService] resolves *)
  email_service_importable : bool
}.

Record SmtpConfig := {
  server : string;
  port : Z;
  username : option string;
  password : option string
}.

(** One call of [_send_email]: the connection it opens and the message. *)
Record Message := {
  m_smtp : SmtpConfig;
  m_to : option string;
  m_subject : string;
  m_html : string
}.

Record Campaign := {
  lead : Lead;
  sequence : string;
  last_contact : Z;
  follow_up_count : Z;
  max_follow_ups : Z;
  next_follow_up : Z
}.

(** [campaign["follow_up_count"] = n]. *)
Definition set_follow_up_count (c : Campaign) (n : Z) : Campaign :=
  {| lead := lead c; sequence := sequence c; last_contact := last_contact c;
     follow_up_count := n; max_follow_ups := max_follow_ups c;
     next_follow_up := next_follow_up c |}.

(** [campaign["last_contact"] = t; campaign["next_follow_up"] = t']. *)
Definition set_contact (c : Campaign) (t t' : Z) : Campaign :=
  {| lead := lead c; sequence := sequence c; last_contact := t;
     follow_up_count := follow_up_count c; max_follow_ups := max_follow_ups c;
     next_follow_up := t' |}.

(** The state the services share: the campaigns of the one [EmailService]
    of the application, the spreadsheet behind every [SheetsService], and
    the dispatch attempts made so far with their outcome. *)
Record World := {
  active_campaigns : list (option string * Campaign);
  sheets : Spreadsheet;
  outbox : list (Message * bool)
}.

Definition with_campaigns (w : World) (d : list (option string * Campaign))
  : World :=
  {| active_campaigns := d; sheets := sheets w; outbox := outbox w |}.

Definition with_sheets (w : World) (sp : Spreadsheet) : World :=
  {| active_campaigns := active_campaigns w; sheets := sp; outbox := outbox w |}.

(** [timedelta(days=3)] in microseconds. *)
Definition three_days : Z := 3 * 86400 * 1000000.

Definition newline : string := String (ascii_of_nat 10) EmptyString.

Global Instance SheetName_eq_dec : EqDecision SheetName.
Proof. solve_decision. Defined.

(** The value of the cell of column [col] in row [i] of a sheet, as
    [values().get] gives it: a cell that the row lacks reads as empty. *)
Definition cell (sp : Spreadsheet) (name : SheetName) (i col : nat) : string :=
  default "" (sheet_of sp name !! i ≫= fun row => row !! col).

(** An entry of the list "recent_activities" of [get_analytics_data]. *)
Record Activity := {
  activity_id : string;
  activity_name : string;
  activity_company : string;
  activity_status : string;
  activity_last_contact : string;
  activity_country : string
}.

Definition activity (l : Lead) : Activity :=
  {| activity_id := lead_get l "id" "";
     activity_name :=
       lead_get l "first_name" "" +:+ " " +:+ lead_get l "last_name" "";
     activity_company := lead_get l "company" "";
     activity_status := lead_get l "status" "";
     activity_last_contact := lead_get l "last_contact" "";
     activity_country := lead_get l "country" "" |}.

(** [sorted(xs, key=key, reverse=True)]: the stable sort by descending key,
    here by insertion.  The keys are compared byte by byte, which on UTF-8
    is the order of the code points that Python compares. *)
Section SortedDescending.
Context {A : Type} (key : A -> string).

Fixpoint insert_desc (x : A) (l : list A) : list A :=
  match l with
  | [] => [x]
  | y :: l' =>
      if String.leb (key x) (key y) then y :: insert_desc x l'
      else x :: y :: l'
  end.

Definition sorted_desc (l : list A) : list A :=
  fold_left (fun acc x => insert_desc x acc) l [].
End SortedDescending.

(** The answer of a route of the application (app.py): its data, or the
    status 500 when its body raises. *)
Inductive Reply (A : Type) :=
| Answer (data : A)
| ServerError.
Arguments Answer {A} data.
Arguments ServerError {A}.

(** The filters of the loop body of [get_leads]: [lead_ids], when it is
    given and not empty, has the id of the lead; [status], when it is given
    and not empty, is the status of the lead. *)
Definition keeps (lead_ids : list string) (status : option string)
    (lead : Lead) : bool :=
  negb (match lead_ids with [] => false | _ :: _ => true end
        && negb (bool_decide (lead !!! "id" ∈ lead_ids)))
  && negb (negb (Py.falsy_opt status)
           && negb (Py.eq_str status (lead !!! "status"))).

(** The end of the loop body of [get_leads]: a lead without a country gets
    the country of its sheet. *)
Definition inferred (name : SheetName) (lead : Lead) : Lead :=
  if Py.falsy (lead !!! "country")
  then <["country" := match name with
                      | US_Leads_sheet => "US"
                      | India_Leads_sheet => "IN"
                      end]> lead
  else lead.

(** ** A keyword in any mix of cases *)






(** ** Facts about the built-ins on [str] *)

Lemma string_app_nil (s : string) : "" +:+ s = s.
Proof. reflexivity. Qed.

Lemma string_app_cons (a : ascii) (s r : string) :
  String a s +:+ r = String a (s +:+ r).
Proof. reflexivity. Qed.

Lemma string_app_assoc (a b c : string) : (a +:+ b) +:+ c = a +:+ (b +:+ c).
Proof.
  induction a as [| x a IH]; [done |].
  by rewrite !string_app_cons, IH.
Qed.

Lemma prefix_cons (a b : ascii) (s t : string) :
  String.prefix (String a s) (String b t)
  = if Ascii.eqb a b then String.prefix s t else false.
Proof.
  change (String.prefix (String a s) (String b t))
    with (if ascii_dec a b then String.prefix s t else false).
  destruct (ascii_dec a b), (Ascii.eqb_spec a b); congruence.
Qed.

Lemma prefix_app (s r : string) : String.prefix s (s +:+ r) = true.
Proof.
  induction s as [| a s IH]; [by destruct r |].
  by rewrite string_app_cons, prefix_cons, Ascii.eqb_refl.
Qed.


Lemma contains_prefix t s :
  String.prefix t s = true -> Py.contains t s = true.
Proof. intros H. destruct s; cbn [Py.contains]; by rewrite H. Qed.

Lemma contains_app_r t a s :
  Py.contains t s = true -> Py.contains t (a +:+ s) = true.
Proof.
  intros H. induction a as [| c a IH]; [done |].
  rewrite string_app_cons. cbn [Py.contains]. rewrite IH. apply orb_true_r.
Qed.


Lemma lower_app a b : Py.lower (a +:+ b) = Py.lower a +:+ Py.lower b.
Proof.
  induction a as [| c a IH]; [done |].
  rewrite string_app_cons. cbn [Py.lower]. by rewrite IH, string_app_cons.
Qed.





Section Services.

Variable cfg : Config.

(** The SMTP server: whether the [k]-th dispatch attempt of the process
    goes through ([_send_email] returns [False] on any exception). *)
Variable smtp : nat -> Message -> bool.

(** [strftime('%Y-%m-%d %H:%M')] and [strftime('%Y-%m-%d %H:%M:%S')]. *)
Variable strftime_minute : Z -> string.
Variable strftime_second : Z -> string.

(** *** SheetsService *)

(** The three cell updates of [update_lead] on the row found. *)
Definition update_row (sh : Sheet) (i : nat) (row : Row)
    (status notes : string) (now : Z) : Sheet :=
  let sh1 := write_cell sh i col_status status in
  let current_notes := default "" (row !! col_notes) in
  let sh2 :=
    if Py.falsy notes then sh1
    else
      let updated_notes :=
        if Py.falsy current_notes
        then strftime_minute now +:+ " - " +:+ notes
        else current_notes +:+ newline +:+ strftime_minute now
             +:+ " - " +:+ notes in
      write_cell sh1 i col_notes updated_notes in
  write_cell sh2 i col_last_contact (strftime_second now).

(** [update_lead(lead_id, status, notes)]: the first row with the id, in
    "US_Leads" and then in "India_Leads", gets the status, the note and the
    time; the [IndexError] of the search is caught and gives [False]. *)
Definition update_lead (sp : Spreadsheet) (lead_id : option string)
    (status notes : string) (now : Z) : bool * Spreadsheet :=
  match lead_id with
  | None => (false, sp)
  | Some id =>
      if negb (sheets_service cfg) || Py.falsy id then (false, sp)
      else
        match scan_sheet (US_Leads sp) id with
        | Raised => (false, sp)
        | Found i row =>
            (true, with_sheet sp US_Leads_sheet
                     (update_row (US_Leads sp) i row status notes now))
        | Missing =>
            match scan_sheet (India_Leads sp) id with
            | Raised => (false, sp)
            | Found i row =>
                (true, with_sheet sp India_Leads_sheet
                         (update_row (India_Leads sp) i row status notes now))
            | Missing => (false, sp)
            end
        end
  end.

(** The notes cell after [update_lead] appended [notes]. *)
Definition appended_notes (row : Row) (notes : string) (now : Z) : string :=
  let current_notes := default "" (row !! col_notes) in
  if Py.falsy current_notes
  then strftime_minute now +:+ " - " +:+ notes
  else current_notes +:+ newline +:+ strftime_minute now +:+ " - " +:+ notes.

Definition updated_row (row : Row) (status notes : string) (now : Z) : Row :=
  let r1 := set_cell col_status status row in
  let r2 := if Py.falsy notes then r1
            else set_cell col_notes (appended_notes row notes now) r1 in
  set_cell col_last_contact (strftime_second now) r2.

(** The leads of one sheet that pass the filters of [get_leads]. *)
Definition sheet_leads (name : SheetName) (sh : Sheet)
    (lead_ids : list string) (status : option string) : list Lead :=
  if (length sh <=? 1)%nat then []
  else
    omap (fun row =>
      let lead := lead_of_row row in
      if match lead_ids with [] => false | _ :: _ => true end
         && negb (bool_decide (lead !!! "id" ∈ lead_ids))
      then None
      else if negb (Py.falsy_opt status)
              && negb (Py.eq_str status (lead !!! "status"))
      then None
      else if Py.falsy (lead !!! "country")
      then Some (<["country" :=
                    match name with
                    | US_Leads_sheet => "US"
                    | India_Leads_sheet => "IN"
                    end]> lead)
      else Some lead) (tail sh).

(** [get_leads(lead_ids, country, status)]; [lead_ids=None] is [[]]. *)
Definition get_leads (sp : Spreadsheet) (lead_ids : list string)
    (country status : option string) : list Lead :=
  if negb (sheets_service cfg) then []
  else
    let sheets_to_check :=
      if Py.eq_str country "US" then [US_Leads_sheet]
      else if Py.eq_str country "IN" then [India_Leads_sheet]
      else [US_Leads_sheet; India_Leads_sheet] in
    concat (map (fun n => sheet_leads n (sheet_of sp n) lead_ids status)
                sheets_to_check).

(** [get_lead(lead_id)]: [None] when no lead has the id. *)
Definition get_lead (sp : Spreadsheet) (lead_id : string) : option Lead :=
  head (get_leads sp [lead_id] None None).

(** The row [store_leads] writes for a lead. *)
Definition row_data (l : Lead) (now : Z) : Row :=
  [ lead_get l "id" ""; lead_get l "first_name" "";
    lead_get l "last_name" ""; lead_get l "email" "";
    lead_get l "phone" ""; lead_get l "linkedin_url" "";
    lead_get l "title" ""; lead_get l "company" "";
    lead_get l "company_website" ""; lead_get l "industry" "";
    lead_get l "company_size" ""; lead_get l "country" "";
    lead_get l "estimated_revenue" ""; lead_get l "status" "New";
    lead_get l "source" "Apollo.io"; strftime_second now;
    ""; lead_get l "notes" "" ].

Definition us_rows (leads : list Lead) (now : Z) : list Row :=
  map (fun l => row_data l now)
      (filter (fun l => Py.eq_str (l !! "country") "US" = true) leads).

Definition india_rows (leads : list Lead) (now : Z) : list Row :=
  map (fun l => row_data l now)
      (filter (fun l => Py.eq_str (l !! "country") "US" = false
                        ∧ Py.eq_str (l !! "country") "IN" = true) leads).

(** [if rows: values().append(..., INSERT_ROWS)]: the rows go under the
    table of the sheet. *)
Definition append_rows (sh : Sheet) (rows : list Row) : Sheet :=
  match rows with [] => sh | _ :: _ => sh ++ rows end.

(** [store_leads(leads)]. *)
Definition store_leads (sp : Spreadsheet) (leads : list Lead) (now : Z)
  : bool * Spreadsheet :=
  if negb (sheets_service cfg) then (false, sp)
  else
    match leads with
    | [] => (false, sp)
    | _ :: _ =>
        (true,
         {| US_Leads := append_rows (US_Leads sp) (us_rows leads now);
            India_Leads :=
              append_rows (India_Leads sp) (india_rows leads now) |})
    end.

(** The leads [store_leads] writes: those of country "US" or "IN". *)
Definition stored (l : Lead) : Prop :=
  l !! "country" = Some "US" \/ l !! "country" = Some "IN".

Global Instance stored_dec l : Decision (stored l).
Proof. unfold stored. apply _. Defined.

(** [SheetsService.get_analytics_data]; [None] is the empty dict of a
    service that was not initialised.  An exception of the division is
    caught and leaves the rate at its initial 0. *)
Definition get_analytics_data (sp : Spreadsheet)
  : option AnalyticsData :=
  if negb (sheets_service cfg) then None
  else
    let us := region_stats (get_leads sp [] (Some "US") None) in
    let india := region_stats (get_leads sp [] (Some "IN") None) in
    let total_leads := total us + total india in
    let paid_us := default 0 (Dict.get (by_status us) "Payment Received") in
    let paid_india :=
      default 0 (Dict.get (by_status india) "Payment Received") in
    let total_paid := paid_us + paid_india in
    let rate :=
      if 0 <? total_leads then
        match py_truediv total_paid total_leads with
        | inr q => (q * 100)%float
        | inl _ => 0%float
        end
      else 0%float in
    Some {| us_leads := us; india_leads := india;
            overall_conversion_rate := rate |}.

(** *** EmailService *)

Definition _get_smtp_connection (country : option string) : SmtpConfig :=
  if Py.eq_str country "US" then
    {| server := "smtp-mail.outlook.com"; port := 587;
       username := outlook_email cfg; password := outlook_password cfg |}
  else
    {| server := "smtp.gmail.com"; port := 587;
       username := gmail_username cfg; password := gmail_password cfg |}.

Definition message (to_email : option string) (subj html : string)
    (country : option string) : Message :=
  {| m_smtp := _get_smtp_connection country; m_to := to_email;
     m_subject := subj; m_html := html |}.

(** [_send_email]: one dispatch attempt, recorded with its outcome. *)
Definition _send_email (w : World) (to_email : option string)
    (subj html : string) (country : option string) : bool * World :=
  let m := message to_email subj html country in
  let ok := smtp (length (outbox w)) m in
  (ok, {| active_campaigns := active_campaigns w; sheets := sheets w;
          outbox := outbox w ++ [(m, ok)] |}).

Definition personalize (template : string) (l : Lead) : string :=
  _personalize_template (calendly_link cfg) template l.

(** The subject and body of a stage, rendered for a lead. *)
Definition render (stage : string) (l : Lead) : string * string :=
  let template_data := template_of stage (l !! "country") in
  (personalize (subject template_data) l,
   personalize (body template_data) l).

Definition sheets_update (w : World) (lead_id : option string)
    (status notes : string) (now : Z) : World :=
  with_sheets w (update_lead (sheets w) lead_id status notes now).2.

Inductive LeadResult :=
| Started (id : option string) (next : Z)
| Failed (id : option string) (reason : string).

Record Results := {
  success : nat;
  failed : nat;
  leads : list LeadResult
}.

(** The clock while [start_campaign] handles one lead whose email went
    out: the reading [update_lead] takes, and the two readings
    [datetime.now()] of the campaign record. *)
Record Readings := {
  at_update : Z;
  at_last_contact : Z;
  at_next_follow_up : Z
}.

(** The body of the loop of [start_campaign], with the readings of the
    clock for this lead. *)
Definition start_one (t : Readings) (st : Results * World) (l : Lead)
  : Results * World :=
  let '(results, w) := st in
  let lead_id := l !! "id" in
  let email := l !! "email" in
  let country := l !! "country" in
  if Py.falsy_opt email then
    ({| success := success results; failed := S (failed results);
        leads := leads results ++ [Failed lead_id "No email address"] |}, w)
  else
    let '(subj, html) := render "initial" l in
    let '(ok, w1) := _send_email w email subj html country in
    if ok then
      let w2 := sheets_update w1 lead_id "Initial Contact"
                              "Initial email sent" (at_update t) in
      let campaign :=
        {| lead := l; sequence := "initial";
           last_contact := at_last_contact t;
           follow_up_count := 0; max_follow_ups := 3;
           next_follow_up := at_next_follow_up t + three_days |} in
      ({| success := S (success results); failed := failed results;
          leads := leads results
                   ++ [Started lead_id (next_follow_up campaign)] |},
       with_campaigns w2 (Dict.set (active_campaigns w2) lead_id campaign))
    else
      ({| success := success results; failed := S (failed results);
          leads := leads results ++ [Failed lead_id "Email sending failed"] |},
       w1).

(** The loop of [start_campaign]: [clock i] holds the readings of the
    clock for the lead at position [i] of the list. *)
Fixpoint start_each (clock : nat -> Readings) (st : Results * World)
    (ls : list Lead) : Results * World :=
  match ls with
  | [] => st
  | l :: rest =>
      start_each (fun i => clock (S i)) (start_one (clock 0%nat) st l) rest
  end.

Definition start_campaign (w : World) (ls : list Lead)
    (clock : nat -> Readings) : Results * World :=
  start_each clock ({| success := 0; failed := 0; leads := [] |}, w) ls.

(** The body of the loop of [_process_follow_ups] for one entry of the
    snapshot [list(self.active_campaigns.items())].  [campaign] is the
    object the dict holds under [lead_id], so every assignment to one of
    its fields is an update of the dict entry. *)
Definition follow_up_one (now : Z) (w : World)
    (item : option string * Campaign) : World :=
  let '(lead_id, campaign) := item in
  if now <? next_follow_up campaign then w
  else if max_follow_ups campaign <=? follow_up_count campaign then
    let w1 := with_campaigns w (Dict.del (active_campaigns w) lead_id) in
    sheets_update w1 lead_id "No Response"
      ("Completed " +:+ str_of_int (follow_up_count campaign)
       +:+ " follow-ups with no response") now
  else
    let campaign1 :=
      set_follow_up_count campaign (follow_up_count campaign + 1) in
    let w1 :=
      with_campaigns w (Dict.mutate (active_campaigns w) lead_id campaign1) in
    let sequence_type :=
      "follow_up_" +:+ str_of_int (follow_up_count campaign1) in
    let l := lead campaign1 in
    let country := l !! "country" in
    let email := l !! "email" in
    let '(subj, html) := render sequence_type l in
    let '(ok, w2) := _send_email w1 email subj html country in
    if ok then
      let campaign2 := set_contact campaign1 now (now + three_days) in
      let w3 :=
        with_campaigns w2 (Dict.mutate (active_campaigns w2) lead_id campaign2) in
      sheets_update w3 lead_id "Follow-up"
        ("Follow-up email #" +:+ str_of_int (follow_up_count campaign2)
         +:+ " sent") now
    else w2.

(** [_process_follow_ups], run at time [now]. *)
Definition _process_follow_ups (w : World) (now : Z) : World :=
  fold_left (follow_up_one now) (active_campaigns w) w.

Definition call_keywords : list string :=
  ["call"; "meeting"; "schedule"; "calendly"; "available"; "time"].

(** [any(keyword in body.lower() for keyword in call_keywords)]. *)
Definition wants_call (body : string) : bool :=
  existsb (fun keyword => Py.contains keyword (Py.lower body)) call_keywords.

(** The fields [handle_reply] reads from the webhook data, each with the
    default "" for an absent key. *)
Record EmailData := {
  from : Json;
  reply_subject : Json;
  reply_body : Json
}.

Definition handle_reply (w : World) (email_data : EmailData) (now : Z)
  : bool * World :=
  let from_email := from email_data in
  let ls := get_leads (sheets w) [] None None in
  let matching_leads :=
    filter (fun l => PyJson.eq_json (l !! "email") from_email = true) ls in
  match matching_leads with
  | [] => (false, w)
  | l :: _ =>
      let lead_id := l !! "id" in
      let w1 :=
        if Dict.mem (active_campaigns w) lead_id
        then with_campaigns w (Dict.del (active_campaigns w) lead_id)
        else w in
      match reply_body email_data with
      | JString body =>
          if wants_call body then
            let country := l !! "country" in
            let '(subj, html) := render "call_invite" l in
            let '(_, w2) :=
              _send_email w1 (PyJson.as_str from_email) subj html country in
            (true, sheets_update w2 lead_id "Call Requested"
                     "Lead requested a call, sent Calendly link" now)
          else
            (true, sheets_update w1 lead_id "Replied"
                     ("Lead replied: " +:+ PyJson.str (reply_subject email_data))
                     now)
      | JNull | JOther _ =>
          (* [body.lower()] raises, the handler logs and returns [False] *)
          (false, w1)
      end
  end.

(** The amount of a payment link is a JSON number handed through to the
    processors; its renderings are those of the floating-point
    formatting of Python. *)
Variable Amount : Type.

(** [f"{amount:,.2f}"] for a US lead, [f"{int(amount):,}"] otherwise;
    [None] when the formatting raises. *)
Variable format_price : bool -> Amount -> option string.

Definition send_payment_link (w : World) (l : Lead) (amount : Amount)
    (now : Z) : bool * World :=
  let lead_id := l !! "id" in
  let email := l !! "email" in
  let country := l !! "country" in
  if Py.falsy_opt email then (false, w)
  else
    match format_price (Py.eq_str country "US") amount with
    | None => (false, w)
    | Some formatted_price =>
        let l' := <["price" := formatted_price]> l in
        let '(subj, html) := render "pricing_info" l' in
        let '(ok, w1) := _send_email w email subj html country in
        if ok then
          let w2 := sheets_update w1 lead_id "Payment Link Sent"
                      ("Sent payment link for " +:+ formatted_price) now in
          (true,
           if Dict.mem (active_campaigns w2) lead_id
           then with_campaigns w2 (Dict.del (active_campaigns w2) lead_id)
           else w2)
        else (false, w1)
    end.

(** *** PaymentService *)

Inductive Processor := Stripe | Razorpay.

(** What [create_payment_link] asks of a processor. *)
Record LinkRequest := {
  processor : Processor;
  currency : string;
  link_amount : Amount;
  description : string;
  meta_lead_id : string;
  meta_country : string
}.

(** The answer of a processor: the URL of the link, a [StripeError] with
    its text, or another exception. *)
Inductive ApiResult :=
| Url (payment_url : string)
| StripeError (e : string)
| OtherError.

Variable payment_api : LinkRequest -> ApiResult.

(** [str(amount)] and [str(int(amount))] in the notes of the lead. *)
Variable amount_text : Amount -> string.
Variable int_amount_text : Amount -> string.

(** The link [_create_stripe_payment_link] asks Stripe for. *)
Definition stripe_request (amount : Amount) (l : Lead) : LinkRequest :=
  {| processor := Stripe; currency := "usd"; link_amount := amount;
     description := "Consulting Services for "
                    +:+ lead_get l "company" "Your Business";
     meta_lead_id := lead_get l "id" "";
     meta_country := "US" |}.

(** The link [_create_razorpay_payment_link] asks Razorpay for. *)
Definition razorpay_request (amount : Amount) (l : Lead) : LinkRequest :=
  {| processor := Razorpay; currency := "INR"; link_amount := amount;
     description := "Consulting Services for "
                    +:+ lead_get l "company" "Your Business";
     meta_lead_id := lead_get l "id" "";
     meta_country := "IN" |}.

Definition _create_stripe_payment_link (w : World) (amount : Amount)
    (l : Lead) (now : Z) : string * World :=
  match stripe_api_key cfg with
  | None => ("#stripe-not-configured", w)
  | Some key =>
      if Py.falsy key then ("#stripe-not-configured", w)
      else
        match payment_api (stripe_request amount l) with
        | StripeError e => ("#stripe-error: " +:+ e, w)
        | OtherError => ("#payment-error", w)
        | Url payment_url =>
            (payment_url,
             sheets_update w (Some (lead_get l "id" ""))
               "Payment Link Created"
               ("Created Stripe payment link: " +:+ payment_url
                +:+ " for $" +:+ amount_text amount) now)
        end
  end.

Definition _create_razorpay_payment_link (w : World) (amount : Amount)
    (l : Lead) (now : Z) : string * World :=
  if negb (razorpay_client cfg) then ("#razorpay-not-configured", w)
  else
    match payment_api (razorpay_request amount l) with
    | StripeError _ | OtherError => ("#payment-error", w)
    | Url payment_url =>
        (payment_url,
         sheets_update w (Some (lead_get l "id" ""))
           "Payment Link Created"
           ("Created Razorpay payment link: " +:+ payment_url
            +:+ " for ₹" +:+ int_amount_text amount) now)
    end.

Definition create_payment_link (w : World) (country : option string)
    (amount : Amount) (l : Lead) (now : Z) : string * World :=
  if Py.eq_str country "US"
  then _create_stripe_payment_link w amount l now
  else _create_razorpay_payment_link w amount l now.

(** The request [create_payment_link] makes for a country. *)
Definition link_request (country : option string) (amount : Amount)
    (l : Lead) : LinkRequest :=
  if Py.eq_str country "US" then stripe_request amount l
  else razorpay_request amount l.

(** What a country selects in the three services: the SMTP server of
    [_get_smtp_connection], the processor and currency of
    [create_payment_link], the template set of [start_campaign]. *)
Record Routing := {
  smtp_server : string;
  link_processor : Processor;
  link_currency : string;
  template_set : string
}.

Definition routing (country : option string) (amount : Amount) (l : Lead)
  : Routing :=
  {| smtp_server := server (_get_smtp_connection country);
     link_processor := processor (link_request country amount l);
     link_currency := currency (link_request country amount l);
     template_set := country_code country |}.

(** [str(x)] for a value that is a [str] or [None]. *)
Definition str_of_opt (o : option string) : string := default "None" o.

(** [_send_onboarding_email(lead)], where [lead] is the result of
    [get_lead].  The [EmailService()] it builds is a new object, with
    campaigns of its own; it shares the SMTP server and the spreadsheet. *)
Definition _send_onboarding_email (w : World) (lead : option Lead)
    (now : Z) : bool * World :=
  if negb (email_service_importable cfg) then (false, w)
  else
    match lead with
    | None => (false, w)
    | Some l =>
        let country := lead_get l "country" "US" in
        let email := lead_get l "email" "" in
        if Py.falsy email then (false, w)
        else
          let '(subj, template) :=
            if String.eqb country "US" then
              ("Welcome onboard, " +:+ str_of_opt (l !! "first_name")
               +:+ "! Next steps for " +:+ str_of_opt (l !! "company"),
               onboarding_template_us)
            else
              ("Welcome to our services, " +:+ str_of_opt (l !! "first_name")
               +:+ "! Next steps for " +:+ str_of_opt (l !! "company"),
               onboarding_template_other) in
          let html := personalize template l in
          let '(ok, w1) :=
            _send_email w (Some email) subj html (Some country) in
          if ok then
            (true, sheets_update w1 (Some (lead_get l "id" ""))
                     "Onboarding" "Sent onboarding email" now)
          else (false, w1)
    end.

(** The fields the payment webhooks read from the posted JSON, with the
    defaults of their [get] calls; the amounts are in cents and paise. *)
Record WebhookData := {
  source : string;
  event_type : string;
  event : string;
  stripe_lead_id : string;
  amount_total : Z;
  razorpay_lead_id : string;
  razorpay_amount : Z
}.

(** [f"{amount_total / 100:.2f}"] and [f"{int(amount / 100)}"]. *)
Variable format_dollars : Z -> string.
Variable format_rupees : Z -> string.

Definition _handle_stripe_webhook (w : World) (d : WebhookData) (now : Z)
  : bool * World :=
  if String.eqb (event_type d) "checkout.session.completed" then
    let lead_id := stripe_lead_id d in
    if Py.falsy lead_id then (false, w)
    else
      let w1 := sheets_update w (Some lead_id) "Payment Received"
                  ("Received Stripe payment of $"
                   +:+ format_dollars (amount_total d)) now in
      let l := get_lead (sheets w1) lead_id in
      (true, (_send_onboarding_email w1 l now).2)
  else (false, w).

Definition _handle_razorpay_webhook (w : World) (d : WebhookData) (now : Z)
  : bool * World :=
  if String.eqb (event d) "payment.authorized" then
    let lead_id := razorpay_lead_id d in
    if Py.falsy lead_id then (false, w)
    else
      let w1 := sheets_update w (Some lead_id) "Payment Received"
                  ("Received Razorpay payment of ₹"
                   +:+ format_rupees (razorpay_amount d)) now in
      let l := get_lead (sheets w1) lead_id in
      (true, (_send_onboarding_email w1 l now).2)
  else (false, w).

Definition handle_webhook (w : World) (d : WebhookData) (now : Z)
  : bool * World :=
  if String.eqb (source d) "stripe" then _handle_stripe_webhook w d now
  else if String.eqb (source d) "razorpay"
  then _handle_razorpay_webhook w d now
  else (false, w).

(** The message of the follow-up a campaign is due. *)
Definition follow_up_message (c : Campaign) : Message :=
  let c1 := set_follow_up_count c (follow_up_count c + 1) in
  let '(subj, html) :=
    render ("follow_up_" +:+ str_of_int (follow_up_count c1)) (lead c1) in
  message (lead c1 !! "email") subj html (lead c1 !! "country").

Definition closing_note (c : Campaign) : string :=
  "Completed " +:+ str_of_int (follow_up_count c)
  +:+ " follow-ups with no response".

(** *** The states of a run *)

(** A sequence of follow-up passes, at the times [nows]. *)
Definition run_ticks (w : World) (nows : list Z) : World :=
  fold_left _process_follow_ups nows w.

(** The worlds a process reaches: it starts without campaigns, and then
    campaigns are started, the scheduler runs the follow-up pass, the
    webhooks and the payment links are handled, and the spreadsheet is
    edited (by [store_leads], by the update route, by its users). *)
Inductive reachable : World -> Prop :=
| reach_init sp :
    reachable {| active_campaigns := []; sheets := sp; outbox := [] |}
| reach_start w ls now :
    reachable w -> reachable (start_campaign w ls now).2
| reach_tick w now :
    reachable w -> reachable (_process_follow_ups w now)
| reach_reply w d now :
    reachable w -> reachable (handle_reply w d now).2
| reach_payment_link w l amount now :
    reachable w -> reachable (send_payment_link w l amount now).2
| reach_create_link w country amount l now :
    reachable w -> reachable (create_payment_link w country amount l now).2
| reach_webhook w d now :
    reachable w -> reachable (handle_webhook w d now).2
| reach_sheets w sp :
    reachable w -> reachable (with_sheets w sp).

(** The bound of a campaign record: [max_follow_ups] is the 3 that
    [start_campaign] writes, and the count is within it. *)
Definition within_limit (c : Campaign) : Prop :=
  follow_up_count c <= max_follow_ups c /\ max_follow_ups c = 3.

Definition campaigns_within_limit (w : World) : Prop :=
  forall k c, In (k, c) (active_campaigns w) -> within_limit c.

(** A campaign is due at [now]. *)
Definition due (now : Z) (c : Campaign) : Prop := next_follow_up c <= now.

(** The pass sends a follow-up for a campaign: it is due and below its
    maximum. *)
Definition dispatches (now : Z) (c : Campaign) : bool :=
  (next_follow_up c <=? now) && (follow_up_count c <? max_follow_ups c).

(** The dispatch attempts of a pass over the snapshot [items], after [n]
    earlier attempts of the process: one for each campaign that is due
    and below its maximum, in the order of the snapshot. *)
Fixpoint attempts (now : Z) (items : list (option string * Campaign))
    (n : nat) : list (Message * bool) :=
  match items with
  | [] => []
  | (_, c) :: rest =>
      if dispatches now c
      then (follow_up_message c, smtp n (follow_up_message c))
             :: attempts now rest (S n)
      else attempts now rest n
  end.

(** No campaign of the dict is due at [now]. *)
Definition settled (now : Z) (d : list (option string * Campaign)) : Prop :=
  forall k c, In (k, c) d -> now < next_follow_up c.

(** A dict has one entry per key. *)
Definition one_record_per_lead (w : World) : Prop :=
  NoDup (Dict.keys (active_campaigns w)).

(** The message [start_campaign] sends a lead: the "initial" template of
    its country, rendered for the lead. *)
Definition initial_message (l : Lead) : Message :=
  message (l !! "email") (render "initial" l).1 (render "initial" l).2
          (l !! "country").

(** The record [start_campaign] writes for a lead, with the readings [t]
    of the clock. *)
Definition new_campaign (l : Lead) (t : Readings) : Campaign :=
  {| lead := l; sequence := "initial"; last_contact := at_last_contact t;
     follow_up_count := 0; max_follow_ups := 3;
     next_follow_up := at_next_follow_up t + three_days |}.

(** The record of a campaign after a follow-up went out at [now]. *)
Definition advanced (c : Campaign) (now : Z) : Campaign :=
  set_contact (set_follow_up_count c (follow_up_count c + 1))
              now (now + three_days).

(** The list "recent_activities" of [get_analytics_data]: the ten leads
    contacted last, leads of "US_Leads" before leads of "India_Leads" where
    the times are equal.  It is empty for a service that was not
    initialised, whose analytics are the empty dict. *)
Definition recent_activities (sp : Spreadsheet) : list Activity :=
  if negb (sheets_service cfg) then []
  else
    let us_leads := get_leads sp [] (Some "US") None in
    let india_leads := get_leads sp [] (Some "IN") None in
    let all_leads := us_leads ++ india_leads in
    let sorted_leads :=
      sorted_desc (fun x => lead_get x "last_contact" "") all_leads in
    map activity (take 10 sorted_leads).

(** *** TrackingService (tracking_service.py) *)



(** *** The routes of the application (app.py) *)

(** [POST /api/outreach/start]: [lead_ids] is the list posted, empty when
    the request has none. *)
Definition start_outreach (w : World) (lead_ids : list string)
    (clock : nat -> Readings) : Reply Results * World :=
  let leads := get_leads (sheets w) lead_ids None None in
  let '(results, w') := start_campaign w leads clock in
  (Answer results, w').

(** [POST /api/payment/create]: the [AttributeError] of [lead.get] on the
    [None] of an unknown lead gives the status 500. *)
Definition create_payment (w : World) (lead_id : option string)
    (amount : Amount) (now : Z) : Reply string * World :=
  match lead_id ≫= get_lead (sheets w) with
  | None => (ServerError, w)
  | Some lead =>
      let country := lead_get lead "country" "US" in
      let '(payment_link, w1) :=
        create_payment_link w (Some country) amount lead now in
      (Answer payment_link,
       sheets_update w1 lead_id "Payment Sent"
                     ("Payment link: " +:+ payment_link) now)
  end.

(** [POST /api/webhook/email] and [POST /api/webhook/payment]: the result
    of the handler is dropped. *)
Definition email_webhook (w : World) (d : EmailData) (now : Z)
  : Reply unit * World :=
  (Answer tt, (handle_reply w d now).2).

Definition payment_webhook (w : World) (d : WebhookData) (now : Z)
  : Reply unit * World :=
  (Answer tt, (handle_webhook w d now).2).

(** The lead a payment webhook reports a payment of: the lead id of a
    payment-success event of Stripe ("checkout.session.completed") or of
    Razorpay ("payment.authorized"), when the event has one. *)
Definition paid_lead (d : WebhookData) : option string :=
  if String.eqb (source d) "stripe" then
    if String.eqb (event_type d) "checkout.session.completed"
       && negb (Py.falsy (stripe_lead_id d))
    then Some (stripe_lead_id d) else None
  else if String.eqb (source d) "razorpay" then
    if String.eqb (event d) "payment.authorized"
       && negb (Py.falsy (razorpay_lead_id d))
    then Some (razorpay_lead_id d) else None
  else None.

(** The note of the payment that the webhook writes. *)
Definition payment_note (d : WebhookData) : string :=
  if String.eqb (source d) "stripe"
  then "Received Stripe payment of $" +:+ format_dollars (amount_total d)
  else "Received Razorpay payment of ₹" +:+ format_rupees (razorpay_amount d).


(** *** The follow-up pass, case by case *)

Lemma follow_up_one_not_due now w k c :
  now < next_follow_up c -> follow_up_one now w (k, c) = w.
Proof.
  intros H. unfold follow_up_one.
  destruct (Z.ltb_spec now (next_follow_up c)); [reflexivity | lia].
Qed.

Lemma follow_up_one_exhausted now w k c :
  next_follow_up c <= now ->
  max_follow_ups c <= follow_up_count c ->
  follow_up_one now w (k, c) =
    sheets_update (with_campaigns w (Dict.del (active_campaigns w) k))
                  k "No Response" (closing_note c) now.
Proof.
  intros Hdue Hmax. unfold follow_up_one.
  destruct (Z.ltb_spec now (next_follow_up c)); [lia |].
  destruct (Z.leb_spec (max_follow_ups c) (follow_up_count c)); [| lia].
  reflexivity.
Qed.

Lemma follow_up_one_send now w k c :
  next_follow_up c <= now ->
  follow_up_count c < max_follow_ups c ->
  let c1 := set_follow_up_count c (follow_up_count c + 1) in
  let m := follow_up_message c in
  let d1 := Dict.mutate (active_campaigns w) k c1 in
  follow_up_one now w (k, c) =
    if smtp (length (outbox w)) m then
      sheets_update
        {| active_campaigns :=
             Dict.mutate d1 k (set_contact c1 now (now + three_days));
           sheets := sheets w;
           outbox := outbox w ++ [(m, true)] |}
        k "Follow-up"
        ("Follow-up email #" +:+ str_of_int (follow_up_count c1) +:+ " sent")
        now
    else
      {| active_campaigns := d1; sheets := sheets w;
         outbox := outbox w ++ [(m, false)] |}.
Proof.
  intros Hdue Hmax c1 m d1. unfold follow_up_one.
  destruct (Z.ltb_spec now (next_follow_up c)); [lia |].
  destruct (Z.leb_spec (max_follow_ups c) (follow_up_count c)); [lia |].
  fold c1. subst m. unfold follow_up_message. fold c1.
  destruct (render _ (lead c1)) as [subj html].
  unfold _send_email. cbn [with_campaigns outbox sheets active_campaigns].
  fold d1.
  destruct (smtp _ _); reflexivity.
Qed.

(** *** What [update_lead] does to the row of a lead *)

Lemma write_cell_insert sh i col v row :
  sh !! i = Some row -> write_cell sh i col v = <[i := set_cell col v row]> sh.
Proof.
  intros H. unfold write_cell.
  apply list_eq. intros j. destruct (decide (i = j)) as [<- | Hne].
  - rewrite list_lookup_alter_eq, H. cbn.
    rewrite list_lookup_insert_eq; [done |]. by eapply lookup_lt_Some.
  - by rewrite list_lookup_alter_ne, list_lookup_insert_ne.
Qed.

Lemma update_row_insert sh i row status notes now :
  sh !! i = Some row ->
  update_row sh i row status notes now
  = <[i := updated_row row status notes now]> sh.
Proof.
  intros H. unfold update_row, updated_row.
  assert (Hlt : (i < length sh)%nat) by (by eapply lookup_lt_Some).
  rewrite (write_cell_insert sh i col_status status row H).
  fold (appended_notes row notes now).
  set (r1 := set_cell col_status status row).
  destruct (Py.falsy notes).
  - rewrite (write_cell_insert _ i _ _ r1)
      by (by apply list_lookup_insert_eq).
    by rewrite list_insert_insert_eq.
  - rewrite (write_cell_insert (<[i:=r1]> sh) i col_notes _ r1)
      by (by apply list_lookup_insert_eq).
    rewrite list_insert_insert_eq.
    rewrite (write_cell_insert _ i col_last_contact _
               (set_cell col_notes (appended_notes row notes now) r1))
      by (by apply list_lookup_insert_eq).
    by rewrite list_insert_insert_eq.
Qed.

Lemma set_cell_head col v row :
  (0 < col)%nat -> row <> [] -> head (set_cell col v row) = head row.
Proof.
  intros Hc Hr. unfold set_cell.
  destruct row as [| c row]; [done |].
  destruct col; [lia |]. reflexivity.
Qed.

Lemma set_cell_nonempty col v row : set_cell col v row <> [].
Proof.
  unfold set_cell. intros H. apply (f_equal length) in H.
  rewrite length_insert, length_app, length_replicate in H. cbn in H. lia.
Qed.

Lemma set_cell_lookup col v row : set_cell col v row !! col = Some v.
Proof.
  unfold set_cell. apply list_lookup_insert_eq.
  rewrite length_app, length_replicate. lia.
Qed.

Lemma updated_row_head row status notes now :
  row <> [] -> head (updated_row row status notes now) = head row.
Proof.
  intros Hr. unfold updated_row.
  rewrite set_cell_head; [| unfold col_last_contact; lia |].
  - destruct (Py.falsy notes).
    + apply set_cell_head; [unfold col_status; lia | done].
    + rewrite set_cell_head;
        [| unfold col_notes; lia | apply set_cell_nonempty].
      apply set_cell_head; [unfold col_status; lia | done].
  - destruct (Py.falsy notes); apply set_cell_nonempty.
Qed.

Lemma set_cell_lookup_other col col' v row x :
  col <> col' -> row !! col' = Some x -> set_cell col v row !! col' = Some x.
Proof.
  intros Hne Hx. unfold set_cell.
  rewrite list_lookup_insert_ne by done.
  rewrite lookup_app_l by (by eapply lookup_lt_Some). done.
Qed.

Lemma updated_row_status row status notes now :
  updated_row row status notes now !! col_status = Some status.
Proof.
  unfold updated_row.
  apply set_cell_lookup_other; [done |].
  destruct (Py.falsy notes).
  - apply set_cell_lookup.
  - apply set_cell_lookup_other; [done |]. apply set_cell_lookup.
Qed.

Lemma updated_row_notes row status notes now :
  Py.falsy notes = false ->
  updated_row row status notes now !! col_notes
  = Some (appended_notes row notes now).
Proof.
  intros Hn. unfold updated_row. rewrite Hn.
  apply set_cell_lookup_other; [done |]. apply set_cell_lookup.
Qed.

Lemma find_row_Found rows id j i row :
  find_row rows id j = Found i row ->
  (j <= i)%nat /\ rows !! (i - j)%nat = Some row /\ head row = Some id.
Proof.
  revert j. induction rows as [| r rows IH]; intros j H; [done |].
  cbn in H. destruct r as [| c r]; [done |].
  destruct (String.eqb_spec c id) as [-> | Hne].
  - inversion H; subst. rewrite Nat.sub_diag. auto.
  - apply IH in H as (Hle & Hl & Hh).
    split; [lia |]. split; [| done].
    replace (i - j)%nat with (S (i - S j)) by lia. done.
Qed.

Lemma find_row_insert rows id j i row row' :
  find_row rows id j = Found i row ->
  head row' = Some id ->
  find_row (<[(i - j)%nat := row']> rows) id j = Found i row'.
Proof.
  revert j. induction rows as [| r rows IH]; intros j H Hh; [done |].
  cbn in H. destruct r as [| c r]; [done |].
  destruct (String.eqb_spec c id) as [-> | Hne].
  - inversion H; subst. rewrite Nat.sub_diag. cbn.
    destruct row' as [| c' row']; [done |]. cbn in Hh. inversion Hh; subst.
    by rewrite String.eqb_refl.
  - pose proof (find_row_Found _ _ _ _ _ H) as (Hle & _ & _).
    replace (i - j)%nat with (S (i - S j)) by lia. cbn.
    destruct (String.eqb_spec c id); [done |]. by apply IH.
Qed.

Lemma find_row_insert_frame rows id id' j i row row' :
  find_row rows id j = Found i row ->
  head row' = Some id ->
  id' <> id ->
  find_row (<[(i - j)%nat := row']> rows) id' j = find_row rows id' j.
Proof.
  revert j. induction rows as [| r rows IH]; intros j H Hh Hne'; [done |].
  cbn in H. destruct r as [| c r]; [done |].
  destruct (String.eqb_spec c id) as [-> | Hne].
  - inversion H; subst. rewrite Nat.sub_diag. cbn.
    destruct row' as [| c' row']; [done |]. cbn in Hh. inversion Hh; subst.
    destruct (String.eqb_spec id id'); [congruence | done].
  - pose proof (find_row_Found _ _ _ _ _ H) as (Hle & _ & _).
    replace (i - j)%nat with (S (i - S j)) by lia. cbn.
    destruct (String.eqb_spec c id'); [done |]. by apply IH.
Qed.

Lemma scan_sheet_Found sh id i row :
  scan_sheet sh id = Found i row ->
  (1 <= i)%nat /\ sh !! i = Some row /\ head row = Some id.
Proof.
  unfold scan_sheet. destruct (length sh <=? 1)%nat; [done |].
  intros H. apply find_row_Found in H as (Hle & Hl & Hh).
  split; [done |]. split; [| done].
  destruct sh as [| h sh]; [done |]. cbn in Hl.
  replace i with (S (i - 1)) by lia. done.
Qed.

Lemma scan_sheet_insert sh id i row row' :
  scan_sheet sh id = Found i row ->
  head row' = Some id ->
  scan_sheet (<[i := row']> sh) id = Found i row'.
Proof.
  intros H Hh. pose proof (scan_sheet_Found _ _ _ _ H) as (Hle & _ & _).
  unfold scan_sheet in *. rewrite length_insert.
  destruct (length sh <=? 1)%nat; [done |].
  destruct sh as [| h sh]; [done |].
  replace i with (S (i - 1)) at 1 by lia. cbn.
  by eapply find_row_insert.
Qed.

Lemma scan_sheet_insert_frame sh id id' i row row' :
  scan_sheet sh id = Found i row ->
  head row' = Some id ->
  id' <> id ->
  scan_sheet (<[i := row']> sh) id' = scan_sheet sh id'.
Proof.
  intros H Hh Hne. pose proof (scan_sheet_Found _ _ _ _ H) as (Hle & _ & _).
  unfold scan_sheet in *. rewrite length_insert.
  destruct (length sh <=? 1)%nat; [done |].
  destruct sh as [| h sh]; [done |].
  replace i with (S (i - 1)) at 1 by lia. cbn.
  by eapply find_row_insert_frame.
Qed.

(** A lead that is in the spreadsheet under its id gets the new status
    and the note; its row stays the row of the lead. *)
Lemma update_lead_found sp id row status notes now :
  sheets_service cfg = true ->
  id <> "" ->
  lead_row sp id = Some row ->
  (update_lead sp (Some id) status notes now).1 = true /\
  lead_row (update_lead sp (Some id) status notes now).2 id
  = Some (updated_row row status notes now).
Proof.
  intros Hs Hid Hrow. unfold update_lead, lead_row in *. rewrite Hs. cbn.
  destruct id as [| a id]; [done |]. cbn [Py.falsy].
  set (lid := String a id) in *.
  destruct (scan_sheet (US_Leads sp) lid) as [i r | |] eqn:Eus; [| | done].
  - inversion Hrow; subst r. cbn.
    pose proof (scan_sheet_Found _ _ _ _ Eus) as (_ & Hl & Hh).
    rewrite (update_row_insert _ _ _ _ _ _ Hl).
    rewrite (scan_sheet_insert _ _ _ _ (updated_row row status notes now) Eus).
    + done.
    + rewrite updated_row_head; [done |]. by destruct row.
  - destruct (scan_sheet (India_Leads sp) lid) as [i r | |] eqn:Ein;
      [| done | done].
    inversion Hrow; subst r. cbn. rewrite Eus.
    pose proof (scan_sheet_Found _ _ _ _ Ein) as (_ & Hl & Hh).
    rewrite (update_row_insert _ _ _ _ _ _ Hl).
    rewrite (scan_sheet_insert _ _ _ _ (updated_row row status notes now) Ein).
    + done.
    + rewrite updated_row_head; [done |]. by destruct row.
Qed.

(** [update_lead] for one lead leaves the row of every other lead alone. *)
Lemma update_lead_frame sp k id status notes now :
  k <> Some id ->
  lead_row (update_lead sp k status notes now).2 id = lead_row sp id.
Proof.
  intros Hne. unfold update_lead.
  destruct k as [id' |]; [| done].
  assert (Hid : id <> id') by congruence.
  destruct (negb (sheets_service cfg) || Py.falsy id'); [done |].
  destruct (scan_sheet (US_Leads sp) id') as [i r | |] eqn:Eus; [| | done].
  - cbn. unfold lead_row. cbn.
    pose proof (scan_sheet_Found _ _ _ _ Eus) as (_ & Hl & Hh).
    rewrite (update_row_insert _ _ _ _ _ _ Hl).
    rewrite (scan_sheet_insert_frame _ id' id i r); [done | done | | done].
    rewrite updated_row_head; [done |]. by destruct r.
  - destruct (scan_sheet (India_Leads sp) id') as [i r | |] eqn:Ein;
      [| done | done].
    cbn. unfold lead_row. cbn.
    pose proof (scan_sheet_Found _ _ _ _ Ein) as (_ & Hl & Hh).
    rewrite (update_row_insert _ _ _ _ _ _ Hl).
    rewrite (scan_sheet_insert_frame _ id' id i r); [done | done | | done].
    rewrite updated_row_head; [done |]. by destruct r.
Qed.

(** [update_lead] writes nothing for an empty id and for an id whose row
    the search does not reach. *)
Lemma update_lead_lost sp id status notes now :
  id = "" \/ lead_row sp id = None ->
  update_lead sp (Some id) status notes now = (false, sp).
Proof.
  intros H. unfold update_lead.
  destruct (sheets_service cfg); cbn [negb orb]; [| done].
  destruct H as [-> | H]; [done |].
  destruct (Py.falsy id); [done |]. unfold lead_row in H.
  destruct (scan_sheet (US_Leads sp) id); [done | | done].
  by destruct (scan_sheet (India_Leads sp) id).
Qed.

(** The row that the search of [update_lead] finds for an id, after the
    call: the updated row when the service is on and the id is not empty,
    the row as it was otherwise, and no row where the search finds none. *)
Lemma update_lead_row sp id status notes now :
  lead_row (update_lead sp (Some id) status notes now).2 id
  = if sheets_service cfg && negb (Py.falsy id)
    then (fun row => updated_row row status notes now) <$> lead_row sp id
    else lead_row sp id.
Proof.
  destruct (sheets_service cfg) eqn:Hs; cbn [andb].
  - destruct (Py.falsy id) eqn:Hid; cbn [negb].
    + rewrite update_lead_lost; [done |]. left. by destruct id.
    + destruct (lead_row sp id) as [row |] eqn:Hrow; cbn [fmap option_fmap option_map].
      * apply update_lead_found; [done | by intros -> | done].
      * by rewrite update_lead_lost by (by right).
  - unfold update_lead. by rewrite Hs.
Qed.


(** *** Facts on the dictionary of campaigns *)

Section DictFacts.
Context {K V : Type} `{EqDecision K}.
Implicit Types (d : list (K * V)) (k : K) (v : V).

Lemma dict_del_absent d k : Dict.get d k = None -> Dict.del d k = d.
Proof.
  induction d as [| [k' v'] d IH]; [done |]. cbn.
  destruct (decide (k' = k)); [done |]. intros H. by rewrite IH.
Qed.

Lemma dict_get_In d k v : Dict.get d k = Some v -> In (k, v) d.
Proof.
  induction d as [| [k' v'] d IH]; [done |]. cbn.
  destruct (decide (k' = k)) as [-> | Hne].
  - intros [= ->]. by left.
  - intros H. right. by apply IH.
Qed.

Lemma dict_In_del d k k' v' :
  In (k', v') (Dict.del d k) -> In (k', v') d /\ k' <> k.
Proof.
  induction d as [| [k0 v0] d IH]; [done |]. cbn.
  destruct (decide (k0 = k)) as [-> | Hk].
  - intros H. apply IH in H as [??]. auto.
  - intros [[= -> ->] | H]; [auto |]. apply IH in H as [??]. auto.
Qed.

Lemma dict_In_mutate d k v k' v' :
  In (k', v') (Dict.mutate d k v) ->
  In (k', v') d \/ (k' = k /\ v' = v).
Proof.
  induction d as [| [k0 v0] d IH]; [done |]. cbn.
  destruct (decide (k0 = k)) as [-> | Hk].
  - intros [[= -> ->] | H]; auto.
  - intros [[= -> ->] | H]; [auto |]. apply IH in H as [? | ?]; auto.
Qed.

Lemma dict_In_set d k v k' v' :
  In (k', v') (Dict.set d k v) ->
  In (k', v') d \/ (k' = k /\ v' = v).
Proof.
  induction d as [| [k0 v0] d IH]; cbn.
  - intros [[= -> ->] | []]. auto.
  - destruct (decide (k0 = k)) as [-> | Hk].
    + intros [[= -> ->] | H]; auto.
    + intros [[= -> ->] | H]; [auto |]. apply IH in H as [? | ?]; auto.
Qed.

Lemma dict_keys_del d k k' :
  In k' (Dict.keys (Dict.del d k)) -> In k' (Dict.keys d) /\ k' <> k.
Proof.
  unfold Dict.keys. induction d as [| [k0 v0] d IH]; [done |]. cbn.
  destruct (decide (k0 = k)) as [-> | Hk].
  - intros H. apply IH in H as [??]. auto.
  - cbn. intros [<- | H]; [auto |]. apply IH in H as [??]. auto.
Qed.

Lemma dict_keys_mutate d k v : Dict.keys (Dict.mutate d k v) = Dict.keys d.
Proof.
  unfold Dict.keys. induction d as [| [k0 v0] d IH]; [done |]. cbn.
  destruct (decide (k0 = k)) as [-> | Hk]; cbn; [done |]. by rewrite IH.
Qed.

Lemma dict_keys_set d k v k' :
  In k' (Dict.keys (Dict.set d k v)) -> In k' (Dict.keys d) \/ k' = k.
Proof.
  unfold Dict.keys. induction d as [| [k0 v0] d IH]; cbn.
  - intros [<- | []]. auto.
  - destruct (decide (k0 = k)) as [-> | Hk]; cbn.
    + intros [<- | H]; auto.
    + intros [<- | H]; [auto |]. apply IH in H as [? | ?]; auto.
Qed.

Lemma dict_nodup_del d k :
  NoDup (Dict.keys d) -> NoDup (Dict.keys (Dict.del d k)).
Proof.
  unfold Dict.keys. induction d as [| [k0 v0] d IH]; [done |]. cbn.
  intros H. apply NoDup_cons in H as [Hn Hd].
  destruct (decide (k0 = k)) as [-> | Hk]; [by apply IH |].
  cbn. apply NoDup_cons. split; [| by apply IH].
  rewrite list_elem_of_In. intros Hin.
  apply (dict_keys_del d k k0) in Hin as [Hin _].
  by apply Hn, list_elem_of_In.
Qed.

Lemma dict_nodup_set d k v :
  NoDup (Dict.keys d) -> NoDup (Dict.keys (Dict.set d k v)).
Proof.
  unfold Dict.keys. induction d as [| [k0 v0] d IH]; cbn.
  - intros _. apply NoDup_singleton.
  - intros H. apply NoDup_cons in H as [Hn Hd].
    destruct (decide (k0 = k)) as [-> | Hk]; cbn.
    + by apply NoDup_cons.
    + apply NoDup_cons. split; [| by apply IH].
      rewrite list_elem_of_In. intros Hin.
      apply (dict_keys_set d k v k0) in Hin as [Hin | ?]; [| done].
      by apply Hn, list_elem_of_In.
Qed.
End DictFacts.

(** *** The bound on the follow-up count *)

Lemma follow_up_one_In now w k c k' c' :
  In (k', c') (active_campaigns (follow_up_one now w (k, c))) ->
  In (k', c') (active_campaigns w) \/
  (k' = k /\ follow_up_count c < max_follow_ups c /\
   (c' = set_follow_up_count c (follow_up_count c + 1) \/
    c' = set_contact (set_follow_up_count c (follow_up_count c + 1))
                     now (now + three_days))).
Proof.
  destruct (Z.lt_ge_cases now (next_follow_up c)) as [Hnd | Hd].
  { rewrite follow_up_one_not_due by done. auto. }
  destruct (Z.le_gt_cases (max_follow_ups c) (follow_up_count c))
    as [Hmax | Hlt].
  { rewrite follow_up_one_exhausted by done. cbn.
    intros H. apply dict_In_del in H as [? _]. auto. }
  rewrite follow_up_one_send by lia.
  destruct (smtp _ _); cbn; intros H.
  - apply dict_In_mutate in H as [H | [-> ->]]; [| right; auto with lia].
    apply dict_In_mutate in H as [H | [-> ->]]; [auto |].
    right; auto with lia.
  - apply dict_In_mutate in H as [H | [-> ->]]; [auto |].
    right; auto with lia.
Qed.

Lemma follow_up_one_within_limit now w k c :
  within_limit c ->
  campaigns_within_limit w ->
  campaigns_within_limit (follow_up_one now w (k, c)).
Proof.
  intros [Hc Hm] Hw k' c' Hin.
  apply follow_up_one_In in Hin as [Hin | (-> & Hlt & [-> | ->])].
  - by eapply Hw.
  - split; cbn; lia.
  - split; cbn; lia.
Qed.

Lemma follow_ups_within_limit now items w :
  (forall k c, In (k, c) items -> within_limit c) ->
  campaigns_within_limit w ->
  campaigns_within_limit (fold_left (follow_up_one now) items w).
Proof.
  revert w. induction items as [| [k c] items IH]; intros w Hi Hw; [done |].
  cbn. apply IH.
  - intros k' c' Hin. apply (Hi k' c'). by right.
  - apply follow_up_one_within_limit; [| done]. apply (Hi k c). by left.
Qed.

Lemma tick_within_limit w now :
  campaigns_within_limit w ->
  campaigns_within_limit (_process_follow_ups w now).
Proof. intros Hw. by apply follow_ups_within_limit. Qed.

Lemma run_ticks_within_limit w nows :
  campaigns_within_limit w -> campaigns_within_limit (run_ticks w nows).
Proof.
  revert w. induction nows as [| now nows IH]; intros w Hw; [done |].
  cbn. apply IH. by apply tick_within_limit.
Qed.

Lemma start_one_campaigns t st l k c :
  In (k, c) (active_campaigns (start_one t st l).2) ->
  In (k, c) (active_campaigns st.2) \/
  (k = l !! "id" /\ follow_up_count c = 0 /\ max_follow_ups c = 3).
Proof.
  destruct st as [r w]. unfold start_one.
  destruct (Py.falsy_opt (l !! "email")); [auto |].
  destruct (render "initial" l) as [subj html].
  unfold _send_email. destruct (smtp _ _); cbn; [| auto].
  intros H. apply dict_In_set in H as [H | [-> ->]]; auto.
Qed.

Lemma start_campaign_within_limit w ls clock :
  campaigns_within_limit w ->
  campaigns_within_limit (start_campaign w ls clock).2.
Proof.
  unfold start_campaign.
  generalize {| success := 0; failed := 0; leads := [] |}.
  revert w clock.
  induction ls as [| l ls IH]; intros w clock r Hw; [done |].
  cbn [start_each].
  destruct (start_one (clock 0%nat) (r, w) l) as [r' w'] eqn:E.
  apply IH. intros k c Hin.
  replace w' with (start_one (clock 0%nat) (r, w) l).2 in Hin
    by (by rewrite E).
  apply start_one_campaigns in Hin as [Hin | (_ & H0 & H3)].
  - by eapply Hw.
  - split; lia.
Qed.

Lemma handle_reply_campaigns w d now k c :
  In (k, c) (active_campaigns (handle_reply w d now).2) ->
  In (k, c) (active_campaigns w).
Proof.
  unfold handle_reply.
  destruct (filter _ _) as [| l ls]; [done |].
  set (w1 := if Dict.mem _ _ then _ else w).
  assert (H1 : In (k, c) (active_campaigns w1) -> In (k, c) (active_campaigns w)).
  { subst w1. destruct (Dict.mem _ _); [| done]. cbn.
    intros H. by apply dict_In_del in H as [? _]. }
  destruct (reply_body d) as [body | |]; [| done | done].
  destruct (wants_call _).
  - destruct (render "call_invite" l) as [subj html]. cbn. done.
  - cbn. done.
Qed.

Lemma send_payment_link_campaigns w l amount now k c :
  In (k, c) (active_campaigns (send_payment_link w l amount now).2) ->
  In (k, c) (active_campaigns w).
Proof.
  unfold send_payment_link.
  destruct (Py.falsy_opt _); [done |].
  destruct (format_price _ _) as [fp |]; [| done].
  destruct (render _ _) as [subj html].
  unfold _send_email. destruct (smtp _ _); cbn; [| done].
  destruct (Dict.mem _ _); cbn; [| done].
  intros H. by apply dict_In_del in H as [? _].
Qed.

Lemma send_onboarding_campaigns w l now :
  active_campaigns (_send_onboarding_email w l now).2 = active_campaigns w.
Proof.
  unfold _send_onboarding_email.
  destruct (negb _); [done |]. destruct l as [l |]; [| done].
  destruct (Py.falsy _); [done |].
  destruct (String.eqb _ _); unfold _send_email; destruct (smtp _ _); done.
Qed.

(** The payment webhooks never touch the campaigns of the application. *)
Lemma handle_webhook_campaigns w d now :
  active_campaigns (handle_webhook w d now).2 = active_campaigns w.
Proof.
  unfold handle_webhook, _handle_stripe_webhook, _handle_razorpay_webhook.
  destruct (String.eqb (source d) "stripe").
  - destruct (String.eqb (event_type d) _); [| done].
    destruct (Py.falsy _); [done |]. cbn.
    by rewrite send_onboarding_campaigns.
  - destruct (String.eqb (source d) "razorpay"); [| done].
    destruct (String.eqb (event d) _); [| done].
    destruct (Py.falsy _); [done |]. cbn.
    by rewrite send_onboarding_campaigns.
Qed.

Lemma create_payment_link_campaigns w country amount l now :
  active_campaigns (create_payment_link w country amount l now).2
  = active_campaigns w.
Proof.
  unfold create_payment_link, _create_stripe_payment_link,
    _create_razorpay_payment_link.
  destruct (Py.eq_str country "US").
  - destruct (stripe_api_key cfg) as [key |]; [| done].
    destruct (Py.falsy key); [done |]. by destruct (payment_api _).
  - destruct (negb _); [done |]. by destruct (payment_api _).
Qed.

Lemma reachable_within_limit w : reachable w -> campaigns_within_limit w.
Proof.
  induction 1 as [sp | w ls now _ IH | w now _ IH | w d now _ IH
                 | w l a now _ IH | w co a l now _ IH | w d now _ IH
                 | w sp _ IH].
  - intros k c [].
  - by apply start_campaign_within_limit.
  - by apply tick_within_limit.
  - intros k c Hin. apply handle_reply_campaigns in Hin. by eapply IH.
  - intros k c Hin. apply send_payment_link_campaigns in Hin. by eapply IH.
  - intros k c Hin. rewrite create_payment_link_campaigns in Hin.
    by eapply IH.
  - intros k c Hin. rewrite handle_webhook_campaigns in Hin. by eapply IH.
  - exact IH.
Qed.

Lemma follow_up_one_keys now w item k' :
  In k' (Dict.keys (active_campaigns (follow_up_one now w item))) ->
  In k' (Dict.keys (active_campaigns w)).
Proof.
  destruct item as [k c].
  destruct (Z.lt_ge_cases now (next_follow_up c)) as [Hnd | Hd].
  { by rewrite follow_up_one_not_due. }
  destruct (Z.le_gt_cases (max_follow_ups c) (follow_up_count c))
    as [Hmax | Hlt].
  { rewrite follow_up_one_exhausted by done. cbn.
    intros H. by apply dict_keys_del in H as [? _]. }
  rewrite follow_up_one_send by lia.
  destruct (smtp _ _); cbn; by rewrite ?dict_keys_mutate.
Qed.

Lemma follow_ups_keys now items w k' :
  In k' (Dict.keys (active_campaigns (fold_left (follow_up_one now) items w))) ->
  In k' (Dict.keys (active_campaigns w)).
Proof.
  revert w. induction items as [| item items IH]; intros w H; [done |].
  cbn in H. apply IH in H. by eapply follow_up_one_keys.
Qed.

(** A pass closes every campaign it finds due at its maximum. *)
Lemma follow_ups_close now items w k c :
  In (k, c) items ->
  due now c ->
  max_follow_ups c <= follow_up_count c ->
  ~ In k (Dict.keys (active_campaigns (fold_left (follow_up_one now) items w))).
Proof.
  unfold due. revert w.
  induction items as [| item items IH]; intros w Hin Hd Hm; [done |].
  cbn [fold_left]. destruct Hin as [-> | Hin]; [| by apply IH].
  intros H. apply follow_ups_keys in H.
  rewrite follow_up_one_exhausted in H by done. cbn in H.
  by apply dict_keys_del in H as [_ ?].
Qed.

Lemma dispatches_true now c :
  dispatches now c = true <->
  next_follow_up c <= now /\ follow_up_count c < max_follow_ups c.
Proof. unfold dispatches. rewrite andb_true_iff. lia. Qed.

Lemma follow_up_one_outbox now w k c :
  outbox (follow_up_one now w (k, c)) =
  outbox w ++
    (if dispatches now c
     then [(follow_up_message c,
            smtp (length (outbox w)) (follow_up_message c))]
     else []).
Proof.
  destruct (dispatches now c) eqn:E.
  - apply dispatches_true in E as [Hd Hlt].
    rewrite follow_up_one_send by done. by destruct (smtp _ _).
  - assert (Hn : ~ (next_follow_up c <= now /\
                    follow_up_count c < max_follow_ups c)).
    { rewrite <- dispatches_true. by rewrite E. }
    rewrite app_nil_r.
    destruct (Z.lt_ge_cases now (next_follow_up c)) as [Hnd | Hd].
    { by rewrite follow_up_one_not_due. }
    rewrite follow_up_one_exhausted by lia. done.
Qed.

(** The dispatch attempts of a pass: exactly one for each campaign of the
    snapshot that is due and below its maximum. *)
Lemma follow_ups_outbox now items w :
  outbox (fold_left (follow_up_one now) items w)
  = outbox w ++ attempts now items (length (outbox w)).
Proof.
  revert w. induction items as [| [k c] items IH]; intros w.
  - by rewrite app_nil_r.
  - cbn [fold_left attempts]. rewrite IH, follow_up_one_outbox.
    destruct (dispatches now c).
    + rewrite length_app, <- app_assoc. cbn.
      by replace (length (outbox w) + 1)%nat with (S (length (outbox w)))
        by lia.
    + by rewrite app_nil_r.
Qed.

Lemma tick_outbox w now :
  outbox (_process_follow_ups w now)
  = outbox w ++ attempts now (active_campaigns w) (length (outbox w)).
Proof. apply follow_ups_outbox. Qed.

(** *** Running the pass twice *)

Lemma dict_keys_app {V} (d1 d2 : list (option string * V)) :
  Dict.keys (d1 ++ d2) = Dict.keys d1 ++ Dict.keys d2.
Proof. unfold Dict.keys. apply map_app. Qed.

Lemma dict_del_middle {V} (d1 d2 : list (option string * V)) k v :
  ~ In k (Dict.keys d1) -> ~ In k (Dict.keys d2) ->
  Dict.del (d1 ++ (k, v) :: d2) k = d1 ++ d2.
Proof.
  intros H1 H2. induction d1 as [| [k1 v1] d1 IH]; cbn.
  - destruct (decide (k = k)); [| done].
    apply dict_del_absent.
    destruct (Dict.get d2 k) eqn:E; [| done].
    apply dict_get_In in E. exfalso. apply H2.
    unfold Dict.keys. apply in_map_iff. by exists (k, v0).
  - destruct (decide (k1 = k)) as [-> | Hne].
    + exfalso. apply H1. by left.
    + rewrite IH; [done |]. intros Hin. apply H1. by right.
Qed.

Lemma dict_mutate_middle {V} (d1 d2 : list (option string * V)) k v v' :
  ~ In k (Dict.keys d1) ->
  Dict.mutate (d1 ++ (k, v) :: d2) k v' = d1 ++ (k, v') :: d2.
Proof.
  intros H1. induction d1 as [| [k1 v1] d1 IH]; cbn.
  - by destruct (decide (k = k)).
  - destruct (decide (k1 = k)) as [-> | Hne].
    + exfalso. apply H1. by left.
    + rewrite IH; [done |]. intros Hin. apply H1. by right.
Qed.

Lemma follow_ups_not_due now items w :
  settled now items -> fold_left (follow_up_one now) items w = w.
Proof.
  induction items as [| [k c] items IH]; intros Hs; [done |].
  cbn [fold_left]. rewrite follow_up_one_not_due.
  - apply IH. intros k' c' Hin. apply (Hs k' c'). by right.
  - apply (Hs k c). by left.
Qed.

(** After a pass in which every dispatch went through, no campaign is
    due: the campaigns before the one at hand ([done]) have been
    settled, and the rest of the snapshot is still as the dict has it. *)
Lemma follow_ups_settle now items done w :
  active_campaigns w = done ++ items ->
  NoDup (Dict.keys (done ++ items)) ->
  settled now done ->
  Forall (fun e => e.2 = true) (attempts now items (length (outbox w))) ->
  settled now (active_campaigns (fold_left (follow_up_one now) items w)).
Proof.
  revert done w.
  induction items as [| [k c] items IH]; intros done w Hw Hnd Hs Hok.
  { cbn. by rewrite Hw, app_nil_r. }
  cbn [fold_left].
  assert (Hnd' : NoDup (Dict.keys ((done ++ [(k, c)]) ++ items)))
    by (by rewrite <- app_assoc).
  pose proof Hnd as Hsplit.
  rewrite dict_keys_app in Hsplit. cbn in Hsplit.
  apply NoDup_app in Hsplit as (Hd1 & Hdisj & Hd2).
  change (Dict.keys ((k, c) :: items)) with (k :: Dict.keys items) in *.
  apply NoDup_cons in Hd2 as [Hk2 Hd2].
  assert (Hk1 : ~ In k (Dict.keys done)).
  { intros Hin. apply (Hdisj k); [by apply list_elem_of_In | by left]. }
  assert (Hk2' : ~ In k (Dict.keys items))
    by (by rewrite <- list_elem_of_In).
  destruct (dispatches now c) eqn:Edisp.
  - (* a follow-up is sent, and it went through *)
    cbn [attempts] in Hok. rewrite Edisp in Hok.
    apply Forall_cons in Hok as [Hsent Hok]. cbn [snd] in Hsent.
    apply dispatches_true in Edisp as [Hdue Hlt].
    rewrite follow_up_one_send by done. rewrite Hsent.
    set (c2 := set_contact _ now _).
    apply (IH (done ++ [(k, c2)])).
    + cbn. rewrite Hw, !dict_mutate_middle by done.
      by rewrite <- app_assoc.
    + rewrite <- app_assoc. cbn.
      rewrite dict_keys_app in *. done.
    + intros k' c' Hin. apply in_app_or in Hin as [Hin | [[= <- <-] | []]].
      * by eapply Hs.
      * subst c2. cbn. unfold three_days. lia.
    + cbn [outbox sheets_update with_sheets]. rewrite length_app.
      cbn [length].
      by replace (length (outbox w) + 1)%nat with (S (length (outbox w)))
        by lia.
  - cbn [attempts] in Hok. rewrite Edisp in Hok.
    assert (Hn : ~ (next_follow_up c <= now /\
                    follow_up_count c < max_follow_ups c)).
    { rewrite <- dispatches_true. by rewrite Edisp. }
    destruct (Z.lt_ge_cases now (next_follow_up c)) as [Hnotdue | Hdue].
    + (* not due: the entry stays as it is *)
      rewrite follow_up_one_not_due by done.
      apply (IH (done ++ [(k, c)])); [| done | | done].
      * by rewrite <- app_assoc.
      * intros k' c' Hin. apply in_app_or in Hin as [Hin | [[= <- <-] | []]];
          [by eapply Hs | done].
    + (* at its maximum: the entry goes *)
      rewrite follow_up_one_exhausted by lia.
      apply (IH done); [| | done | done].
      * cbn. rewrite Hw. by apply dict_del_middle.
      * rewrite dict_keys_app. apply NoDup_app. split; [done |].
        split; [| done]. intros x Hx Hx'. apply (Hdisj x Hx). by right.
Qed.

Lemma tick_settles w now :
  one_record_per_lead w ->
  Forall (fun e => e.2 = true)
         (attempts now (active_campaigns w) (length (outbox w))) ->
  settled now (active_campaigns (_process_follow_ups w now)).
Proof.
  intros Hnd Hok. apply (follow_ups_settle now _ [] w); [done | exact Hnd | | done].
  intros k c [].
Qed.

Lemma tick_of_settled w now :
  settled now (active_campaigns w) -> _process_follow_ups w now = w.
Proof. apply follow_ups_not_due. Qed.

(** *** One record per lead *)

Lemma follow_up_one_nodup now w item :
  one_record_per_lead w -> one_record_per_lead (follow_up_one now w item).
Proof.
  unfold one_record_per_lead. destruct item as [k c]. intros Hnd.
  destruct (Z.lt_ge_cases now (next_follow_up c)) as [Hnotdue | Hdue].
  { by rewrite follow_up_one_not_due. }
  destruct (Z.le_gt_cases (max_follow_ups c) (follow_up_count c))
    as [Hmax | Hlt].
  { rewrite follow_up_one_exhausted by done. cbn. by apply dict_nodup_del. }
  rewrite follow_up_one_send by lia.
  destruct (smtp _ _); cbn; by rewrite ?dict_keys_mutate.
Qed.

Lemma tick_nodup w now :
  one_record_per_lead w -> one_record_per_lead (_process_follow_ups w now).
Proof.
  unfold _process_follow_ups. intros Hnd.
  generalize (active_campaigns w). intros items. revert w Hnd.
  induction items as [| item items IH]; intros w Hnd; [done |].
  cbn [fold_left]. by apply IH, follow_up_one_nodup.
Qed.

Lemma start_campaign_nodup w ls clock :
  one_record_per_lead w -> one_record_per_lead (start_campaign w ls clock).2.
Proof.
  unfold start_campaign.
  generalize {| success := 0; failed := 0; leads := [] |}.
  revert w clock.
  induction ls as [| l ls IH]; intros w clock r Hw; [done |].
  cbn [start_each].
  destruct (start_one (clock 0%nat) (r, w) l) as [r' w'] eqn:E.
  apply IH. unfold start_one in E.
  destruct (Py.falsy_opt (l !! "email")); [by inversion E; subst |].
  destruct (render "initial" l) as [subj html].
  unfold _send_email in E. destruct (smtp _ _); inversion E; subst; [| done].
  unfold one_record_per_lead. cbn. by apply dict_nodup_set.
Qed.

Lemma reachable_one_record_per_lead w :
  reachable w -> one_record_per_lead w.
Proof.
  induction 1 as [sp | w ls now _ IH | w now _ IH | w d now _ IH
                 | w l a now _ IH | w co a l now _ IH | w d now _ IH
                 | w sp _ IH].
  - apply NoDup_nil_2.
  - by apply start_campaign_nodup.
  - by apply tick_nodup.
  - unfold one_record_per_lead, handle_reply in *.
    destruct (filter _ _) as [| l ls]; [done |].
    assert (H1 : NoDup (Dict.keys (active_campaigns
                (if Dict.mem (active_campaigns w) (l !! "id")
                 then with_campaigns w
                        (Dict.del (active_campaigns w) (l !! "id"))
                 else w)))).
    { destruct (Dict.mem _ _); [| done]. cbn. by apply dict_nodup_del. }
    destruct (reply_body d) as [body | |]; [| done | done].
    destruct (wants_call _); [| done].
    by destruct (render "call_invite" l).
  - unfold one_record_per_lead, send_payment_link in *.
    destruct (Py.falsy_opt _); [done |].
    destruct (format_price _ _) as [fp |]; [| done].
    destruct (render _ _) as [subj html].
    unfold _send_email. destruct (smtp _ _); cbn; [| done].
    destruct (Dict.mem _ _); cbn; [| done]. by apply dict_nodup_del.
  - unfold one_record_per_lead. by rewrite create_payment_link_campaigns.
  - unfold one_record_per_lead. by rewrite handle_webhook_campaigns.
  - exact IH.
Qed.

(** *** The row of a lead across a pass *)

Lemma follow_up_one_lead_row now w k c id :
  k <> Some id ->
  lead_row (sheets (follow_up_one now w (k, c))) id = lead_row (sheets w) id.
Proof.
  intros Hne.
  destruct (Z.lt_ge_cases now (next_follow_up c)) as [Hnotdue | Hdue].
  { by rewrite follow_up_one_not_due. }
  destruct (Z.le_gt_cases (max_follow_ups c) (follow_up_count c))
    as [Hmax | Hlt].
  { rewrite follow_up_one_exhausted by done. cbn. by apply update_lead_frame. }
  rewrite follow_up_one_send by lia.
  destruct (smtp _ _); cbn; [by apply update_lead_frame | done].
Qed.

Lemma follow_ups_lead_row now items w id :
  ~ In (Some id) (Dict.keys items) ->
  lead_row (sheets (fold_left (follow_up_one now) items w)) id
  = lead_row (sheets w) id.
Proof.
  revert w. induction items as [| [k c] items IH]; intros w Hni; [done |].
  cbn [fold_left]. rewrite IH.
  - apply follow_up_one_lead_row. intros ->. apply Hni. by left.
  - intros Hin. apply Hni. by right.
Qed.

(** One step of the pass leaves the row found for an id as it is, or
    updates it; it updates it only when [update_lead] can write. *)
Lemma follow_up_one_row now w item id :
  lead_row (sheets (follow_up_one now w item)) id = lead_row (sheets w) id \/
  (sheets_service cfg && negb (Py.falsy id) = true /\
   exists row status notes,
     lead_row (sheets w) id = Some row /\
     lead_row (sheets (follow_up_one now w item)) id
     = Some (updated_row row status notes now)).
Proof.
  destruct item as [k c].
  destruct (decide (k = Some id)) as [-> | Hne];
    [| left; by apply follow_up_one_lead_row].
  assert (Hup : forall w0 status notes,
            lead_row (sheets (sheets_update w0 (Some id) status notes now)) id
            = lead_row (sheets w0) id \/
            (sheets_service cfg && negb (Py.falsy id) = true /\
             exists row st n,
               lead_row (sheets w0) id = Some row /\
               lead_row (sheets (sheets_update w0 (Some id) status notes now))
                        id
               = Some (updated_row row st n now))).
  { intros w0 status notes. unfold sheets_update. cbn [sheets with_sheets].
    rewrite update_lead_row.
    destruct (sheets_service cfg && negb (Py.falsy id)); [| by left].
    destruct (lead_row (sheets w0) id) as [row |]; [| by left].
    right. split; [done |]. by exists row, status, notes. }
  destruct (Z.lt_ge_cases now (next_follow_up c)) as [Hnotdue | Hdue].
  { left. by rewrite follow_up_one_not_due. }
  destruct (Z.le_gt_cases (max_follow_ups c) (follow_up_count c))
    as [Hmax | Hlt].
  { rewrite follow_up_one_exhausted by done.
    match goal with
    | |- context [sheets_update ?w0 _ ?st ?n now] => exact (Hup w0 st n)
    end. }
  rewrite follow_up_one_send by lia.
  destruct (smtp _ _); [| by left].
  match goal with
  | |- context [sheets_update ?w0 _ ?st ?n now] => exact (Hup w0 st n)
  end.
Qed.

(** A row that the search of [update_lead] does not find is not found
    after a pass either, and a row that [update_lead] cannot write is as it
    was. *)
Lemma follow_ups_keep_lost now items w id :
  lead_row (sheets w) id = None ->
  lead_row (sheets (fold_left (follow_up_one now) items w)) id = None.
Proof.
  revert w. induction items as [| item items IH]; intros w H; [done |].
  cbn [fold_left]. apply IH.
  destruct (follow_up_one_row now w item id)
    as [-> | (_ & row & ? & ? & Hrow & _)]; [done | congruence].
Qed.

Lemma follow_ups_row_unwritable now items w id :
  sheets_service cfg && negb (Py.falsy id) = false ->
  lead_row (sheets (fold_left (follow_up_one now) items w)) id
  = lead_row (sheets w) id.
Proof.
  intros Hno. revert w.
  induction items as [| item items IH]; intros w; [done |].
  cbn [fold_left]. rewrite IH.
  destruct (follow_up_one_row now w item id) as [-> | (Hyes & _)];
    [done | congruence].
Qed.

Lemma run_ticks_keep_lost w nows id :
  lead_row (sheets w) id = None ->
  lead_row (sheets (run_ticks w nows)) id = None.
Proof.
  revert w. induction nows as [| now nows IH]; intros w H; [done |].
  cbn [run_ticks fold_left]. apply IH. by apply follow_ups_keep_lost.
Qed.

Lemma run_ticks_row_unwritable w nows id :
  sheets_service cfg && negb (Py.falsy id) = false ->
  lead_row (sheets (run_ticks w nows)) id = lead_row (sheets w) id.
Proof.
  intros Hno. revert w.
  induction nows as [| now nows IH]; intros w; [done |].
  change (run_ticks w (now :: nows))
    with (run_ticks (_process_follow_ups w now) nows).
  rewrite IH. by apply follow_ups_row_unwritable.
Qed.

(** When the pass ends, the row of a lead whose campaign it closed has the
    closing status and note. *)
Lemma follow_ups_close_row now items w id c row :
  NoDup (Dict.keys items) ->
  In (Some id, c) items ->
  sheets_service cfg = true ->
  id <> "" ->
  due now c ->
  max_follow_ups c <= follow_up_count c ->
  lead_row (sheets w) id = Some row ->
  lead_row (sheets (fold_left (follow_up_one now) items w)) id
  = Some (updated_row row "No Response" (closing_note c) now).
Proof.
  unfold due. intros Hnd Hin Hs Hid Hdue Hmax. revert w.
  induction items as [| [k' c'] items IH]; intros w Hrow; [done |].
  change (Dict.keys ((k', c') :: items)) with (k' :: Dict.keys items) in Hnd.
  apply NoDup_cons in Hnd as [Hk' Hnd]. rewrite list_elem_of_In in Hk'.
  cbn [fold_left]. destruct Hin as [[= -> ->] | Hin].
  - rewrite follow_ups_lead_row by done.
    rewrite follow_up_one_exhausted by done. cbn.
    by apply update_lead_found.
  - apply IH; [done | done |].
    rewrite follow_up_one_lead_row; [done |].
    intros ->. apply Hk'. unfold Dict.keys. apply in_map_iff.
    by exists (Some id, c).
Qed.

(** *** The claims on the follow-up pass *)

(** C1.  In every state a process reaches, and after every further
    sequence of follow-up passes, the follow-up count of every active
    campaign is at most its maximum, which is 3.  A pass that finds a
    campaign due with its count at the maximum sends nothing for it and
    increments nothing: it deletes the record, and [update_lead] writes
    the status "No Response" and the closing note to the row of the
    lead; when the pass ends the record is gone and the row still has that
    status and note.  A campaign that is not due is passed over as it
    is. *)
Theorem follow_up_count_never_exceeds_max w :
  reachable w ->
  (forall nows k c,
     In (k, c) (active_campaigns (run_ticks w nows)) ->
     follow_up_count c <= max_follow_ups c /\ max_follow_ups c = 3 /\
     follow_up_count c <= 3) /\
  (forall now w0 k c,
     due now c ->
     max_follow_ups c <= follow_up_count c ->
     let w' := follow_up_one now w0 (k, c) in
     dispatches now c = false /\
     outbox w' = outbox w0 /\
     active_campaigns w' = Dict.del (active_campaigns w0) k /\
     ~ In k (Dict.keys (active_campaigns w')) /\
     sheets w' =
       (update_lead (sheets w0) k "No Response" (closing_note c) now).2 /\
     (forall id row,
        k = Some id -> id <> "" -> sheets_service cfg = true ->
        lead_row (sheets w0) id = Some row ->
        status_of (sheets w') id = Some "No Response" /\
        notes_of (sheets w') id
        = Some (appended_notes row (closing_note c) now))) /\
  (forall now k c,
     In (k, c) (active_campaigns w) ->
     due now c ->
     max_follow_ups c <= follow_up_count c ->
     ~ In k (Dict.keys (active_campaigns (_process_follow_ups w now))) /\
     (forall id row,
        k = Some id -> id <> "" -> sheets_service cfg = true ->
        lead_row (sheets w) id = Some row ->
        status_of (sheets (_process_follow_ups w now)) id
        = Some "No Response" /\
        notes_of (sheets (_process_follow_ups w now)) id
        = Some (appended_notes row (closing_note c) now))) /\
  (forall now w0 k c,
     ~ due now c -> follow_up_one now w0 (k, c) = w0).
Proof.
  intros Hr. split; [| split; [| split]]; cycle 3.
  { intros now w0 k c Hnd. apply follow_up_one_not_due. unfold due in Hnd. lia. }
  - intros nows k c Hin.
    pose proof (run_ticks_within_limit w nows
                  (reachable_within_limit w Hr) k c Hin) as [Hle H3].
    repeat split; lia.
  - intros now w0 k c Hdue Hmax w'. subst w'. unfold due in Hdue.
    rewrite follow_up_one_exhausted by done.
    cbn [sheets_update with_sheets with_campaigns active_campaigns outbox
         sheets].
    split.
    { unfold dispatches. apply andb_false_iff. right. lia. }
    split; [done |]. split; [done |].
    split.
    { intros Hin. by apply dict_keys_del in Hin as [_ ?]. }
    split; [done |].
    intros id row -> Hid Hs Hrow.
    destruct (update_lead_found (sheets w0) id row "No Response"
                (closing_note c) now Hs Hid Hrow) as [_ Hrow'].
    unfold status_of, notes_of. rewrite Hrow'. cbn [mbind option_bind].
    split; [apply updated_row_status |].
    apply updated_row_notes. reflexivity.
  - intros now k c Hin Hdue Hmax. split; [by eapply follow_ups_close |].
    intros id row -> Hid Hs Hrow.
    pose proof (follow_ups_close_row now (active_campaigns w) w id c row
                  (reachable_one_record_per_lead w Hr) Hin Hs Hid Hdue Hmax
                  Hrow) as Hrow'.
    unfold status_of, notes_of, _process_follow_ups. rewrite Hrow'.
    cbn [mbind option_bind].
    split; [apply updated_row_status |].
    apply updated_row_notes. reflexivity.
Qed.

(** The defect behind C2: a dispatch that fails leaves [last_contact] and
    [next_follow_up] alone but has already incremented the count. *)
Lemma failed_dispatch_keeps_the_increment now w k c :
  due now c ->
  follow_up_count c < max_follow_ups c ->
  smtp (length (outbox w)) (follow_up_message c) = false ->
  active_campaigns (follow_up_one now w (k, c))
  = Dict.mutate (active_campaigns w) k
      (set_follow_up_count c (follow_up_count c + 1)).
Proof.
  intros Hdue Hlt Hfail. unfold due in Hdue.
  rewrite follow_up_one_send by done. by rewrite Hfail.
Qed.

(** C3, as amended.  When every dispatch attempted by a follow-up pass
    went through, a second pass with the same [now] attempts no dispatch
    and changes nothing: the campaigns, the spreadsheet and the outbox
    are those the first pass left. *)
Theorem second_pass_changes_nothing_after_delivery w now :
  one_record_per_lead w ->
  Forall (fun e => e.2 = true)
         (attempts now (active_campaigns w) (length (outbox w))) ->
  _process_follow_ups (_process_follow_ups w now) now
  = _process_follow_ups w now /\
  attempts now (active_campaigns (_process_follow_ups w now))
           (length (outbox (_process_follow_ups w now))) = [].
Proof.
  intros Hnd Hok.
  pose proof (tick_settles w now Hnd Hok) as Hs.
  pose proof (tick_of_settled _ now Hs) as Hid.
  split; [done |].
  pose proof (tick_outbox (_process_follow_ups w now) now) as Ho.
  rewrite Hid in Ho.
  apply (f_equal length) in Ho. rewrite length_app in Ho.
  destruct (attempts now (active_campaigns (_process_follow_ups w now)) _)
    as [| e es]; [reflexivity |].
  cbn [length] in Ho. lia.
Qed.

(** *** Replies *)

Lemma template_of_region stage country us india :
  Dict.get templates stage = Some [("us", us); ("india", india)] ->
  template_of stage country = if Py.eq_str country "US" then us else india.
Proof.
  intros H. unfold template_of, template_data, lookup_template,
    _get_email_templates, get_or_subscript, subscript, country_code.
  rewrite H. destruct (Py.eq_str country "US"); reflexivity.
Qed.




(** *** Region routing *)

Lemma eq_str_true o x : Py.eq_str o x = true <-> o = Some x.
Proof.
  destruct o as [y |]; cbn; [| done]. rewrite String.eqb_eq.
  split; [by intros -> | by intros [= ->]].
Qed.

(** C6, as amended.  The country "US", and no other value, selects the
    Outlook server, Stripe with the currency "usd" and the "us" templates;
    every other value, an unknown, empty or missing country included,
    selects the Gmail server, Razorpay with "INR" and the "india"
    templates. *)
Theorem only_US_selects_the_US_policy country amount l :
  (country = Some "US" ->
   routing country amount l =
     {| smtp_server := "smtp-mail.outlook.com"; link_processor := Stripe;
        link_currency := "usd"; template_set := "us" |} /\
   _get_smtp_connection country =
     {| server := "smtp-mail.outlook.com"; port := 587;
        username := outlook_email cfg; password := outlook_password cfg |} /\
   forall w now,
     create_payment_link w country amount l now
     = _create_stripe_payment_link w amount l now) /\
  (country <> Some "US" ->
   routing country amount l =
     {| smtp_server := "smtp.gmail.com"; link_processor := Razorpay;
        link_currency := "INR"; template_set := "india" |} /\
   _get_smtp_connection country =
     {| server := "smtp.gmail.com"; port := 587;
        username := gmail_username cfg; password := gmail_password cfg |} /\
   forall w now,
     create_payment_link w country amount l now
     = _create_razorpay_payment_link w amount l now).
Proof.
  split.
  - intros ->. repeat split.
  - intros Hne.
    assert (E : Py.eq_str country "US" = false).
    { destruct (Py.eq_str country "US") eqn:E; [| done].
      by apply eq_str_true in E. }
    unfold routing, link_request, _get_smtp_connection, country_code,
      create_payment_link.
    rewrite E. repeat split.
Qed.

(** *** The lead store *)

Lemma append_rows_app sh rows : append_rows sh rows = sh ++ rows.
Proof. destruct rows; [by rewrite app_nil_r | done]. Qed.

Lemma us_rows_spec ls now :
  us_rows ls now
  = map (fun l => row_data l now)
        (filter (fun l => l !! "country" = Some "US") ls).
Proof.
  unfold us_rows. f_equal. apply list_filter_iff.
  intros l. apply eq_str_true.
Qed.

Lemma india_rows_spec ls now :
  india_rows ls now
  = map (fun l => row_data l now)
        (filter (fun l => l !! "country" = Some "IN") ls).
Proof.
  unfold india_rows. f_equal. apply list_filter_iff.
  intros l. rewrite eq_str_true. split; [by intros [_ ?] |].
  intros H. split; [| done]. rewrite H. reflexivity.
Qed.

(** C10.  With the service initialised, storing a non-empty list of leads
    reports success; the rows appended to "US_Leads" are those of the
    leads whose country is exactly "US", the rows appended to
    "India_Leads" those of the leads whose country is exactly "IN", in
    their order; a lead of any other country adds no row anywhere, and the
    spreadsheet is the one that storing the list without it gives. *)
Theorem store_leads_keeps_only_US_and_IN sp ls now :
  sheets_service cfg = true ->
  ls <> [] ->
  (store_leads sp ls now).1 = true /\
  US_Leads (store_leads sp ls now).2
  = US_Leads sp ++ map (fun l => row_data l now)
                       (filter (fun l => l !! "country" = Some "US") ls) /\
  India_Leads (store_leads sp ls now).2
  = India_Leads sp ++ map (fun l => row_data l now)
                          (filter (fun l => l !! "country" = Some "IN") ls) /\
  (forall l, In l ls -> ~ stored l ->
     ~ In l (filter (fun l => l !! "country" = Some "US") ls) /\
     ~ In l (filter (fun l => l !! "country" = Some "IN") ls)) /\
  (filter stored ls <> [] ->
   store_leads sp (filter stored ls) now = store_leads sp ls now).
Proof using cfg strftime_second.
  clear strftime_minute format_dollars format_rupees.
  intros Hs Hne.
  assert (E : forall ls', ls' <> [] ->
            store_leads sp ls' now =
            (true, {| US_Leads := US_Leads sp ++ us_rows ls' now;
                      India_Leads := India_Leads sp ++ india_rows ls' now |})).
  { intros ls' Hl. unfold store_leads. rewrite Hs. cbn [negb].
    destruct ls' as [| l' ls']; [done |]. by rewrite !append_rows_app. }
  rewrite (E ls Hne). cbn [fst snd US_Leads India_Leads].
  rewrite us_rows_spec, india_rows_spec.
  split; [done |]. split; [done |]. split; [done |]. split.
  - intros l Hin Hn. split; intros Hf; apply list_elem_of_In in Hf;
      apply list_elem_of_filter in Hf as [Hc _]; apply Hn;
      unfold stored; auto.
  - intros Hne'. rewrite (E _ Hne').
    rewrite !us_rows_spec, !india_rows_spec, !list_filter_filter.
    do 3 f_equal; f_equal; apply list_filter_iff; intros l;
      unfold stored; tauto.
Qed.

(** *** The spreadsheet, cell by cell *)

Lemma set_cell_default col col' v (row : Row) :
  default "" (set_cell col v row !! col')
  = if decide (col' = col) then v else default "" (row !! col').
Proof.
  unfold set_cell. destruct (decide (col' = col)) as [-> | Hne].
  - rewrite list_lookup_insert_eq; [done |].
    rewrite length_app, length_replicate. lia.
  - rewrite list_lookup_insert_ne by done.
    destruct (decide (col' < length row)%nat) as [Hlt | Hge].
    + by rewrite lookup_app_l.
    + rewrite lookup_app_r by lia.
      rewrite (lookup_ge_None_2 row) by lia. cbn.
      destruct (replicate _ _ !! _) eqn:E; [| done].
      by apply lookup_replicate_1 in E as [-> _].
Qed.

Lemma updated_row_default row status notes now col :
  default "" (updated_row row status notes now !! col)
  = if decide (col = col_status) then status
    else if decide (col = col_last_contact) then strftime_second now
    else if decide (col = col_notes) then
      (if Py.falsy notes then default "" (row !! col_notes)
       else appended_notes row notes now)
    else default "" (row !! col).
Proof.
  unfold updated_row, col_status, col_last_contact, col_notes.
  destruct (Py.falsy notes); rewrite !set_cell_default;
    repeat (destruct (decide _)); subst; first [done | lia].
Qed.

Lemma find_row_first rows id j i row :
  find_row rows id j = Found i row ->
  forall k r, (k < i - j)%nat -> rows !! k = Some r ->
    r <> [] /\ head r <> Some id.
Proof.
  revert j. induction rows as [| r0 rows IH]; intros j H k r Hk Hr; [done |].
  cbn [find_row] in H. destruct r0 as [| c cs]; [done |].
  destruct (String.eqb_spec c id) as [-> | Hne].
  - injection H as <- <-. lia.
  - destruct k as [| k]; cbn in Hr.
    + injection Hr as <-. split; [done |]. cbn. congruence.
    + apply (IH (S j) H k r); [lia | done].
Qed.

Lemma find_row_Missing rows id j :
  find_row rows id j = Missing ->
  forall k r, rows !! k = Some r -> r <> [] /\ head r <> Some id.
Proof.
  revert j. induction rows as [| r0 rows IH]; intros j H k r Hr; [done |].
  cbn [find_row] in H. destruct r0 as [| c cs]; [done |].
  destruct (String.eqb_spec c id) as [-> | Hne]; [done |].
  destruct k as [| k]; cbn in Hr.
  - injection Hr as <-. split; [done |]. cbn. congruence.
  - by apply (IH (S j) H k r).
Qed.

Lemma scan_sheet_first sh id i row :
  scan_sheet sh id = Found i row ->
  forall k r, (1 <= k < i)%nat -> sh !! k = Some r ->
    r <> [] /\ head r <> Some id.
Proof.
  unfold scan_sheet. destruct (length sh <=? 1)%nat; [done |].
  intros H k r Hk Hr. destruct k as [| k]; [lia |].
  apply (find_row_first _ _ _ _ _ H k r); [lia |].
  by rewrite lookup_tail.
Qed.

Lemma scan_sheet_Missing sh id :
  scan_sheet sh id = Missing ->
  forall k r, (1 <= k)%nat -> sh !! k = Some r ->
    r <> [] /\ head r <> Some id.
Proof.
  unfold scan_sheet. destruct (Nat.leb_spec (length sh) 1) as [Hle | Hgt].
  - intros _ k r Hk Hr. apply lookup_lt_Some in Hr. lia.
  - intros H k r Hk Hr. destruct k as [| k]; [lia |].
    apply (find_row_Missing _ _ _ H k r). by rewrite lookup_tail.
Qed.

(** A call of [update_lead] that fails has written nothing. *)
Lemma update_lead_failure sp lead_id status notes now :
  (update_lead sp lead_id status notes now).1 = false ->
  (update_lead sp lead_id status notes now).2 = sp.
Proof.
  unfold update_lead. destruct lead_id as [id |]; [| done].
  destruct (negb (sheets_service cfg) || Py.falsy id); [done |].
  destruct (scan_sheet (US_Leads sp) id); try done.
  destruct (scan_sheet (India_Leads sp) id); done.
Qed.

(** A call of [update_lead] that succeeds has rewritten one row: the first
    with the id, in "US_Leads" and then in "India_Leads". *)
Lemma update_lead_success sp lead_id status notes now :
  (update_lead sp lead_id status notes now).1 = true ->
  exists id name i row,
    lead_id = Some id /\ id <> "" /\ sheets_service cfg = true /\
    scan_sheet (sheet_of sp name) id = Found i row /\
    (name = India_Leads_sheet -> scan_sheet (US_Leads sp) id = Missing) /\
    (update_lead sp lead_id status notes now).2
    = with_sheet sp name
        (<[i := updated_row row status notes now]> (sheet_of sp name)).
Proof.
  unfold update_lead. destruct lead_id as [id |]; [| done].
  destruct (sheets_service cfg); [| done].
  destruct id as [| a id']; [done |]. cbn [negb orb Py.falsy].
  destruct (scan_sheet (US_Leads sp) (String a id')) as [i row | |] eqn:Hus;
    [| | done].
  - intros _. exists (String a id'), US_Leads_sheet, i, row.
    repeat (split; [done |]). cbn [snd sheet_of].
    rewrite update_row_insert; [done |].
    by apply scan_sheet_Found in Hus as (_ & ? & _).
  - destruct (scan_sheet (India_Leads sp) (String a id')) as [i row | |] eqn:Hin;
      [| done | done].
    intros _. exists (String a id'), India_Leads_sheet, i, row.
    repeat (split; [done |]). cbn [snd sheet_of].
    rewrite update_row_insert; [done |].
    by apply scan_sheet_Found in Hin as (_ & ? & _).
Qed.

Lemma sheet_of_with_sheet sp name sh name' :
  sheet_of (with_sheet sp name sh) name'
  = if decide (name' = name) then sh else sheet_of sp name'.
Proof. by destruct name, name'. Qed.

Lemma cell_row sp name i col row :
  sheet_of sp name !! i = Some row ->
  cell sp name i col = default "" (row !! col).
Proof. unfold cell. by intros ->. Qed.

(** X1.  [update_lead] either fails and leaves the spreadsheet as it is, or
    succeeds on a non-empty id and rewrites three cells of one data row, the
    first whose first cell is the id, searched in "US_Leads" and then in
    "India_Leads": the status cell gets the status, the last-contact cell
    the time, and the notes cell keeps its text and gets the dated note
    after it (it is left alone when the note is empty).  Every other cell of
    both sheets reads as before, and no row is added or removed. *)
Theorem update_lead_rewrites_three_cells_of_one_row
    sp lead_id status notes now :
  let r := update_lead sp lead_id status notes now in
  (r.1 = false /\ r.2 = sp) \/
  (r.1 = true /\
   exists id name i,
     lead_id = Some id /\ id <> "" /\
     (1 <= i < length (sheet_of sp name))%nat /\
     cell sp name i 0 = id /\
     (forall j, (1 <= j < i)%nat -> cell sp name j 0 <> id) /\
     (name = India_Leads_sheet ->
      forall j, (1 <= j < length (US_Leads sp))%nat ->
        cell sp US_Leads_sheet j 0 <> id) /\
     cell r.2 name i col_status = status /\
     cell r.2 name i col_last_contact = strftime_second now /\
     cell r.2 name i col_notes
     = (if Py.falsy notes then cell sp name i col_notes
        else if Py.falsy (cell sp name i col_notes)
             then strftime_minute now +:+ " - " +:+ notes
             else cell sp name i col_notes +:+ newline
                  +:+ strftime_minute now +:+ " - " +:+ notes) /\
     (forall name' j col,
        name' <> name \/ j <> i \/
        (col <> col_status /\ col <> col_last_contact /\ col <> col_notes) ->
        cell r.2 name' j col = cell sp name' j col) /\
     length (US_Leads r.2) = length (US_Leads sp) /\
     length (India_Leads r.2) = length (India_Leads sp)).
Proof.
  cbv zeta.
  destruct (update_lead sp lead_id status notes now).1 eqn:Hok.
  - right. split; [done |].
    destruct (update_lead_success _ _ _ _ _ Hok)
      as (id & name & i & row & -> & Hid & _ & Hscan & Hus & ->).
    pose proof (scan_sheet_Found _ _ _ _ Hscan) as (Hi & Hrow & Hhead).
    pose proof (lookup_lt_Some _ _ _ Hrow) as Hlen.
    assert (Hcell : forall col,
              cell (with_sheet sp name
                      (<[i := updated_row row status notes now]>
                         (sheet_of sp name))) name i col
              = default "" (updated_row row status notes now !! col)).
    { intros col. apply cell_row. rewrite sheet_of_with_sheet.
      destruct (decide (name = name)); [| done].
      by rewrite list_lookup_insert_eq. }
    exists id, name, i. split; [done |]. split; [done |].
    split; [lia |]. split.
    { rewrite (cell_row _ _ _ _ _ Hrow).
      destruct row; [done |]. by injection Hhead as ->. }
    split.
    { intros j Hj. unfold cell.
      destruct (sheet_of sp name !! j) as [r |] eqn:Hr.
      - destruct (scan_sheet_first _ _ _ _ Hscan j r Hj Hr) as [Hne Hh].
        destruct r as [| c cs]; [done |]. cbn in *. congruence.
      - apply lookup_ge_None in Hr. lia. }
    split.
    { intros -> j Hj. unfold cell. cbn [sheet_of].
      destruct (US_Leads sp !! j) as [r |] eqn:Hr.
      - destruct (scan_sheet_Missing _ _ (Hus eq_refl) j r) as [Hne Hh];
          [lia | done |].
        destruct r as [| c cs]; [done |]. cbn in *. congruence.
      - apply lookup_ge_None in Hr. lia. }
    rewrite !Hcell, !updated_row_default.
    rewrite (cell_row _ _ _ _ _ Hrow).
    split; [done |]. split; [done |]. split.
    { cbn [decide]. unfold appended_notes.
      destruct (decide (col_notes = col_status)); [done |].
      destruct (decide (col_notes = col_last_contact)); [done |].
      destruct (decide (col_notes = col_notes)); done. }
    split.
    { intros name' j col H. unfold cell. rewrite sheet_of_with_sheet.
      destruct (decide (name' = name)) as [-> | Hn]; [| done].
      destruct (decide (j = i)) as [-> | Hj].
      - rewrite list_lookup_insert_eq, Hrow by done. cbn [mbind option_bind].
        rewrite updated_row_default.
        destruct H as [H | [H | (H1 & H2 & H3)]]; [done | done |].
        by rewrite !decide_False.
      - by rewrite list_lookup_insert_ne. }
    destruct name; cbn [with_sheet US_Leads India_Leads sheet_of];
      by rewrite length_insert.
  - left. split; [done |]. by apply update_lead_failure.
Qed.

(** *** Rows and leads *)

Lemma headers_NoDup : NoDup headers.
Proof. apply (bool_decide_unpack _). by vm_compute. Qed.

Lemma padded_row_length row : (length headers <= length (padded_row row))%nat.
Proof. unfold padded_row. rewrite length_app, length_replicate. lia. Qed.

Lemma padded_row_lookup row i :
  (i < length headers)%nat ->
  padded_row row !! i = Some (default "" (row !! i)).
Proof.
  intros Hi. unfold padded_row.
  destruct (decide (i < length row)%nat) as [Hlt | Hge].
  - rewrite lookup_app_l by done.
    by destruct (lookup_lt_is_Some_2 row i Hlt) as [x ->].
  - rewrite lookup_app_r by lia. rewrite lookup_replicate_2 by lia.
    by rewrite (lookup_ge_None_2 row) by lia.
Qed.

(** The lead of a row has the cell of column [i] under the [i]-th header. *)
Lemma lead_of_row_lookup row i h :
  headers !! i = Some h ->
  lead_of_row row !! h = Some (default "" (row !! i)).
Proof.
  intros Hh. unfold lead_of_row. apply elem_of_list_to_map_1.
  - rewrite fst_zip; [apply headers_NoDup | apply padded_row_length].
  - apply list_elem_of_lookup_2 with i. apply lookup_zip_with_Some.
    eexists _, _. split; [done |]. split; [done |].
    apply padded_row_lookup. by apply lookup_lt_Some in Hh.
Qed.

Lemma lead_of_row_None row k :
  k ∉ headers -> lead_of_row row !! k = None.
Proof.
  intros Hk. unfold lead_of_row. apply not_elem_of_list_to_map_1.
  by rewrite fst_zip by apply padded_row_length.
Qed.

Lemma lead_of_row_id row : lead_of_row row !!! "id" = default "" (row !! 0%nat).
Proof.
  apply lookup_total_correct. by apply (lead_of_row_lookup row 0).
Qed.

Lemma sheet_leads_omap name sh ids status :
  sheet_leads name sh ids status
  = if (length sh <=? 1)%nat then []
    else omap (fun row =>
                 if keeps ids status (lead_of_row row)
                 then Some (inferred name (lead_of_row row)) else None)
              (tail sh).
Proof.
  unfold sheet_leads. destruct (length sh <=? 1)%nat; [done |].
  induction (tail sh) as [| row rows IH]; [done |].
  cbn [omap list_omap]. rewrite IH. unfold keeps, inferred.
  destruct (match ids with [] => false | _ :: _ => true end
            && negb (bool_decide (lead_of_row row !!! "id" ∈ ids))); [done |].
  destruct (negb (Py.falsy_opt status)
            && negb (Py.eq_str status (lead_of_row row !!! "status")));
    [done |].
  by destruct (Py.falsy (lead_of_row row !!! "country")).
Qed.

Lemma get_leads_sheets sp ids country status :
  sheets_service cfg = true ->
  get_leads sp ids country status
  = (if Py.eq_str country "IN" && negb (Py.eq_str country "US") then []
     else sheet_leads US_Leads_sheet (US_Leads sp) ids status)
    ++ (if Py.eq_str country "US" then []
        else sheet_leads India_Leads_sheet (India_Leads sp) ids status).
Proof.
  intros Hs. unfold get_leads. rewrite Hs. cbn [negb].
  destruct (Py.eq_str country "US"), (Py.eq_str country "IN");
    cbn [map concat sheet_of andb negb]; by rewrite ?app_nil_r.
Qed.

Lemma inferred_lookup_ne name lead k :
  k <> "country" -> inferred name lead !! k = lead !! k.
Proof.
  intros Hk. unfold inferred. destruct (Py.falsy _); [| done].
  by rewrite lookup_insert_ne.
Qed.

Lemma inferred_lookup_total_ne name (lead : Lead) k :
  k <> "country" -> inferred name lead !!! k = lead !!! k.
Proof.
  intros Hk. unfold lookup_total, map_lookup_total.
  by rewrite inferred_lookup_ne.
Qed.

Lemma falsy_true s : Py.falsy s = true <-> s = "".
Proof. by destruct s. Qed.

Lemma inferred_country name (lead : Lead) c :
  lead !! "country" = Some c ->
  inferred name lead !! "country"
  = Some (if Py.falsy c
          then match name with
               | US_Leads_sheet => "US"
               | India_Leads_sheet => "IN"
               end
          else c).
Proof.
  intros Hc. unfold inferred.
  rewrite (lookup_total_correct _ _ _ Hc).
  destruct (Py.falsy c); [by rewrite lookup_insert_eq | done].
Qed.

(** Where a lead of [get_leads] comes from: a data row of one of the
    sheets that the country selects. *)
Lemma get_leads_row sp ids country status l :
  l ∈ get_leads sp ids country status ->
  exists name row,
    row ∈ tail (sheet_of sp name) /\
    (country = Some "US" -> name = US_Leads_sheet) /\
    (country = Some "IN" -> name = India_Leads_sheet) /\
    keeps ids status (lead_of_row row) = true /\
    l = inferred name (lead_of_row row).
Proof.
  destruct (sheets_service cfg) eqn:Hs;
    [| unfold get_leads; rewrite Hs; by intros ?%elem_of_nil].
  rewrite get_leads_sheets by done. rewrite elem_of_app.
  intros [H | H].
  - destruct (Py.eq_str country "IN" && negb (Py.eq_str country "US")) eqn:E;
      [by apply elem_of_nil in H |].
    rewrite sheet_leads_omap in H.
    destruct (length (US_Leads sp) <=? 1)%nat; [by apply elem_of_nil in H |].
    apply list_elem_of_omap in H as (row & Hrow & Hf).
    destruct (keeps ids status (lead_of_row row)) eqn:Hk; [| done].
    injection Hf as <-. exists US_Leads_sheet, row.
    split; [done |]. split; [done |]. split; [| done].
    intros ->. by cbn in E.
  - destruct (Py.eq_str country "US") eqn:E; [by apply elem_of_nil in H |].
    rewrite sheet_leads_omap in H.
    destruct (length (India_Leads sp) <=? 1)%nat;
      [by apply elem_of_nil in H |].
    apply list_elem_of_omap in H as (row & Hrow & Hf).
    destruct (keeps ids status (lead_of_row row)) eqn:Hk; [| done].
    injection Hf as <-. exists India_Leads_sheet, row.
    split; [done |]. split; [| done].
    intros ->. by cbn in E.
Qed.

(** X2.  Every lead that [get_leads] returns is a data row of a sheet read
    cell by cell: it has the eighteen header keys and no other; under each
    key but "country" it has the cell of that column, empty where the row is
    short; its country is the country cell, or the country of the sheet
    ("US" for "US_Leads", "IN" for "India_Leads") where that cell is empty,
    so it is never empty.  The argument [country] chooses the sheet that is
    read, not the rows: "US" reads "US_Leads" only, "IN" reads
    "India_Leads" only. *)
Theorem get_leads_reads_rows sp ids country status l :
  l ∈ get_leads sp ids country status ->
  (forall k, is_Some (l !! k) <-> k ∈ headers) /\
  l !!! "country" <> "" /\
  exists name row,
    row ∈ tail (sheet_of sp name) /\
    (country = Some "US" -> name = US_Leads_sheet) /\
    (country = Some "IN" -> name = India_Leads_sheet) /\
    (forall i h, headers !! i = Some h -> h <> "country" ->
       l !! h = Some (default "" (row !! i))) /\
    l !! "country"
    = Some (if Py.falsy (default "" (row !! 11%nat))
            then match name with
                 | US_Leads_sheet => "US"
                 | India_Leads_sheet => "IN"
                 end
            else default "" (row !! 11%nat)).
Proof.
  intros (name & row & Hrow & Hus & Hin & _ & ->)%get_leads_row.
  pose proof (lead_of_row_lookup row 11 "country" eq_refl) as Hc.
  pose proof (inferred_country name _ _ Hc) as Hc'.
  split; [| split].
  - intros k. destruct (decide (k = "country")) as [-> | Hk].
    + rewrite Hc'. split; [intros _ | by eauto].
      apply (list_elem_of_lookup_2 _ 11). reflexivity.
    + rewrite inferred_lookup_ne by done. split.
      * intros [v Hv]. destruct (decide (k ∈ headers)); [done |].
        by rewrite lead_of_row_None in Hv.
      * intros (i & Hi)%list_elem_of_lookup_1.
        rewrite (lead_of_row_lookup row i k Hi). eauto.
  - rewrite (lookup_total_correct _ _ _ Hc').
    destruct (default "" (row !! 11%nat)) eqn:E; cbn [Py.falsy];
      [by destruct name | done].
  - exists name, row. repeat (split; [done |]). split; [| done].
    intros i h Hi Hh. rewrite inferred_lookup_ne by done.
    by apply lead_of_row_lookup.
Qed.

Lemma keeps_inferred ids status name lead :
  keeps ids status (inferred name lead) = keeps ids status lead.
Proof.
  unfold keeps. by rewrite !inferred_lookup_total_ne.
Qed.

Lemma keeps_true ids status (lead : Lead) :
  keeps ids status lead = true <->
  (ids = [] \/ lead !!! "id" ∈ ids) /\
  (Py.falsy_opt status = true \/ status = Some (lead !!! "status")).
Proof.
  unfold keeps. rewrite andb_true_iff, !negb_true_iff, !andb_false_iff,
    !negb_false_iff, bool_decide_eq_true, eq_str_true.
  destruct ids; intuition congruence.
Qed.

Lemma sheet_leads_filter name sh ids status :
  sheet_leads name sh ids status
  = filter (fun l => keeps ids status l = true)
           (sheet_leads name sh [] None).
Proof.
  rewrite !sheet_leads_omap. destruct (length sh <=? 1)%nat; [done |].
  induction (tail sh) as [| row rows IH]; [done |].
  cbn [omap list_omap]. change (keeps [] None (lead_of_row row)) with true.
  cbn match. rewrite filter_cons, keeps_inferred, <- IH.
  destruct (keeps ids status (lead_of_row row)) eqn:E.
  - by rewrite decide_True.
  - by rewrite decide_False.
Qed.

(** X3.  The filters of [get_leads] select among the leads it returns
    without them: the leads for a list of ids and a status are the leads of
    the same sheets, in the same order, whose id is in the list and whose
    status is the one asked for.  An id list that is empty (or absent) and
    a status that is empty (or absent) do not filter. *)
Theorem get_leads_filters_select sp ids country status :
  get_leads sp ids country status
  = filter (fun l => (ids = [] \/ l !!! "id" ∈ ids) /\
                     (Py.falsy_opt status = true \/
                      status = Some (l !!! "status")))
           (get_leads sp [] country None).
Proof.
  rewrite (list_filter_iff _ (fun l => keeps ids status l = true))
    by (intros l; symmetry; apply keeps_true).
  destruct (sheets_service cfg) eqn:Hs;
    [| unfold get_leads; by rewrite Hs].
  rewrite !get_leads_sheets by done. rewrite filter_app.
  rewrite (sheet_leads_filter US_Leads_sheet),
    (sheet_leads_filter India_Leads_sheet).
  by destruct (Py.eq_str country "US"), (Py.eq_str country "IN").
Qed.

(** *** [get_lead] and the row that [update_lead] finds *)

Lemma keeps_one id (lead : Lead) :
  keeps [id] None lead = bool_decide (lead !!! "id" = id).
Proof.
  unfold keeps. cbn. rewrite andb_true_r, negb_involutive.
  apply bool_decide_ext. rewrite list_elem_of_singleton. done.
Qed.

Lemma find_row_omap name rows id j :
  match find_row rows id j with
  | Found _ row =>
      head (omap (fun row =>
                    if keeps [id] None (lead_of_row row)
                    then Some (inferred name (lead_of_row row)) else None)
                 rows)
      = Some (inferred name (lead_of_row row))
  | Missing =>
      omap (fun row =>
              if keeps [id] None (lead_of_row row)
              then Some (inferred name (lead_of_row row)) else None)
           rows = []
  | Raised => True
  end.
Proof.
  revert j. induction rows as [| r rows IH]; intros j; [done |].
  cbn [find_row omap list_omap]. destruct r as [| c cs]; [done |].
  rewrite keeps_one, lead_of_row_id. cbn [lookup list_lookup default].
  destruct (String.eqb_spec c id) as [-> | Hne].
  - by rewrite bool_decide_eq_true_2.
  - rewrite bool_decide_eq_false_2 by done. apply IH.
Qed.

Lemma sheet_leads_Found name sh id i row :
  scan_sheet sh id = Found i row ->
  head (sheet_leads name sh [id] None)
  = Some (inferred name (lead_of_row row)).
Proof.
  rewrite sheet_leads_omap. unfold scan_sheet.
  destruct (length sh <=? 1)%nat; [done |]. intros H.
  pose proof (find_row_omap name (tail sh) id 1) as Hf. by rewrite H in Hf.
Qed.

Lemma sheet_leads_Missing name sh id :
  scan_sheet sh id = Missing -> sheet_leads name sh [id] None = [].
Proof.
  rewrite sheet_leads_omap. unfold scan_sheet.
  destruct (length sh <=? 1)%nat; [done |]. intros H.
  pose proof (find_row_omap name (tail sh) id 1) as Hf. by rewrite H in Hf.
Qed.

(** The lead that [get_lead] returns for an id is the row that
    [update_lead] finds for it. *)
Lemma get_lead_found sp id name i row :
  sheets_service cfg = true ->
  scan_sheet (sheet_of sp name) id = Found i row ->
  (name = India_Leads_sheet -> scan_sheet (US_Leads sp) id = Missing) ->
  get_lead sp id = Some (inferred name (lead_of_row row)).
Proof.
  intros Hs Hscan Hus. unfold get_lead.
  rewrite get_leads_sheets by done. cbn [Py.eq_str andb].
  destruct name; cbn [sheet_of] in Hscan.
  - rewrite head_app, (sheet_leads_Found _ _ _ _ _ Hscan). done.
  - rewrite (sheet_leads_Missing _ _ _ (Hus eq_refl)). cbn [app].
    by rewrite (sheet_leads_Found _ _ _ _ _ Hscan).
Qed.

Lemma lead_of_updated_row row status notes now :
  lead_of_row (updated_row row status notes now)
  = <["status" := status]>
      (<["last_contact" := strftime_second now]>
         (<["notes" := if Py.falsy notes then default "" (row !! col_notes)
                       else appended_notes row notes now]>
            (lead_of_row row))).
Proof.
  apply map_eq. intros k.
  destruct (decide (k ∈ headers)) as [Hk | Hk].
  - apply list_elem_of_lookup_1 in Hk as [i Hi].
    rewrite (lead_of_row_lookup _ i k Hi), updated_row_default.
    assert (Hidx : forall j h, headers !! j = Some h -> k = h -> i = j).
    { intros j h Hj ->. exact (NoDup_lookup _ _ _ _ headers_NoDup Hi Hj). }
    assert (Hname : forall j h, headers !! j = Some h -> i = j -> k = h).
    { intros j h Hj ->. congruence. }
    destruct (decide (k = "status")) as [-> | H1].
    { rewrite (Hidx 13%nat "status" eq_refl eq_refl).
      by rewrite lookup_insert_eq. }
    rewrite lookup_insert_ne by done.
    destruct (decide (k = "last_contact")) as [-> | H2].
    { rewrite (Hidx 16%nat "last_contact" eq_refl eq_refl).
      by rewrite lookup_insert_eq. }
    rewrite lookup_insert_ne by done.
    destruct (decide (k = "notes")) as [-> | H3].
    { rewrite (Hidx 17%nat "notes" eq_refl eq_refl).
      by rewrite lookup_insert_eq. }
    rewrite lookup_insert_ne by done.
    rewrite (lead_of_row_lookup _ i k Hi).
    rewrite !decide_False; [done | | |]; intros E.
    + by apply H3, (Hname 17%nat "notes").
    + by apply H2, (Hname 16%nat "last_contact").
    + by apply H1, (Hname 13%nat "status").
  - rewrite lead_of_row_None by done.
    assert (k <> "status" /\ k <> "last_contact" /\ k <> "notes")
      as (H1 & H2 & H3).
    { repeat split; intros ->; apply Hk;
        [apply (list_elem_of_lookup_2 _ 13) |
         apply (list_elem_of_lookup_2 _ 16) |
         apply (list_elem_of_lookup_2 _ 17)]; reflexivity. }
    rewrite !lookup_insert_ne by done. by rewrite lead_of_row_None.
Qed.

Lemma inferred_insert name (lead : Lead) k v :
  k <> "country" ->
  inferred name (<[k := v]> lead) = <[k := v]> (inferred name lead).
Proof.
  intros Hk. unfold inferred. rewrite lookup_total_insert_ne by done.
  destruct (Py.falsy (lead !!! "country")); [| done].
  by rewrite insert_insert_ne.
Qed.

(** X4.  The round trip of an update: when [update_lead] succeeds for an
    id, [get_lead] finds a lead for that id before and after the call, and
    the lead after the call is the lead before it with the new status, the
    time of the call as last contact, and the notes grown by the dated note
    (unchanged for an empty note); every other field is as before. *)
Theorem updated_lead_is_read_back sp lead_id status notes now :
  (update_lead sp lead_id status notes now).1 = true ->
  exists id l0,
    lead_id = Some id /\
    get_lead sp id = Some l0 /\
    l0 !! "id" = Some id /\
    get_lead (update_lead sp lead_id status notes now).2 id
    = Some (<["status" := status]>
              (<["last_contact" := strftime_second now]>
                 (<["notes" :=
                      if Py.falsy notes then l0 !!! "notes"
                      else if Py.falsy (l0 !!! "notes")
                           then strftime_minute now +:+ " - " +:+ notes
                           else l0 !!! "notes" +:+ newline
                                +:+ strftime_minute now +:+ " - " +:+ notes]>
                    l0))).
Proof.
  intros Hok.
  destruct (update_lead_success _ _ _ _ _ Hok)
    as (id & name & i & row & -> & Hid & Hs & Hscan & Hus & ->).
  pose proof (scan_sheet_Found _ _ _ _ Hscan) as (Hi & Hrow & Hhead).
  assert (Hne : row <> []) by (by destruct row).
  exists id, (inferred name (lead_of_row row)).
  split; [done |]. split; [by apply (get_lead_found _ _ _ i row) |]. split.
  { rewrite inferred_lookup_ne by done.
    rewrite (lead_of_row_lookup row 0 "id" eq_refl).
    destruct row; [done |]. by injection Hhead as ->. }
  rewrite (get_lead_found _ id name i (updated_row row status notes now) Hs).
  - rewrite lead_of_updated_row, !inferred_insert by done.
    rewrite inferred_lookup_total_ne by done.
    rewrite (lookup_total_correct _ _ _
               (lead_of_row_lookup row 17 "notes" eq_refl)).
    done.
  - rewrite sheet_of_with_sheet, decide_True by done.
    apply (scan_sheet_insert _ _ _ row); [done |].
    by rewrite updated_row_head.
  - intros ->. cbn [with_sheet US_Leads]. by apply Hus.
Qed.

(** *** Reading back what [store_leads] wrote *)

(** Rewrites the lookup of a header key in the lead of a row with the cell
    of its column. *)
Ltac lead_cell :=
  first
    [ rewrite (lead_of_row_lookup _ 0 _ eq_refl)
    | rewrite (lead_of_row_lookup _ 1 _ eq_refl)
    | rewrite (lead_of_row_lookup _ 2 _ eq_refl)
    | rewrite (lead_of_row_lookup _ 3 _ eq_refl)
    | rewrite (lead_of_row_lookup _ 4 _ eq_refl)
    | rewrite (lead_of_row_lookup _ 5 _ eq_refl)
    | rewrite (lead_of_row_lookup _ 6 _ eq_refl)
    | rewrite (lead_of_row_lookup _ 7 _ eq_refl)
    | rewrite (lead_of_row_lookup _ 8 _ eq_refl)
    | rewrite (lead_of_row_lookup _ 9 _ eq_refl)
    | rewrite (lead_of_row_lookup _ 10 _ eq_refl)
    | rewrite (lead_of_row_lookup _ 11 _ eq_refl)
    | rewrite (lead_of_row_lookup _ 12 _ eq_refl)
    | rewrite (lead_of_row_lookup _ 13 _ eq_refl)
    | rewrite (lead_of_row_lookup _ 14 _ eq_refl)
    | rewrite (lead_of_row_lookup _ 15 _ eq_refl)
    | rewrite (lead_of_row_lookup _ 16 _ eq_refl)
    | rewrite (lead_of_row_lookup _ 17 _ eq_refl) ].

Lemma sheet_leads_all name sh :
  sheet_leads name sh [] None
  = map (fun row => inferred name (lead_of_row row)) (tail sh).
Proof.
  rewrite sheet_leads_omap.
  destruct (Nat.leb_spec (length sh) 1) as [Hle | Hgt].
  - destruct sh as [| r0 [| r1 sh]]; [done | done | cbn in Hle; lia].
  - induction (tail sh) as [| row rows IH]; [done |].
    cbn [omap list_omap map]. by rewrite IH.
Qed.

Lemma sheet_leads_app name sh rows :
  sh <> [] ->
  sheet_leads name (sh ++ rows) [] None
  = sheet_leads name sh [] None
    ++ map (fun row => inferred name (lead_of_row row)) rows.
Proof.
  intros Hne. rewrite !sheet_leads_all. destruct sh as [| r0 sh]; [done |].
  cbn [app tail]. by rewrite map_app.
Qed.

Lemma row_data_inferred name l now :
  lead_get l "country" "" <> "" ->
  inferred name (lead_of_row (row_data l now)) = lead_of_row (row_data l now).
Proof.
  intros Hc. unfold inferred.
  rewrite (lookup_total_correct _ _ _
             (lead_of_row_lookup (row_data l now) 11 "country" eq_refl)).
  cbn [row_data lookup list_lookup default from_option id].
  by destruct (lead_get l "country" "").
Qed.

Lemma map_row_data_inferred name (P : Lead -> Prop) `{!forall l, Decision (P l)}
    ls now :
  (forall l, P l -> lead_get l "country" "" <> "") ->
  map (fun row => inferred name (lead_of_row row))
      (map (fun l => row_data l now) (filter P ls))
  = map (fun l => lead_of_row (row_data l now)) (filter P ls).
Proof.
  intros HP. rewrite map_map. apply map_ext_in.
  intros l Hl%list_elem_of_In%list_elem_of_filter.
  apply row_data_inferred, HP, Hl.
Qed.

(** X5.  The round trip of [store_leads] and [get_leads] on sheets that
    have their header row: after a list of leads is stored, [get_leads]
    returns the leads it returned before and, after those of each sheet, one
    lead for each stored lead of that country, in the order of the list.
    The lead read back has the values of the stored lead under the keys
    that [store_leads] writes (empty for a key the stored lead lacks), the
    status "New" and the source "Apollo.io" where the stored lead has none,
    the time of the call as "date_added" and an empty "last_contact". *)
Theorem stored_leads_are_read_back sp ls now :
  sheets_service cfg = true ->
  ls <> [] ->
  US_Leads sp <> [] ->
  India_Leads sp <> [] ->
  get_leads (store_leads sp ls now).2 [] None None
  = get_leads sp [] (Some "US") None
    ++ map (fun l => lead_of_row (row_data l now))
           (filter (fun l => l !! "country" = Some "US") ls)
    ++ get_leads sp [] (Some "IN") None
    ++ map (fun l => lead_of_row (row_data l now))
           (filter (fun l => l !! "country" = Some "IN") ls) /\
  forall l,
    (forall k,
       k ∈ ["id"; "first_name"; "last_name"; "email"; "phone";
            "linkedin_url"; "title"; "company"; "company_website";
            "industry"; "company_size"; "country"; "estimated_revenue";
            "notes"] ->
       lead_of_row (row_data l now) !! k = Some (lead_get l k "")) /\
    lead_of_row (row_data l now) !! "status"
    = Some (lead_get l "status" "New") /\
    lead_of_row (row_data l now) !! "source"
    = Some (lead_get l "source" "Apollo.io") /\
    lead_of_row (row_data l now) !! "date_added"
    = Some (strftime_second now) /\
    lead_of_row (row_data l now) !! "last_contact" = Some "".
Proof using cfg strftime_second.
  clear strftime_minute format_dollars format_rupees.
  intros Hs Hls Hus Hin. split.
  - assert (E : store_leads sp ls now
                = (true,
                   {| US_Leads := append_rows (US_Leads sp) (us_rows ls now);
                      India_Leads :=
                        append_rows (India_Leads sp) (india_rows ls now) |})).
    { unfold store_leads. rewrite Hs. by destruct ls. }
    rewrite E. cbn [snd]. rewrite !get_leads_sheets by done.
    cbn [Py.eq_str andb negb US_Leads India_Leads String.eqb Ascii.eqb
         Bool.eqb].
    rewrite !append_rows_app, us_rows_spec, india_rows_spec.
    rewrite !sheet_leads_app by done. rewrite !app_nil_r.
    rewrite !map_row_data_inferred.
    + by rewrite <- !app_assoc.
    + intros l Hl. unfold lead_get. by rewrite Hl.
    + intros l Hl. unfold lead_get. by rewrite Hl.
  - intros l. split; [| repeat split; by lead_cell].
    intros k Hk.
    repeat (apply elem_of_cons in Hk as [-> | Hk]; [by lead_cell |]).
    by apply elem_of_nil in Hk.
Qed.

(** *** Lookups in a dict after an update *)

Section DictLookups.
Context {K V : Type} `{EqDecision K}.
Implicit Types (d : list (K * V)).

Lemma dict_get_set d k k' v :
  Dict.get (Dict.set d k v) k'
  = if decide (k = k') then Some v else Dict.get d k'.
Proof.
  induction d as [| [k0 v0] d IH]; cbn [Dict.set Dict.get].
  - by destruct (decide (k = k')).
  - destruct (decide (k0 = k)) as [-> | Hk]; cbn [Dict.get].
    + by destruct (decide (k = k')).
    + rewrite IH. destruct (decide (k0 = k')) as [-> | Hk']; [| done].
      by rewrite decide_False by congruence.
Qed.

Lemma dict_get_del d k k' :
  Dict.get (Dict.del d k) k'
  = if decide (k = k') then None else Dict.get d k'.
Proof.
  induction d as [| [k0 v0] d IH]; cbn [Dict.del Dict.get].
  - by destruct (decide (k = k')).
  - destruct (decide (k0 = k)) as [-> | Hk]; cbn [Dict.get].
    + rewrite IH. destruct (decide (k = k')); done.
    + rewrite IH. destruct (decide (k0 = k')) as [-> | Hk']; [| done].
      by rewrite decide_False by congruence.
Qed.

Lemma dict_get_mutate d k k' v :
  Dict.get (Dict.mutate d k v) k'
  = if decide (k = k') then (fun _ => v) <$> Dict.get d k
    else Dict.get d k'.
Proof.
  induction d as [| [k0 v0] d IH]; cbn [Dict.mutate Dict.get].
  - by destruct (decide (k = k')).
  - destruct (decide (k0 = k)) as [-> | Hk]; cbn [Dict.get].
    + destruct (decide (k = k')); done.
    + rewrite IH. destruct (decide (k0 = k')) as [-> | Hk']; [| done].
      by rewrite decide_False by congruence.
Qed.

Lemma dict_get_keys d k :
  is_Some (Dict.get d k) <-> In k (Dict.keys d).
Proof.
  unfold Dict.keys. induction d as [| [k0 v0] d IH]; cbn [Dict.get map In fst].
  - split; [by intros [? ?] | done].
  - destruct (decide (k0 = k)) as [-> | Hk]; [split; eauto |].
    rewrite IH. tauto.
Qed.

Lemma dict_get_unique d k v :
  NoDup (Dict.keys d) -> In (k, v) d -> Dict.get d k = Some v.
Proof.
  unfold Dict.keys. induction d as [| [k0 v0] d IH]; [done |].
  cbn [map fst In Dict.get]. intros [Hn Hd]%NoDup_cons [[= -> ->] | Hin].
  - by rewrite decide_True.
  - destruct (decide (k0 = k)) as [-> | Hk]; [| by apply IH].
    exfalso. apply Hn, list_elem_of_In, in_map_iff. by exists (k, v).
Qed.

End DictLookups.

(** *** Starting campaigns *)

Lemma start_one_unfold t r w l :
  start_one t (r, w) l
  = if Py.falsy_opt (l !! "email") then
      ({| success := success r; failed := S (failed r);
          leads := leads r
                   ++ [Failed (l !! "id") "No email address"] |}, w)
    else if smtp (length (outbox w)) (initial_message l) then
      ({| success := S (success r); failed := failed r;
          leads := leads r
                   ++ [Started (l !! "id")
                               (at_next_follow_up t + three_days)] |},
       {| active_campaigns :=
            Dict.set (active_campaigns w) (l !! "id") (new_campaign l t);
          sheets :=
            (update_lead (sheets w) (l !! "id") "Initial Contact"
                         "Initial email sent" (at_update t)).2;
          outbox := outbox w ++ [(initial_message l, true)] |})
    else
      ({| success := success r; failed := S (failed r);
          leads := leads r
                   ++ [Failed (l !! "id") "Email sending failed"] |},
       {| active_campaigns := active_campaigns w; sheets := sheets w;
          outbox := outbox w ++ [(initial_message l, false)] |}).
Proof.
  unfold start_one, initial_message, render, _send_email.
  destruct (Py.falsy_opt (l !! "email")); [done |].
  by destruct (smtp _ _).
Qed.

Lemma start_fold clock ls r w :
  let st := start_each clock (r, w) ls in
  length (leads st.1) = (length (leads r) + length ls)%nat /\
  (success st.1 + failed st.1 = success r + failed r + length ls)%nat /\
  exists new,
    outbox st.2 = outbox w ++ new /\
    map fst new
    = map initial_message
          (filter (fun l => Py.falsy_opt (l !! "email") = false) ls) /\
    success st.1
    = (success r + length (filter (fun e => e.2 = true) new))%nat.
Proof.
  cbv zeta. revert clock r w.
  induction ls as [| l ls IH]; intros clock r w.
  - cbn. split; [lia |]. split; [lia |]. exists []. rewrite app_nil_r.
    split; [done |]. split; [done |]. cbn. lia.
  - cbn [start_each]. rewrite start_one_unfold, filter_cons.
    destruct (Py.falsy_opt (l !! "email")) eqn:He.
    + rewrite decide_False by done.
      destruct (IH (fun i => clock (S i))
                   {| success := success r; failed := S (failed r);
                      leads := leads r
                               ++ [Failed (l !! "id") "No email address"] |}
                   w) as (H1 & H2 & new & H3 & H4 & H5).
      cbn [leads success failed] in *. rewrite length_app in H1.
      cbn [length] in *. split; [lia |]. split; [lia |].
      exists new. done.
    + rewrite decide_True by done.
      destruct (smtp (length (outbox w)) (initial_message l)) eqn:Hok.
      * match goal with
        | |- context [start_each ?c (?r', ?w') ls] =>
            destruct (IH c r' w') as (H1 & H2 & new & H3 & H4 & H5)
        end.
        cbn [leads success failed outbox] in *. rewrite length_app in H1.
        cbn [length] in *. split; [lia |]. split; [lia |].
        exists ((initial_message l, true) :: new).
        rewrite H3, <- app_assoc. split; [done |].
        cbn [map fst]. rewrite H4. split; [done |].
        rewrite filter_cons, decide_True by done. cbn [length]. lia.
      * match goal with
        | |- context [start_each ?c (?r', ?w') ls] =>
            destruct (IH c r' w') as (H1 & H2 & new & H3 & H4 & H5)
        end.
        cbn [leads success failed outbox] in *. rewrite length_app in H1.
        cbn [length] in *. split; [lia |]. split; [lia |].
        exists ((initial_message l, false) :: new).
        rewrite H3, <- app_assoc. split; [done |].
        cbn [map fst]. rewrite H4. split; [done |].
        rewrite filter_cons, decide_False by done. lia.
Qed.

(** X6.  [start_campaign] answers for every lead of its list and attempts
    one dispatch for each lead that has an email address: the results hold
    one entry per lead, [success] and [failed] add up to the number of
    leads, the dispatch attempts made are the "initial" message of each lead
    with an address, in the order of the list, and [success] is the number
    of those attempts that went through.  A lead without an address is
    counted as failed and nothing is sent for it. *)
Theorem start_campaign_answers_for_every_lead w ls clock :
  let r := (start_campaign w ls clock).1 in
  let w' := (start_campaign w ls clock).2 in
  length (leads r) = length ls /\
  (success r + failed r)%nat = length ls /\
  exists new,
    outbox w' = outbox w ++ new /\
    map fst new
    = map initial_message
          (filter (fun l => Py.falsy_opt (l !! "email") = false) ls) /\
    success r = length (filter (fun e => e.2 = true) new).
Proof.
  cbv zeta. unfold start_campaign.
  destruct (start_fold clock ls
              {| success := 0; failed := 0; leads := [] |} w)
    as (H1 & H2 & new & H3 & H4 & H5).
  cbn [leads success failed length] in *.
  split; [lia |]. split; [lia |]. exists new. split; [done |].
  split; [done |]. lia.
Qed.

Lemma start_one_record t r w l k c :
  In (k, c) (active_campaigns (start_one t (r, w) l).2) ->
  In (k, c) (active_campaigns w) \/
  (k = l !! "id" /\ Py.falsy_opt (l !! "email") = false /\
   c = new_campaign l t).
Proof.
  rewrite start_one_unfold.
  destruct (Py.falsy_opt (l !! "email")); [by left |].
  destruct (smtp _ _); [| by left]. cbn [snd active_campaigns].
  intros [H | [-> ->]]%dict_In_set; [by left | by right].
Qed.

Lemma start_one_get t r w l k :
  l !! "id" <> k ->
  Dict.get (active_campaigns (start_one t (r, w) l).2) k
  = Dict.get (active_campaigns w) k.
Proof.
  intros Hk. rewrite start_one_unfold.
  destruct (Py.falsy_opt (l !! "email")); [done |].
  destruct (smtp _ _); [| done]. cbn [snd active_campaigns].
  by rewrite dict_get_set, decide_False.
Qed.

Lemma start_one_delivered t r w l :
  (forall n m, smtp n m = true) ->
  Py.falsy_opt (l !! "email") = false ->
  Dict.get (active_campaigns (start_one t (r, w) l).2) (l !! "id")
  = Some (new_campaign l t).
Proof.
  intros Hsmtp He. rewrite start_one_unfold, He, Hsmtp.
  cbn [snd active_campaigns]. by rewrite dict_get_set, decide_True.
Qed.

(** The record of an id is as it was after the leads that do not start a
    campaign under it. *)
Lemma start_each_keeps clock ls r w k :
  (forall l, In l ls ->
     ~ (l !! "id" = k /\ Py.falsy_opt (l !! "email") = false)) ->
  Dict.get (active_campaigns (start_each clock (r, w) ls).2) k
  = Dict.get (active_campaigns w) k.
Proof.
  revert clock r w. induction ls as [| l ls IH]; intros clock r w Hno;
    [done |].
  cbn [start_each].
  destruct (start_one (clock 0%nat) (r, w) l) as [r2 w2] eqn:E2.
  rewrite IH by (intros l' Hl'; apply Hno; by right).
  replace w2 with (start_one (clock 0%nat) (r, w) l).2 by (by rewrite E2).
  rewrite start_one_unfold.
  destruct (Py.falsy_opt (l !! "email")) eqn:He1; [done |].
  destruct (smtp _ _); [| done]. cbn [snd active_campaigns].
  rewrite dict_get_set, decide_False; [done |].
  intros Hid. by apply (Hno l); [left |].
Qed.

Lemma start_fold_records clock ls r w :
  let w' := (start_each clock (r, w) ls).2 in
  (forall k c, In (k, c) (active_campaigns w') ->
     In (k, c) (active_campaigns w) \/
     exists i l, ls !! i = Some l /\ k = l !! "id" /\
                 Py.falsy_opt (l !! "email") = false /\
                 c = new_campaign l (clock i)) /\
  (forall k, (forall l, In l ls -> l !! "id" <> k) ->
     Dict.get (active_campaigns w') k = Dict.get (active_campaigns w) k) /\
  ((forall n m, smtp n m = true) ->
   forall l, In l ls -> Py.falsy_opt (l !! "email") = false ->
     exists i l', ls !! i = Some l' /\ l' !! "id" = l !! "id" /\
                  Py.falsy_opt (l' !! "email") = false /\
                  Dict.get (active_campaigns w') (l !! "id")
                  = Some (new_campaign l' (clock i))).
Proof.
  cbv zeta. revert clock r w.
  induction ls as [| l0 ls IH]; intros clock r w.
  - cbn. split; [by left |]. split; [done |]. by intros _ l [].
  - cbn [start_each].
    destruct (start_one (clock 0%nat) (r, w) l0) as [r1 w1] eqn:E.
    destruct (IH (fun i => clock (S i)) r1 w1) as (IH1 & IH2 & IH3).
    assert (Ew : w1 = (start_one (clock 0%nat) (r, w) l0).2)
      by (by rewrite E).
    split; [| split].
    + intros k c [H | (i & l & Hl & Hk & He & Hc)]%IH1.
      * rewrite Ew in H. apply start_one_record in H as [H | (-> & He & ->)];
          [by left |].
        right. by exists 0%nat, l0.
      * right. by exists (S i), l.
    + intros k Hk. rewrite IH2 by (intros l Hl; apply Hk; by right).
      rewrite Ew. apply start_one_get, Hk. by left.
    + intros Hsmtp l Hl He.
      destruct (decide (Exists (fun l' => l' !! "id" = l !! "id" /\
                                  Py.falsy_opt (l' !! "email") = false) ls))
        as [(l1 & Hl1%list_elem_of_In & Hid & He1)%Exists_exists | Hnone'].
      2: assert (Hnone : ~ exists l', In l' ls /\ l' !! "id" = l !! "id" /\
                                      Py.falsy_opt (l' !! "email") = false)
           by (intros (l' & Hl' & H'); apply Hnone', Exists_exists;
               exists l'; by rewrite list_elem_of_In).
      * destruct (IH3 Hsmtp l1 Hl1 He1)
          as (i & l' & Hl' & Hid' & He' & Hget).
        exists (S i), l'. split; [done |]. split; [congruence |].
        split; [done |]. by rewrite <- Hid.
      * destruct Hl as [<- | Hl];
          [| exfalso; apply Hnone; by exists l].
        exists 0%nat, l0. split; [done |]. split; [done |]. split; [done |].
        rewrite start_each_keeps.
        -- rewrite Ew. by apply start_one_delivered.
        -- intros l' Hl' [Hid He']. apply Hnone. by exists l'.
Qed.

(** X7.  The records of [start_campaign].  Every campaign record after the
    call was there before it or is the new record of a lead of the list that
    has an email address: the lead itself, the sequence "initial", no
    follow-up yet, at most 3 of them, and two readings of the clock taken
    while that lead was handled: one as the last contact, and another one,
    three days added, as the time of the next follow-up.  The record of an
    id that no lead of the list has is as it was.  When every dispatch goes
    through, each lead of the list with an address has a new record under
    its id after the call, whatever record the id had before: a campaign
    that is started again begins anew. *)
Theorem start_campaign_writes_new_records w ls clock :
  let w' := (start_campaign w ls clock).2 in
  (forall k c, In (k, c) (active_campaigns w') ->
     In (k, c) (active_campaigns w) \/
     exists i l, ls !! i = Some l /\ k = l !! "id" /\
                 Py.falsy_opt (l !! "email") = false /\
                 c = {| lead := l; sequence := "initial";
                        last_contact := at_last_contact (clock i);
                        follow_up_count := 0; max_follow_ups := 3;
                        next_follow_up :=
                          at_next_follow_up (clock i) + three_days |}) /\
  (forall k, (forall l, In l ls -> l !! "id" <> k) ->
     Dict.get (active_campaigns w') k = Dict.get (active_campaigns w) k) /\
  ((forall n m, smtp n m = true) ->
   forall l, In l ls -> Py.falsy_opt (l !! "email") = false ->
     exists i l', ls !! i = Some l' /\ l' !! "id" = l !! "id" /\
                  Py.falsy_opt (l' !! "email") = false /\
                  Dict.get (active_campaigns w') (l !! "id")
                  = Some {| lead := l'; sequence := "initial";
                            last_contact := at_last_contact (clock i);
                            follow_up_count := 0; max_follow_ups := 3;
                            next_follow_up :=
                              at_next_follow_up (clock i) + three_days |}).
Proof. apply start_fold_records. Qed.

(** *** The pass, campaign by campaign *)

Lemma attempts_messages now items n :
  map fst (attempts now items n)
  = map (fun kc => follow_up_message kc.2)
        (filter (fun kc => next_follow_up kc.2 <= now /\
                           follow_up_count kc.2 < max_follow_ups kc.2)
                items).
Proof.
  revert n. induction items as [| [k c] items IH]; intros n; [done |].
  cbn [attempts]. rewrite filter_cons. destruct (dispatches now c) eqn:E.
  - rewrite decide_True by (by apply dispatches_true).
    cbn [map fst snd]. by rewrite IH.
  - rewrite decide_False; [apply IH |].
    cbn [snd]. rewrite <- dispatches_true. by rewrite E.
Qed.

Lemma attempts_app now a b n :
  attempts now (a ++ b) n
  = attempts now a n ++ attempts now b (n + length (attempts now a n)).
Proof.
  revert n. induction a as [| [k c] a IH]; intros n.
  - cbn. by rewrite Nat.add_0_r.
  - cbn [app attempts]. destruct (dispatches now c).
    + rewrite IH. cbn [app length]. do 3 f_equal. lia.
    + apply IH.
Qed.

(** X8.  A follow-up pass attempts one dispatch for each campaign that is
    due and below its maximum, and none for any other: the attempts it adds
    to those made before are, in the order of the campaigns, the follow-up
    message of each such campaign, which goes to the address of the lead of
    the campaign and is the template "follow_up_<n>" of its country for the
    next follow-up number [n], rendered for the lead.  So a pass never sends
    a lead two messages, and never more messages than there are
    campaigns. *)
Theorem pass_attempts_one_dispatch_per_due_campaign w now :
  exists new,
    outbox (_process_follow_ups w now) = outbox w ++ new /\
    map fst new
    = map (fun kc => follow_up_message kc.2)
          (filter (fun kc => next_follow_up kc.2 <= now /\
                             follow_up_count kc.2 < max_follow_ups kc.2)
                  (active_campaigns w)) /\
    (length new <= length (active_campaigns w))%nat /\
    forall c,
      follow_up_message c
      = message (lead c !! "email")
          (render ("follow_up_" +:+ str_of_int (follow_up_count c + 1))
                  (lead c)).1
          (render ("follow_up_" +:+ str_of_int (follow_up_count c + 1))
                  (lead c)).2
          (lead c !! "country").
Proof.
  exists (attempts now (active_campaigns w) (length (outbox w))).
  split; [apply tick_outbox |]. split; [apply attempts_messages |].
  split; [| done].
  rewrite <- (length_map fst), attempts_messages, length_map.
  apply length_filter.
Qed.

Lemma follow_up_one_get now w k' c' k :
  k' <> k ->
  Dict.get (active_campaigns (follow_up_one now w (k', c'))) k
  = Dict.get (active_campaigns w) k.
Proof.
  intros Hk. destruct (Z.lt_ge_cases now (next_follow_up c')) as [H | H].
  - by rewrite follow_up_one_not_due.
  - destruct (Z.le_gt_cases (max_follow_ups c') (follow_up_count c'))
      as [Hm | Hm].
    + rewrite follow_up_one_exhausted by done.
      cbn [active_campaigns sheets_update with_sheets with_campaigns].
      by rewrite dict_get_del, decide_False.
    + rewrite follow_up_one_send by lia.
      destruct (smtp _ _);
        cbn [active_campaigns sheets_update with_sheets with_campaigns];
        by rewrite !dict_get_mutate, !decide_False.
Qed.

Lemma follow_ups_get now items w k :
  ~ In k (Dict.keys items) ->
  Dict.get (active_campaigns (fold_left (follow_up_one now) items w)) k
  = Dict.get (active_campaigns w) k.
Proof.
  revert w. induction items as [| [k' c'] items IH]; intros w Hk; [done |].
  change (Dict.keys ((k', c') :: items)) with (k' :: Dict.keys items) in Hk.
  cbn [fold_left]. rewrite IH by (intros ?; apply Hk; by right).
  apply follow_up_one_get. intros ->. apply Hk. by left.
Qed.

(** What a pass does to the record of one lead, in a dict with one record
    per lead. *)
Lemma pass_on_record now w k c :
  one_record_per_lead w ->
  In (k, c) (active_campaigns w) ->
  (now < next_follow_up c ->
   Dict.get (active_campaigns (_process_follow_ups w now)) k = Some c /\
   forall id, k = Some id ->
     lead_row (sheets (_process_follow_ups w now)) id
     = lead_row (sheets w) id) /\
  (next_follow_up c <= now ->
   follow_up_count c < max_follow_ups c ->
   Forall (fun e => e.2 = true)
          (attempts now (active_campaigns w) (length (outbox w))) ->
   Dict.get (active_campaigns (_process_follow_ups w now)) k
   = Some (advanced c now) /\
   In (follow_up_message c, true) (outbox (_process_follow_ups w now)) /\
   forall id,
     k = Some id ->
     lead_row (sheets (_process_follow_ups w now)) id
     = if sheets_service cfg && negb (Py.falsy id)
       then (fun row =>
               updated_row row "Follow-up"
                 ("Follow-up email #" +:+ str_of_int (follow_up_count c + 1)
                  +:+ " sent") now) <$> lead_row (sheets w) id
       else lead_row (sheets w) id).
Proof.
  unfold one_record_per_lead, _process_follow_ups. intros Hnd Hin.
  pose proof (dict_get_unique _ _ _ Hnd Hin) as Hget.
  destruct (in_split _ _ Hin) as (pre & post & Hitems).
  rewrite Hitems in Hnd. rewrite dict_keys_app in Hnd.
  change (Dict.keys ((k, c) :: post)) with (k :: Dict.keys post) in Hnd.
  apply NoDup_app in Hnd as (_ & Hdisj & [Hpost _]%NoDup_cons).
  assert (Hpre : ~ In k (Dict.keys pre)).
  { intros H. apply (Hdisj k); [by apply list_elem_of_In | by left]. }
  rewrite list_elem_of_In in Hpost.
  assert (E : fold_left (follow_up_one now) (active_campaigns w) w
              = fold_left (follow_up_one now) post
                  (follow_up_one now (fold_left (follow_up_one now) pre w)
                                 (k, c))).
  { rewrite Hitems at 1. by rewrite fold_left_app. }
  rewrite E. clear E.
  set (w1 := fold_left (follow_up_one now) pre w).
  assert (Hget1 : Dict.get (active_campaigns w1) k = Some c)
    by (subst w1; by rewrite follow_ups_get).
  split.
  - intros Hnot. rewrite follow_up_one_not_due by done. split.
    + by rewrite follow_ups_get.
    + intros id ->. rewrite follow_ups_lead_row by done.
      subst w1. by rewrite follow_ups_lead_row.
  - intros Hdue Hlt Hok.
    rewrite Hitems, attempts_app in Hok.
    apply Forall_app in Hok as [_ Hok]. cbn [attempts] in Hok.
    rewrite (proj2 (dispatches_true now c)) in Hok by done.
    apply Forall_cons in Hok as [Hsent _]. cbn [snd] in Hsent.
    assert (Hout : length (outbox w1)
                   = (length (outbox w)
                      + length (attempts now pre (length (outbox w))))%nat).
    { subst w1. by rewrite follow_ups_outbox, length_app. }
    rewrite follow_up_one_send by done. rewrite Hout, Hsent.
    split; [| split].
    + rewrite follow_ups_get by done.
      cbn [active_campaigns sheets_update with_sheets with_campaigns].
      rewrite !dict_get_mutate, !decide_True by done. by rewrite Hget1.
    + rewrite follow_ups_outbox.
      cbn [outbox sheets_update with_sheets with_campaigns].
      apply in_or_app. left. apply in_or_app. right. by left.
    + intros id ->. rewrite follow_ups_lead_row by done.
      cbn [sheets sheets_update with_sheets with_campaigns].
      rewrite update_lead_row.
      subst w1. by rewrite follow_ups_lead_row.
Qed.

(** X9.  In a dict with one record per lead, a pass treats each campaign
    by its own state.  A campaign that is not yet due is passed over: its
    record and the row of its lead are after the pass what they were before
    it, whatever the pass did for other campaigns.  A campaign that is due
    and below its maximum, in a pass whose dispatches go through, has its
    follow-up delivered and its record advanced: one more follow-up, the
    time of the pass as last contact, the next follow-up three days later.
    The row that [update_lead] finds for the id of the campaign (the first
    row with the id, where no row without cells comes before it) gets the
    status "Follow-up" and the note "Follow-up email #<n> sent", provided
    the Sheets service is on and the id is not empty; otherwise that row is
    as it was, and where [update_lead] finds no row for the id none is
    written: the record advances all the same. *)
Theorem pass_treats_each_campaign_by_its_own_state w now k c :
  one_record_per_lead w ->
  In (k, c) (active_campaigns w) ->
  (now < next_follow_up c ->
   Dict.get (active_campaigns (_process_follow_ups w now)) k = Some c /\
   forall id, k = Some id ->
     lead_row (sheets (_process_follow_ups w now)) id
     = lead_row (sheets w) id) /\
  (next_follow_up c <= now ->
   follow_up_count c < max_follow_ups c ->
   Forall (fun e => e.2 = true)
          (attempts now (active_campaigns w) (length (outbox w))) ->
   Dict.get (active_campaigns (_process_follow_ups w now)) k
   = Some {| lead := lead c; sequence := sequence c; last_contact := now;
             follow_up_count := follow_up_count c + 1;
             max_follow_ups := max_follow_ups c;
             next_follow_up := now + three_days |} /\
   In (follow_up_message c, true) (outbox (_process_follow_ups w now)) /\
   forall id,
     k = Some id ->
     match lead_row (sheets w) id with
     | Some row =>
         if sheets_service cfg && negb (Py.falsy id) then
           status_of (sheets (_process_follow_ups w now)) id
           = Some "Follow-up" /\
           notes_of (sheets (_process_follow_ups w now)) id
           = Some (appended_notes row
                     ("Follow-up email #"
                      +:+ str_of_int (follow_up_count c + 1) +:+ " sent")
                     now)
         else lead_row (sheets (_process_follow_ups w now)) id = Some row
     | None => lead_row (sheets (_process_follow_ups w now)) id = None
     end).
Proof.
  intros Hnd Hin. destruct (pass_on_record now w k c Hnd Hin) as [H1 H2].
  split; [exact H1 |]. intros Hdue Hlt Hok.
  destruct (H2 Hdue Hlt Hok) as (Hget & Hout & Hrow).
  split; [exact Hget |]. split; [exact Hout |].
  intros id Hk. specialize (Hrow id Hk).
  destruct (lead_row (sheets w) id) as [row |];
    destruct (sheets_service cfg && negb (Py.falsy id));
    cbn [fmap option_fmap option_map] in Hrow; try done.
  unfold status_of, notes_of. rewrite Hrow. cbn [mbind option_bind]. split.
  - apply updated_row_status.
  - by apply updated_row_notes.
Qed.

Lemma attempts_delivered now items n :
  (forall n m, smtp n m = true) ->
  Forall (fun e => e.2 = true) (attempts now items n).
Proof.
  intros Hsmtp. revert n.
  induction items as [| [k c] items IH]; intros n; [constructor |].
  cbn [attempts]. destruct (dispatches now c); [| apply IH].
  constructor; [apply Hsmtp | apply IH].
Qed.

Lemma tick_outbox_In w now e :
  In e (outbox w) -> In e (outbox (_process_follow_ups w now)).
Proof. intros H. rewrite tick_outbox. apply in_or_app. by left. Qed.

(** One delivered follow-up of a campaign, with what the next pass
    needs. *)
Lemma pass_delivers now w k c :
  one_record_per_lead w ->
  (forall n m, smtp n m = true) ->
  In (k, c) (active_campaigns w) ->
  next_follow_up c <= now ->
  follow_up_count c < max_follow_ups c ->
  one_record_per_lead (_process_follow_ups w now) /\
  In (k, advanced c now) (active_campaigns (_process_follow_ups w now)) /\
  Dict.get (active_campaigns (_process_follow_ups w now)) k
  = Some (advanced c now) /\
  In (follow_up_message c, true) (outbox (_process_follow_ups w now)) /\
  forall id row,
    k = Some id -> id <> "" -> sheets_service cfg = true ->
    lead_row (sheets w) id = Some row ->
    exists row',
      lead_row (sheets (_process_follow_ups w now)) id = Some row'.
Proof.
  intros Hnd Hsmtp Hin Hdue Hlt.
  destruct (pass_on_record now w k c Hnd Hin) as [_ H].
  destruct (H Hdue Hlt (attempts_delivered _ _ _ Hsmtp))
    as (Hget & Hout & Hrow).
  split; [by apply tick_nodup |]. split; [by apply dict_get_In |].
  split; [done |]. split; [done |].
  intros id row Hk Hid Hs Hr. rewrite (Hrow id Hk), Hs, Hr.
  destruct id; [done |]. cbn. by eexists.
Qed.

(** X10.  The life of a campaign nobody answers, in a dict with one record
    per lead and with a server that delivers: started without a follow-up
    and with the maximum of 3, it gets the follow-ups 1, 2 and 3 in the
    passes at which it is due, each at least three days after the one
    before, and the next pass at which it is due sends nothing more and
    closes it: the record is gone.  The row that [update_lead] finds for
    the id of the campaign then has the status "No Response", provided the
    Sheets service is on and the id is not empty; otherwise that row is as
    it was, and where [update_lead] finds no row for the id (a row without
    cells comes before it) the campaign ends without a closing status. *)
Theorem unanswered_campaign_ends_after_three_follow_ups
    w k c t1 t2 t3 t4 :
  one_record_per_lead w ->
  (forall n m, smtp n m = true) ->
  In (k, c) (active_campaigns w) ->
  follow_up_count c = 0 ->
  max_follow_ups c = 3 ->
  next_follow_up c <= t1 ->
  t1 + three_days <= t2 ->
  t2 + three_days <= t3 ->
  t3 + three_days <= t4 ->
  let record n t :=
    {| lead := lead c; sequence := sequence c; last_contact := t;
       follow_up_count := n; max_follow_ups := 3;
       next_follow_up := t + three_days |} in
  let sent stage :=
    (message (lead c !! "email") (render stage (lead c)).1
             (render stage (lead c)).2 (lead c !! "country"), true) in
  let final := run_ticks w [t1; t2; t3; t4] in
  Dict.get (active_campaigns (run_ticks w [t1])) k = Some (record 1 t1) /\
  Dict.get (active_campaigns (run_ticks w [t1; t2])) k
  = Some (record 2 t2) /\
  Dict.get (active_campaigns (run_ticks w [t1; t2; t3])) k
  = Some (record 3 t3) /\
  Dict.get (active_campaigns final) k = None /\
  In (sent "follow_up_1") (outbox final) /\
  In (sent "follow_up_2") (outbox final) /\
  In (sent "follow_up_3") (outbox final) /\
  forall id,
    k = Some id ->
    match lead_row (sheets w) id with
    | Some row =>
        if sheets_service cfg && negb (Py.falsy id)
        then status_of (sheets final) id = Some "No Response"
        else lead_row (sheets final) id = Some row
    | None => lead_row (sheets final) id = None
    end.
Proof.
  intros Hnd Hsmtp Hin Hcount Hmax H1 H2 H3 H4. cbv zeta.
  assert (Hlost : forall id,
            lead_row (sheets w) id = None ->
            lead_row (sheets (run_ticks w [t1; t2; t3; t4])) id = None)
    by (intros; by apply run_ticks_keep_lost).
  assert (Hkept : forall id,
            sheets_service cfg && negb (Py.falsy id) = false ->
            lead_row (sheets (run_ticks w [t1; t2; t3; t4])) id
            = lead_row (sheets w) id)
    by (intros; by apply run_ticks_row_unwritable).
  destruct c as [l s lc n m nx]. cbn in Hcount, Hmax, H1. subst n m.
  unfold run_ticks. cbn [fold_left].
  set (c0 := {| lead := l; sequence := s; last_contact := lc;
                follow_up_count := 0; max_follow_ups := 3;
                next_follow_up := nx |}) in *.
  destruct (pass_delivers t1 w k c0 Hnd Hsmtp Hin) as (Hnd1 & Hin1 & Hg1 & Ho1 & Hr1);
    [done | done |].
  set (w1 := _process_follow_ups w t1) in *.
  destruct (pass_delivers t2 w1 k (advanced c0 t1) Hnd1 Hsmtp Hin1)
    as (Hnd2 & Hin2 & Hg2 & Ho2 & Hr2); [done | done |].
  set (w2 := _process_follow_ups w1 t2) in *.
  destruct (pass_delivers t3 w2 k (advanced (advanced c0 t1) t2)
              Hnd2 Hsmtp Hin2)
    as (Hnd3 & Hin3 & Hg3 & Ho3 & Hr3); [done | done |].
  set (w3 := _process_follow_ups w2 t3) in *.
  set (c3 := advanced (advanced (advanced c0 t1) t2) t3) in *.
  assert (Hclosed : ~ In k (Dict.keys (active_campaigns
                                         (_process_follow_ups w3 t4)))).
  { apply (follow_ups_close t4 _ w3 k c3); [done | exact H4 | done]. }
  split; [exact Hg1 |]. split; [exact Hg2 |]. split; [exact Hg3 |].
  split.
  { destruct (Dict.get (active_campaigns (_process_follow_ups w3 t4)) k)
      eqn:E; [| done].
    exfalso. apply Hclosed, dict_get_keys. by rewrite E. }
  split; [by do 3 apply tick_outbox_In |].
  split; [by do 2 apply tick_outbox_In |].
  split; [by apply tick_outbox_In |].
  intros id ->.
  destruct (lead_row (sheets w) id) as [row |] eqn:Hrow;
    [| exact (Hlost id Hrow)].
  destruct (sheets_service cfg && negb (Py.falsy id)) eqn:Hwr;
    [| rewrite <- Hrow; exact (Hkept id Hwr)].
  apply andb_true_iff in Hwr as [Hs Hid].
  assert (id <> "") as Hne by (intros ->; done). clear Hid.
  rename Hne into Hid.
  destruct (Hr1 id row eq_refl Hid Hs Hrow) as [row1 Hrow1].
  destruct (Hr2 id row1 eq_refl Hid Hs Hrow1) as [row2 Hrow2].
  destruct (Hr3 id row2 eq_refl Hid Hs Hrow2) as [row3 Hrow3].
  unfold status_of, _process_follow_ups.
  rewrite (follow_ups_close_row t4 _ w3 id c3 row3); try done.
  cbn [mbind option_bind]. apply updated_row_status.
Qed.

(** *** Replies and payment links *)



Lemma render_price stage (l : Lead) p :
  render stage (<["price" := p]> l) = render stage l.
Proof.
  unfold render, personalize, _personalize_template, replacements,
    business_type_of, lead_get.
  by rewrite !lookup_insert_ne by done.
Qed.

Lemma del_if_mem (w : World) k :
  (if Dict.mem (active_campaigns w) k
   then with_campaigns w (Dict.del (active_campaigns w) k) else w)
  = with_campaigns w (Dict.del (active_campaigns w) k).
Proof.
  unfold Dict.mem. destruct (Dict.get (active_campaigns w) k) eqn:E; [done |].
  rewrite dict_del_absent by done. by destruct w.
Qed.

(** X12.  [send_payment_link] sends at most one message, the
    "pricing_info" template of the country of the lead rendered for the
    lead as it is: the message does not depend on the amount.  When it
    returns [True] the message went through, the row of the lead has the
    status "Payment Link Sent" with a note that holds the formatted price,
    and the campaign of the lead is removed.  When it returns [False] (no
    email address, a price that cannot be formatted, or a dispatch that
    failed) the campaigns and the spreadsheet are as they were. *)
Theorem payment_link_closes_the_campaign_only_when_sent w l amount now :
  let r := send_payment_link w l amount now in
  let m := message (l !! "email") (render "pricing_info" l).1
                   (render "pricing_info" l).2 (l !! "country") in
  (r.1 = true ->
   exists price,
     format_price (Py.eq_str (l !! "country") "US") amount = Some price /\
     outbox r.2 = outbox w ++ [(m, true)] /\
     active_campaigns r.2 = Dict.del (active_campaigns w) (l !! "id") /\
     sheets r.2
     = (update_lead (sheets w) (l !! "id") "Payment Link Sent"
                    ("Sent payment link for " +:+ price) now).2) /\
  (r.1 = false ->
   active_campaigns r.2 = active_campaigns w /\
   sheets r.2 = sheets w /\
   (outbox r.2 = outbox w \/ outbox r.2 = outbox w ++ [(m, false)])) /\
  (Py.falsy_opt (l !! "email") = true -> r = (false, w)).
Proof.
  cbv zeta. unfold send_payment_link.
  destruct (Py.falsy_opt (l !! "email"));
    [split; [done |]; split; [intros _; auto | done] |].
  destruct (format_price _ amount) as [price |];
    [| split; [done |]; split; [intros _; auto | done]].
  rewrite render_price. unfold _send_email.
  destruct (render "pricing_info" l) as [subj html] eqn:Er. cbn [fst snd].
  destruct (smtp _ _) eqn:Hok.
  - split; [| split; [done | done]]. intros _. exists price.
    split; [done |]. rewrite del_if_mem. by cbn.
  - split; [done |]. split; [| done]. intros _. cbn. auto.
Qed.

(** X13.  [create_payment_link] never raises, sends no message and touches
    no campaign.  Either the processor of the country answers with a URL,
    which is returned and written to the row of the lead with the status
    "Payment Link Created"; or no link is made (the processor is not
    configured, or its API fails), and then the result is a marker that
    begins with "#" and nothing is written. *)
Theorem failed_payment_link_is_a_marker w country amount l now :
  let r := create_payment_link w country amount l now in
  active_campaigns r.2 = active_campaigns w /\
  outbox r.2 = outbox w /\
  ((exists url note,
      payment_api (link_request country amount l) = Url url /\
      r.1 = url /\
      sheets r.2
      = (update_lead (sheets w) (Some (lead_get l "id" ""))
                     "Payment Link Created" note now).2) \/
   (r.2 = w /\ String.prefix "#" r.1 = true /\
    (r.1 = "#stripe-not-configured" \/ r.1 = "#razorpay-not-configured" \/
     r.1 = "#payment-error" \/
     exists e, payment_api (link_request country amount l) = StripeError e /\
               r.1 = "#stripe-error: " +:+ e))).
Proof.
  cbv zeta.
  unfold create_payment_link, link_request, _create_stripe_payment_link,
    _create_razorpay_payment_link.
  destruct (Py.eq_str country "US").
  - destruct (stripe_api_key cfg) as [key |]; [| by auto 10].
    destruct (Py.falsy key); [by auto 10 |].
    destruct (payment_api (stripe_request amount l)) as [url | e |];
      [| | by auto 10].
    + split; [done |]. split; [done |]. left. by eexists _, _.
    + split; [done |]. split; [done |]. right.
      split; [done |]. split; [done |]. do 3 right. by exists e.
  - destruct (razorpay_client cfg); cbn [negb]; [| by auto 10].
    destruct (payment_api (razorpay_request amount l)) as [url | e |];
      [| by auto 10 | by auto 10].
    split; [done |]. split; [done |]. left. by eexists _, _.
Qed.

(** *** Payment webhooks *)

Lemma handle_webhook_unfold w d now :
  handle_webhook w d now
  = match paid_lead d with
    | None => (false, w)
    | Some lead_id =>
        let w1 := sheets_update w (Some lead_id) "Payment Received"
                                (payment_note d) now in
        (true, (_send_onboarding_email w1 (get_lead (sheets w1) lead_id)
                                       now).2)
    end.
Proof.
  unfold handle_webhook, paid_lead, payment_note, _handle_stripe_webhook,
    _handle_razorpay_webhook.
  destruct (String.eqb (source d) "stripe").
  - destruct (String.eqb (event_type d) "checkout.session.completed");
      [| done].
    by destruct (Py.falsy (stripe_lead_id d)).
  - destruct (String.eqb (source d) "razorpay"); [| done].
    destruct (String.eqb (event d) "payment.authorized"); [| done].
    by destruct (Py.falsy (razorpay_lead_id d)).
Qed.


(** No data row of the spreadsheet has the id: neither [update_lead] nor
    [get_lead] finds a lead. *)
Lemma update_lead_unknown sp id status notes now :
  (forall name i, (1 <= i)%nat -> cell sp name i 0 <> id) ->
  update_lead sp (Some id) status notes now = (false, sp).
Proof.
  intros Hno.
  destruct (update_lead sp (Some id) status notes now).1 eqn:Hok.
  - exfalso.
    destruct (update_lead_success _ _ _ _ _ Hok)
      as (id' & name & i & row & [= <-] & _ & _ & Hscan & _).
    apply scan_sheet_Found in Hscan as (Hi & Hrow & Hhead).
    apply (Hno name i Hi). rewrite (cell_row _ _ _ _ _ Hrow).
    destruct row; [done |]. by injection Hhead as ->.
  - pose proof (update_lead_failure _ _ _ _ _ Hok) as Hsp.
    destruct (update_lead sp (Some id) status notes now). cbn in *.
    by subst.
Qed.

Lemma get_lead_unknown sp id :
  (forall name i, (1 <= i)%nat -> cell sp name i 0 <> id) ->
  get_lead sp id = None.
Proof.
  intros Hno. unfold get_lead.
  rewrite (elem_of_nil_inv (get_leads sp [id] None None)); [done |].
  intros l (name & row & Hrow & _ & _ & Hk & _)%get_leads_row.
  rewrite keeps_one, bool_decide_eq_true, lead_of_row_id in Hk.
  apply list_elem_of_lookup_1 in Hrow as [i Hi]. rewrite lookup_tail in Hi.
  apply (Hno name (S i)); [lia |]. by rewrite (cell_row _ _ _ _ _ Hi).
Qed.

(** X14.  [handle_webhook] accepts exactly the payment-success events that
    name a lead: "checkout.session.completed" of the source "stripe" and
    "payment.authorized" of the source "razorpay", with a lead id that is
    not empty.  For any other event (another source, another event type, no
    lead id) it returns [False] and changes nothing.  For an accepted event
    it returns [True] whether or not the lead exists: when no row of the
    spreadsheet has the lead id, nothing is written and nothing is sent. *)
Theorem webhook_accepts_payment_events_only w d now :
  ((handle_webhook w d now).1 = true <-> is_Some (paid_lead d)) /\
  (paid_lead d = None -> handle_webhook w d now = (false, w)) /\
  (forall id,
     paid_lead d = Some id ->
     (forall name i, (1 <= i)%nat -> cell (sheets w) name i 0 <> id) ->
     handle_webhook w d now = (true, w)).
Proof.
  rewrite handle_webhook_unfold. split; [| split].
  - destruct (paid_lead d); cbn; split; try done; by eauto.
  - by intros ->.
  - intros id -> Hno. cbv zeta. unfold sheets_update.
    rewrite update_lead_unknown by done. cbn [snd].
    replace (with_sheets w (sheets w)) with w by (by destruct w).
    rewrite get_lead_unknown by done. unfold _send_onboarding_email.
    by destruct (email_service_importable cfg).
Qed.




(** *** Tracking *)





(** *** The routes *)

Lemma filter_map_length {A B} (f : A -> B) (P : B -> Prop)
    `{!forall y, Decision (P y)} (l : list A) :
  length (filter P (map f l)) = length (filter (fun x => P (f x)) l).
Proof.
  induction l as [| x l IH]; [done |].
  cbn [map]. rewrite !filter_cons.
  destruct (decide (P (f x))); cbn [length]; by rewrite IH.
Qed.

(** X18.  The route that starts the outreach answers with one result for
    each data row it selects, "US_Leads" first: the rows whose id cell is
    in the list posted, and every data row of both sheets when the list
    posted is empty (or absent).  An id of the list that no row has gets no
    result, and one dispatch is attempted for each selected row with an
    email address. *)
Theorem outreach_without_ids_goes_to_every_lead w ids clock :
  sheets_service cfg = true ->
  let rows := tail (US_Leads (sheets w)) ++ tail (India_Leads (sheets w)) in
  let selected :=
    filter (fun row => ids = [] \/ default "" (row !! 0%nat) ∈ ids) rows in
  exists results,
    (start_outreach w ids clock).1 = Answer results /\
    length (leads results) = length selected /\
    (success results + failed results)%nat = length selected /\
    length (outbox (start_outreach w ids clock).2)
    = (length (outbox w)
       + length (filter (fun row => default "" (row !! 3%nat) <> "")
                        selected))%nat.
Proof using cfg smtp strftime_minute strftime_second.
  clear format_dollars format_rupees.
  intros Hs. cbv zeta. unfold start_outreach.
  destruct (start_campaign w (get_leads (sheets w) ids None None) clock)
    as [results w'] eqn:E.
  exists results. split; [done |]. cbn [snd].
  assert (Hleads : get_leads (sheets w) ids None None
                   = filter (fun l => keeps ids None l = true)
                       (map (fun row => inferred US_Leads_sheet
                                          (lead_of_row row))
                            (tail (US_Leads (sheets w)))
                        ++ map (fun row => inferred India_Leads_sheet
                                             (lead_of_row row))
                               (tail (India_Leads (sheets w))))).
  { rewrite get_leads_sheets by done. cbn [Py.eq_str andb].
    rewrite (sheet_leads_filter US_Leads_sheet),
      (sheet_leads_filter India_Leads_sheet), <- filter_app.
    by rewrite !sheet_leads_all. }
  assert (Hkeep : forall name row,
            keeps ids None (inferred name (lead_of_row row)) = true <->
            ids = [] \/ default "" (row !! 0%nat) ∈ ids).
  { intros name row. rewrite keeps_inferred, keeps_true, lead_of_row_id.
    cbn [Py.falsy_opt]. tauto. }
  assert (Hemail : forall name row,
            Py.falsy_opt (inferred name (lead_of_row row) !! "email") = false
            <-> default "" (row !! 3%nat) <> "").
  { intros name row. rewrite inferred_lookup_ne by done.
    rewrite (lead_of_row_lookup row 3 "email" eq_refl). cbn [Py.falsy_opt].
    destruct (default "" (row !! 3%nat)); cbn; split; done. }
  assert (Hlen : length (get_leads (sheets w) ids None None)
                 = length (filter (fun row => ids = [] \/
                                     default "" (row !! 0%nat) ∈ ids)
                             (tail (US_Leads (sheets w))
                              ++ tail (India_Leads (sheets w))))).
  { rewrite Hleads, !filter_app, !length_app, !filter_map_length.
    f_equal; f_equal; apply list_filter_iff; intros row; apply Hkeep. }
  assert (Hmail : length (filter (fun l => Py.falsy_opt (l !! "email") = false)
                            (get_leads (sheets w) ids None None))
                  = length (filter (fun row => default "" (row !! 3%nat) <> "")
                              (filter (fun row => ids = [] \/
                                         default "" (row !! 0%nat) ∈ ids)
                                 (tail (US_Leads (sheets w))
                                  ++ tail (India_Leads (sheets w)))))).
  { rewrite Hleads, !filter_app, !length_app, !list_filter_filter,
      !filter_map_length.
    f_equal; f_equal; apply list_filter_iff; intros row;
      rewrite Hkeep, Hemail; tauto. }
  pose proof (start_fold clock (get_leads (sheets w) ids None None)
                {| success := 0; failed := 0; leads := [] |} w) as Hfold.
  cbv zeta in Hfold. unfold start_campaign in E. rewrite E in Hfold.
  cbn [fst snd leads success failed length] in Hfold.
  destruct Hfold as (H1 & H2 & new & H3 & H4 & H5).
  rewrite <- Hlen. split; [lia |]. split; [lia |].
  rewrite H3, length_app, <- Hmail. f_equal.
  by rewrite <- (length_map fst), H4, length_map.
Qed.

Lemma create_payment_link_sheets w country amount l now :
  sheets (create_payment_link w country amount l now).2 = sheets w \/
  exists note,
    sheets (create_payment_link w country amount l now).2
    = (update_lead (sheets w) (Some (lead_get l "id" ""))
                   "Payment Link Created" note now).2.
Proof.
  unfold create_payment_link, _create_stripe_payment_link,
    _create_razorpay_payment_link.
  destruct (Py.eq_str country "US").
  - destruct (stripe_api_key cfg) as [key |]; [| by left].
    destruct (Py.falsy key); [by left |].
    destruct (payment_api (stripe_request amount l)); [| by left | by left].
    right. by eexists.
  - destruct (razorpay_client cfg); cbn [negb]; [| by left].
    destruct (payment_api (razorpay_request amount l)); [| by left | by left].
    right. by eexists.
Qed.



(** *** The history in the notes *)

Lemma string_app_nil_r (s : string) : s +:+ "" = s.
Proof.
  induction s as [| a s IH]; [done |].
  change (String a (s +:+ "") = String a s). by rewrite IH.
Qed.

Lemma updated_row_notes_grow row status notes now :
  exists added,
    default "" (updated_row row status notes now !! col_notes)
    = default "" (row !! col_notes) +:+ added.
Proof.
  rewrite updated_row_default. unfold col_notes, col_status, col_last_contact.
  cbn [decide]. rewrite !decide_False by lia. rewrite decide_True by done.
  destruct (Py.falsy notes).
  - exists "". by rewrite string_app_nil_r.
  - unfold appended_notes, col_notes.
    destruct (default "" (row !! 17%nat)) eqn:E; cbn [Py.falsy];
      by eexists.
Qed.

(** X20.  The notes of a lead are a history that [update_lead] only adds
    to: after any sequence of calls, for this lead or for others, with or
    without a note, succeeding or failing, the row that is found for the
    id of the lead has notes that begin with the notes the lead had before
    the sequence. *)
Theorem notes_of_a_lead_only_grow
    sp id row (updates : list (option string * string * string * Z)) :
  lead_row sp id = Some row ->
  exists row' added,
    lead_row
      (fold_left (fun sp u => (update_lead sp u.1.1.1 u.1.1.2 u.1.2 u.2).2)
                 updates sp) id
    = Some row' /\
    default "" (row' !! col_notes) = default "" (row !! col_notes) +:+ added.
Proof.
  assert (Hassoc : forall a b c : string,
            (a +:+ b) +:+ c = a +:+ (b +:+ c)).
  { intros a b c. induction a as [| x a IH]; [done |].
    change (String x ((a +:+ b) +:+ c) = String x (a +:+ (b +:+ c))).
    by rewrite IH. }
  revert sp row.
  induction updates as [| [[[k status] notes] now] updates IH];
    intros sp row Hrow.
  - exists row, "". split; [done |].
    by rewrite string_app_nil_r.
  - cbn [fold_left fst snd].
    assert (Hstep : exists row1 added1,
              lead_row (update_lead sp k status notes now).2 id = Some row1 /\
              default "" (row1 !! col_notes)
              = default "" (row !! col_notes) +:+ added1).
    { destruct (decide (k = Some id)) as [-> | Hk].
      - destruct (update_lead sp (Some id) status notes now).1 eqn:Hok.
        + destruct (update_lead_success _ _ _ _ _ Hok)
            as (id' & _ & _ & _ & [= <-] & Hid & Hs & _).
          destruct (update_lead_found sp id row status notes now Hs Hid Hrow)
            as [_ Hrow1].
          destruct (updated_row_notes_grow row status notes now)
            as [added Hadded].
          by exists (updated_row row status notes now), added.
        + rewrite update_lead_failure by done. exists row, "".
          split; [done |].
          by rewrite string_app_nil_r.
      - rewrite update_lead_frame by done. exists row, "".
        split; [done |].
        by rewrite string_app_nil_r. }
    destruct Hstep as (row1 & added1 & Hrow1 & Hnotes1).
    destruct (IH _ row1 Hrow1) as (row' & added & Hrow' & Hnotes).
    exists row', (added1 +:+ added). split; [done |].
    by rewrite Hnotes, Hnotes1, Hassoc.
Qed.

Lemma send_payment_link_outbox w l amount now :
  outbox (send_payment_link w l amount now).2 = outbox w \/
  exists ok,
    outbox (send_payment_link w l amount now).2
    = outbox w
      ++ [(message (l !! "email") (render "pricing_info" l).1
                   (render "pricing_info" l).2 (l !! "country"), ok)].
Proof.
  unfold send_payment_link.
  destruct (Py.falsy_opt (l !! "email")); [by left |].
  destruct (format_price _ amount) as [price |]; [| by left].
  rewrite render_price. unfold _send_email.
  destruct (render "pricing_info" l) as [subj html]. cbn [fst snd].
  destruct (smtp _ _) eqn:Hok; right; eexists.
  - by rewrite del_if_mem.
  - done.
Qed.

(** *** Without the Sheets service *)

Lemma update_lead_off sp lead_id status notes now :
  sheets_service cfg = false ->
  update_lead sp lead_id status notes now = (false, sp).
Proof.
  intros Hs. unfold update_lead. rewrite Hs. by destruct lead_id.
Qed.

Lemma sheets_update_off w lead_id status notes now :
  sheets_service cfg = false ->
  sheets_update w lead_id status notes now = w.
Proof.
  intros Hs. unfold sheets_update. rewrite update_lead_off by done.
  by destruct w.
Qed.

Lemma follow_up_one_sheets_off now w item :
  sheets_service cfg = false ->
  sheets (follow_up_one now w item) = sheets w.
Proof.
  intros Hs. destruct item as [k c].
  destruct (Z.lt_ge_cases now (next_follow_up c)) as [H | H].
  - by rewrite follow_up_one_not_due.
  - destruct (Z.le_gt_cases (max_follow_ups c) (follow_up_count c))
      as [Hm | Hm].
    + rewrite follow_up_one_exhausted by done.
      by rewrite sheets_update_off.
    + rewrite follow_up_one_send by lia.
      destruct (smtp _ _); [by rewrite sheets_update_off | done].
Qed.

(** X24.  Without the Sheets service (no credentials or no spreadsheet id
    when the process starts) the spreadsheet is neither read nor written:
    [store_leads] and [update_lead] return [False] and write nothing,
    [get_leads] returns no lead, [get_analytics_data] the empty dict.  No
    operation of the other services then writes a row: starting
    campaigns, the follow-up pass, payment links and payment webhooks
    leave the spreadsheet as it is, [handle_reply] finds no sender, the
    outreach route starts nothing and the payment route answers 500. *)
Theorem without_the_sheets_service_nothing_is_written :
  sheets_service cfg = false ->
  (forall sp ls now, store_leads sp ls now = (false, sp)) /\
  (forall sp ids country status, get_leads sp ids country status = []) /\
  (forall sp lead_id status notes now,
     update_lead sp lead_id status notes now = (false, sp)) /\
  (forall sp, get_analytics_data sp = None) /\
  (forall w ls clock, sheets (start_campaign w ls clock).2 = sheets w) /\
  (forall w now, sheets (_process_follow_ups w now) = sheets w) /\
  (forall w d now, handle_reply w d now = (false, w)) /\
  (forall w l amount now,
     sheets (send_payment_link w l amount now).2 = sheets w) /\
  (forall w country amount l now,
     sheets (create_payment_link w country amount l now).2 = sheets w) /\
  (forall w d now, sheets (handle_webhook w d now).2 = sheets w) /\
  (forall w ids clock,
     start_outreach w ids clock
     = (Answer {| success := 0; failed := 0; leads := [] |}, w)) /\
  (forall w lead_id amount now,
     create_payment w lead_id amount now = (ServerError, w)).
Proof.
  intros Hs.
  assert (Hget : forall sp ids country status,
            get_leads sp ids country status = []).
  { intros. unfold get_leads. by rewrite Hs. }
  repeat split.
  - intros. unfold store_leads. by rewrite Hs.
  - exact Hget.
  - intros. by apply update_lead_off.
  - intros. unfold get_analytics_data. by rewrite Hs.
  - intros w ls clock. unfold start_campaign.
    generalize {| success := 0; failed := 0; leads := [] |}.
    revert w clock. induction ls as [| l ls IH]; intros w clock r; [done |].
    cbn [start_each]. rewrite start_one_unfold.
    destruct (Py.falsy_opt (l !! "email")); [apply IH |].
    destruct (smtp _ _); rewrite IH; [| done].
    cbn [sheets]. by rewrite update_lead_off.
  - intros w now. unfold _process_follow_ups.
    generalize (active_campaigns w) at 1. intros items. revert w.
    induction items as [| item items IH]; intros w; [done |].
    cbn [fold_left]. by rewrite IH, follow_up_one_sheets_off.
  - intros w d now. unfold handle_reply. by rewrite Hget.
  - intros w l amount now. unfold send_payment_link.
    destruct (Py.falsy_opt (l !! "email")); [done |].
    destruct (format_price _ amount); [| done].
    destruct (render _ _) as [subj html]. unfold _send_email.
    destruct (smtp _ _); [| done]. cbn [snd].
    rewrite del_if_mem. cbn [sheets with_campaigns].
    by rewrite sheets_update_off.
  - intros w country amount l now.
    destruct (create_payment_link_sheets w country amount l now)
      as [-> | [note ->]]; [done |].
    by rewrite update_lead_off.
  - intros w d now. rewrite handle_webhook_unfold.
    destruct (paid_lead d) as [id |]; [| done]. cbv zeta. cbn [snd].
    rewrite sheets_update_off by done. unfold get_lead. rewrite Hget.
    cbn [head]. unfold _send_onboarding_email.
    by destruct (email_service_importable cfg).
  - intros w ids clock. unfold start_outreach. by rewrite Hget.
  - intros w lead_id amount now. unfold create_payment, get_lead.
    destruct lead_id; cbn [mbind option_bind]; by rewrite ?Hget.
Qed.

(** *** The recent activities *)

Section SortedFacts.
Context {A : Type} (key : A -> string).

(** [b] is not later than [a]. *)
Definition not_later (a b : A) : Prop := String.leb (key b) (key a) = true.

Lemma leb_trans a b c :
  String.leb a b = true -> String.leb b c = true -> String.leb a c = true.
Proof.
  intros H1%Is_true_true H2%Is_true_true. apply Is_true_true.
  change (String.le a c). by transitivity b.
Qed.

Lemma leb_false a b : String.leb a b = false -> String.leb b a = true.
Proof. intros H. destruct (String.leb_total a b); congruence. Qed.

Lemma insert_desc_perm x l : insert_desc key x l ≡ₚ x :: l.
Proof.
  induction l as [| y l IH]; [done |]. cbn [insert_desc].
  destruct (String.leb (key x) (key y)); [| done].
  rewrite IH. apply Permutation_swap.
Qed.

Lemma insert_desc_sorted x l :
  StronglySorted not_later l -> StronglySorted not_later (insert_desc key x l).
Proof.
  induction 1 as [| y l Hs IH Hy]; [repeat constructor |].
  cbn [insert_desc]. destruct (String.leb (key x) (key y)) eqn:E.
  - constructor; [done |]. rewrite insert_desc_perm. by constructor.
  - apply leb_false in E. constructor; [by constructor |].
    constructor; [done |]. eapply Forall_impl; [exact Hy |].
    intros z Hz. unfold not_later in *. by eapply leb_trans.
Qed.

Lemma filter_none (P : A -> Prop) `{!forall x, Decision (P x)} l :
  Forall (fun x => ~ P x) l -> filter P l = [].
Proof.
  induction 1 as [| x l Hx Hl IH]; [done |].
  by rewrite filter_cons_False.
Qed.

Lemma insert_desc_stable x l k :
  StronglySorted not_later l ->
  filter (fun y => key y = k) (insert_desc key x l)
  = filter (fun y => key y = k) l ++ filter (fun y => key y = k) [x].
Proof.
  induction 1 as [| y l Hs IH Hy]; [done |].
  cbn [insert_desc]. destruct (String.leb (key x) (key y)) eqn:E.
  - rewrite !filter_cons, IH. by destruct (decide (key y = k)).
  - destruct (decide (key x = k)) as [Hk | Hk].
    + assert (Hnone : filter (fun y => key y = k) (y :: l) = []).
      { apply filter_none. constructor.
        - intros Hy'. rewrite Hy', <- Hk in E.
          destruct (String.leb_total (key x) (key x)); congruence.
        - eapply Forall_impl; [exact Hy |]. intros z Hz Hz'.
          unfold not_later in Hz. rewrite Hz', <- Hk in Hz.
          congruence. }
      rewrite (filter_cons_True _ x (y :: l)) by done.
      rewrite Hnone, (filter_cons_True _ x []) by done.
      by rewrite filter_nil.
    + rewrite (filter_cons_False _ x (y :: l)) by done.
      rewrite (filter_cons_False _ x []) by done.
      by rewrite filter_nil, app_nil_r.
Qed.

Lemma sorted_desc_spec l :
  sorted_desc key l ≡ₚ l /\
  StronglySorted not_later (sorted_desc key l) /\
  forall k, filter (fun y => key y = k) (sorted_desc key l)
            = filter (fun y => key y = k) l.
Proof.
  unfold sorted_desc.
  assert (H : forall acc,
            StronglySorted not_later acc ->
            fold_left (fun acc x => insert_desc key x acc) l acc ≡ₚ acc ++ l /\
            StronglySorted not_later
              (fold_left (fun acc x => insert_desc key x acc) l acc) /\
            forall k,
              filter (fun y => key y = k)
                     (fold_left (fun acc x => insert_desc key x acc) l acc)
              = filter (fun y => key y = k) acc
                ++ filter (fun y => key y = k) l).
  { induction l as [| x l IH]; intros acc Hacc.
    - cbn. rewrite app_nil_r. split; [done |]. split; [done |].
      intros k. by rewrite app_nil_r.
    - cbn [fold_left].
      destruct (IH (insert_desc key x acc) (insert_desc_sorted x acc Hacc))
        as (Hp & Hs & Hf).
      split; [| split; [done |]].
      + rewrite Hp, insert_desc_perm. cbn [app].
        apply Permutation_middle.
      + intros k. rewrite Hf, insert_desc_stable by done.
        rewrite <- app_assoc. f_equal.
        by rewrite <- filter_app. }
  destruct (H [] (SSorted_nil _)) as (Hp & Hs & Hf). done.
Qed.

End SortedFacts.

(** X26.  The list "recent_activities" of the analytics holds the ten leads
    contacted last.  It is the first ten entries (all of them when there
    are fewer) of the leads of both sheets put in the order of their last
    contact, latest first: a rearrangement of the leads in which no entry
    is later than an entry before it, and in which leads with the same time
    of last contact keep their order, "US_Leads" before "India_Leads". *)
Theorem recent_activities_are_the_last_contacted sp :
  let key l := lead_get l "last_contact" "" in
  exists sorted_leads,
    recent_activities sp = map activity (take 10 sorted_leads) /\
    length (recent_activities sp)
    = Nat.min 10 (length (get_leads sp [] None None)) /\
    sorted_leads ≡ₚ get_leads sp [] None None /\
    StronglySorted (fun a b => String.leb (key b) (key a) = true)
                   sorted_leads /\
    (forall k, filter (fun l => key l = k) sorted_leads
               = filter (fun l => key l = k) (get_leads sp [] None None)).
Proof.
  cbv zeta. unfold recent_activities.
  destruct (sheets_service cfg) eqn:Hs; cbn [negb].
  - assert (Hall : get_leads sp [] None None
                   = get_leads sp [] (Some "US") None
                     ++ get_leads sp [] (Some "IN") None).
    { rewrite !get_leads_sheets by done.
      cbn [Py.eq_str String.eqb Ascii.eqb Bool.eqb andb negb].
      by rewrite !app_nil_r. }
    rewrite <- Hall.
    destruct (sorted_desc_spec (fun l => lead_get l "last_contact" "")
                (get_leads sp [] None None)) as (Hp & Hsorted & Hf).
    eexists. split; [reflexivity |].
    split; [by rewrite length_map, length_take, Hp |].
    split; [done |]. split; done.
  - exists []. unfold get_leads. rewrite Hs. cbn.
    repeat split; try done. constructor.
Qed.

(** *** The records of a running process *)




(** *** Replies, classified *)


End Services.


(** ** The template engine *)

(** *** Lookup by stage and template set *)

Lemma known_stage_has_us stage t :
  Dict.get templates stage = Some t -> exists us, Dict.get t "us" = Some us.
Proof.
  unfold templates. cbn [Dict.get].
  repeat (destruct (decide (_ = stage));
          [intros [= <-]; eexists; reflexivity |]).
  done.
Qed.

Lemma lookup_template_total stage set :
  exists x, lookup_template stage set = inr x.
Proof.
  assert (E : _get_email_templates stage
              = inr (default [("us", initial_us); ("india", initial_india)]
                             (Dict.get templates stage))) by reflexivity.
  unfold lookup_template. rewrite E.
  unfold get_or_subscript, subscript.
  destruct (Dict.get templates stage) as [t |] eqn:H;
    cbn [default from_option id].
  - destruct (known_stage_has_us stage t H) as [us Hus]. rewrite Hus. eauto.
  - cbn. eauto.
Qed.

(** [template_of] is the template of the lookup, which never fails. *)
Lemma template_data_total stage country :
  template_data stage country = inr (template_of stage country).
Proof.
  unfold template_of.
  destruct (lookup_template_total stage (country_code country)) as [x Hx].
  unfold template_data. by rewrite Hx.
Qed.

(** C7, as amended.  For a stage of the table, a template set that the
    stage lacks gets the "us" template of the stage, and a set it has gets
    its own.  A stage that is not in the table gets the templates of the
    stage "initial": the lookup answers with a template and never with an
    error. *)
Theorem unknown_stage_gets_initial_templates stage set :
  (forall t, Dict.get templates stage = Some t ->
     _get_email_templates stage = inr t /\
     (Dict.get t set = None ->
      exists us, Dict.get t "us" = Some us /\
                 lookup_template stage set = inr us) /\
     (forall x, Dict.get t set = Some x -> lookup_template stage set = inr x)) /\
  (Dict.get templates stage = None ->
     _get_email_templates stage = _get_email_templates "initial" /\
     _get_email_templates stage
       = inr [("us", initial_us); ("india", initial_india)] /\
     lookup_template stage set = lookup_template "initial" set) /\
  (exists x, lookup_template stage set = inr x).
Proof.
  assert (Hknown : forall t, Dict.get templates stage = Some t ->
            _get_email_templates stage = inr t).
  { intros t H. unfold _get_email_templates, get_or_subscript.
    rewrite H. reflexivity. }
  assert (Hunknown : Dict.get templates stage = None ->
            _get_email_templates stage
            = inr [("us", initial_us); ("india", initial_india)]).
  { intros H. unfold _get_email_templates, get_or_subscript.
    rewrite H. reflexivity. }
  split; [| split].
  - intros t H. split; [by apply Hknown |].
    destruct (known_stage_has_us stage t H) as [us Hus].
    unfold lookup_template. rewrite (Hknown t H).
    unfold get_or_subscript, subscript. rewrite Hus. split.
    + intros ->. by exists us.
    + by intros x ->.
  - intros H. unfold lookup_template. rewrite (Hunknown H). done.
  - apply lookup_template_total.
Qed.

(** *** Personalisation as token replacement *)

Lemma without_cons c a (s : string) :
  without c (String a s) = true <-> a <> c /\ without c s = true.
Proof.
  cbn [without]. rewrite andb_true_iff, negb_true_iff, Ascii.eqb_neq. done.
Qed.

Lemma without_app c (s r : string) :
  without c (s +:+ r) = without c s && without c r.
Proof.
  induction s as [| a s IH]; [done |].
  rewrite string_app_cons. cbn [without]. rewrite IH. by rewrite andb_assoc.
Qed.

Lemma token_unfold name :
  token name = String open_brace (String open_brace (name +:+ "}}")).
Proof. reflexivity. Qed.

Section Replace.
Variables (k new : string).
Hypothesis k_plain : without open_brace k && without close_brace k = true.

(** Text without an opening brace holds no occurrence of a token. *)
Lemma scan_plain (s r : string) :
  without open_brace s = true ->
  Py.replace_scan (token k) new 0 (s +:+ r)
  = s +:+ Py.replace_scan (token k) new 0 r.
Proof.
  induction s as [| a s IH]; intros Hs; [done |].
  apply without_cons in Hs as [Ha Hs].
  rewrite !string_app_cons. cbn [Py.replace_scan].
  rewrite token_unfold at 1. rewrite prefix_cons.
  destruct (Ascii.eqb_spec open_brace a) as [E | _]; [congruence |].
  by rewrite IH.
Qed.

(** The characters of a matched occurrence are dropped. *)
Lemma scan_skip (old u r : string) :
  Py.replace_scan old new (String.length u) (u +:+ r)
  = Py.replace_scan old new 0 r.
Proof.
  induction u as [| a u IH]; [by destruct r |].
  rewrite string_app_cons. cbn [String.length Py.replace_scan]. exact IH.
Qed.

(** The token of [k] is replaced. *)
Lemma scan_token (r : string) :
  Py.replace_scan (token k) new 0 (token k +:+ r)
  = new +:+ Py.replace_scan (token k) new 0 r.
Proof.
  generalize (token_unfold k). generalize (token k).
  intros old ->.
  set (tl := String open_brace (k +:+ "}}")).
  rewrite string_app_cons. cbn [Py.replace_scan].
  rewrite <- string_app_cons, prefix_app. f_equal.
  cbn [String.length]. rewrite Nat.sub_succ, Nat.sub_0_r.
  apply scan_skip.
Qed.

Lemma prefix_names (n r : string) :
  without close_brace k = true ->
  without close_brace n = true ->
  String.prefix (k +:+ "}}") (n +:+ "}}" +:+ r) = true -> k = n.
Proof.
  clear k_plain. revert n.
  induction k as [| b k' IH]; intros n Hk Hn Hp.
  - destruct n as [| a n]; [done |]. exfalso.
    apply without_cons in Hn as [Ha _].
    rewrite string_app_nil, string_app_cons in Hp.
    change "}}" with (String close_brace (String close_brace "")) in Hp.
    rewrite prefix_cons in Hp.
    destruct (Ascii.eqb_spec close_brace a); [congruence | done].
  - apply without_cons in Hk as [Hb Hk].
    rewrite string_app_cons in Hp.
    destruct n as [| a n].
    + exfalso. rewrite string_app_nil in Hp.
      change ("}}" +:+ r) with (String close_brace (String close_brace r)) in Hp.
      rewrite prefix_cons in Hp.
      destruct (Ascii.eqb_spec b close_brace); [congruence | done].
    + apply without_cons in Hn as [_ Hn].
      rewrite string_app_cons, prefix_cons in Hp.
      destruct (Ascii.eqb_spec b a) as [-> | ]; [| done].
      f_equal. by apply IH.
Qed.

(** The token of another name stays. *)
Lemma scan_other_token (n r : string) :
  without open_brace n && without close_brace n = true ->
  n <> k ->
  Py.replace_scan (token k) new 0 (token n +:+ r)
  = token n +:+ Py.replace_scan (token k) new 0 r.
Proof.
  intros Hn Hne.
  apply andb_true_iff in Hn as [Hno Hnc].
  pose proof k_plain as Hk. apply andb_true_iff in Hk as [Hko Hkc].
  set (rest := (n +:+ "}}") +:+ r).
  assert (Hp0 : String.prefix (token k)
                  (String open_brace (String open_brace rest)) = false).
  { rewrite token_unfold, !prefix_cons, Ascii.eqb_refl.
    subst rest. rewrite string_app_assoc.
    destruct (String.prefix (k +:+ "}}") (n +:+ "}}" +:+ r)) eqn:E; [| done].
    apply prefix_names in E; [congruence | done | done]. }
  assert (Hp1 : String.prefix (token k) (String open_brace rest) = false).
  { rewrite token_unfold, prefix_cons, Ascii.eqb_refl. subst rest.
    destruct n as [| a n].
    - rewrite string_app_nil.
      change ("}}" +:+ r) with (String close_brace (String close_brace r)).
      by rewrite prefix_cons.
    - apply without_cons in Hno as [Ha _].
      rewrite !string_app_cons, prefix_cons.
      destruct (Ascii.eqb_spec open_brace a); [congruence | done]. }
  rewrite (token_unfold n), !string_app_cons. fold rest.
  cbn [Py.replace_scan]. rewrite Hp0.
  cbn [Py.replace_scan]. rewrite Hp1.
  subst rest. rewrite scan_plain; [by rewrite string_app_assoc |].
  rewrite without_app. by rewrite Hno.
Qed.

End Replace.

Lemma replace_flatten k v segs :
  plain_name k = true ->
  forallb plain segs = true ->
  Py.replace (flatten segs) (token k) v = flatten (map (subst_token k v) segs).
Proof.
  intros Hk Hs.
  change (Py.replace (flatten segs) (token k) v)
    with (Py.replace_scan (token k) v 0 (flatten segs)).
  induction segs as [| seg segs IH]; [done |].
  cbn [forallb] in Hs. apply andb_true_iff in Hs as [Hseg Hs].
  specialize (IH Hs). destruct seg as [text | n]; cbn [map flatten subst_token].
  - rewrite scan_plain by done. by rewrite IH.
  - destruct (decide (k = n)) as [<- | Hne]; cbn [flatten].
    + rewrite scan_token. by rewrite IH.
    + rewrite scan_other_token by (done || congruence). by rewrite IH.
Qed.

Lemma subst_token_plain k v segs :
  without open_brace v = true ->
  forallb plain segs = true ->
  forallb plain (map (subst_token k v) segs) = true.
Proof.
  intros Hv. induction segs as [| seg segs IH]; [done |].
  cbn [forallb map]. rewrite !andb_true_iff. intros [Hseg Hs].
  split; [| by apply IH].
  destruct seg as [text | n]; cbn; [done |].
  by destruct (decide (k = n)).
Qed.

Lemma resolve_cons k v vars seg :
  resolve ((k, v) :: vars) seg = resolve vars (subst_token k v seg).
Proof.
  destruct seg as [text | n]; cbn; [done |].
  by destruct (decide (k = n)).
Qed.

Lemma flatten_resolve vars segs :
  flatten (map (resolve vars) segs) = render_tokens vars segs.
Proof.
  induction segs as [| seg segs IH]; [done |].
  destruct seg as [text | n]; cbn [map flatten resolve render_tokens].
  - by rewrite IH.
  - destruct (Dict.get vars n); cbn [flatten]; by rewrite IH.
Qed.

(** The loop over the replacements renders the tokens. *)
Lemma apply_replacements_tokens vars segs :
  forallb (fun kv => plain_name kv.1) vars = true ->
  forallb (fun kv => without open_brace kv.2) vars = true ->
  forallb plain segs = true ->
  apply_replacements (map (fun kv => (token kv.1, kv.2)) vars) (flatten segs)
  = render_tokens vars segs.
Proof.
  unfold apply_replacements. revert segs.
  induction vars as [| [k v] vars IH]; intros segs Hn Hv Hs.
  - cbn. rewrite <- flatten_resolve. f_equal.
    induction segs as [| [t | n] segs IHs]; cbn; [done | |]; f_equal;
      apply IHs; cbn in Hs; by apply andb_true_iff in Hs as [_ ?].
  - cbn [forallb fst snd] in Hn, Hv.
    apply andb_true_iff in Hn as [Hk Hn].
    apply andb_true_iff in Hv as [Hv0 Hv].
    cbn [map fold_left fst snd].
    rewrite replace_flatten by done.
    rewrite IH by (done || by apply subst_token_plain).
    rewrite <- !flatten_resolve. f_equal.
    rewrite map_map. apply map_ext. intros seg. by rewrite resolve_cons.
Qed.


Lemma dict_get_set_eq {V} (d : list (string * V)) k v :
  Dict.get (Dict.set d k v) k = Some v.
Proof.
  induction d as [| [k' v'] d IH]; cbn.
  - by destruct (decide (k = k)).
  - destruct (decide (k' = k)) as [-> | Hne]; cbn.
    + by destruct (decide (k = k)).
    + by destruct (decide (k' = k)).
Qed.

Lemma dict_get_set_ne {V} (d : list (string * V)) k k' v :
  k <> k' -> Dict.get (Dict.set d k v) k' = Dict.get d k'.
Proof.
  intros Hne. induction d as [| [k0 v0] d IH]; cbn.
  - by destruct (decide (k = k')).
  - destruct (decide (k0 = k)) as [-> | Hk]; cbn.
    + by destruct (decide (k = k')).
    + by destruct (decide (k0 = k')).
Qed.

Lemma count_status_get d l s :
  default 0 (Dict.get (count_status d l) s)
  = default 0 (Dict.get d s)
    + (if decide (lead_get l "status" "New" = s) then 1 else 0).
Proof.
  unfold count_status. set (status := lead_get l "status" "New").
  destruct (decide (status = s)) as [<- | Hne].
  - rewrite dict_get_set_eq. cbn. unfold Dict.mem.
    destruct (Dict.get d status) eqn:E; [by rewrite E |].
    by rewrite dict_get_set_eq.
  - rewrite dict_get_set_ne by done. unfold Dict.mem.
    destruct (Dict.get d status); [lia |].
    rewrite dict_get_set_ne by done. lia.
Qed.

Lemma by_status_counts ls d s :
  default 0 (Dict.get (fold_left count_status ls d) s)
  = default 0 (Dict.get d s)
    + Z.of_nat (length (filter (fun l => lead_get l "status" "New" = s) ls)).
Proof.
  revert d. induction ls as [| l ls IH]; intros d; [cbn; lia |].
  cbn [fold_left]. rewrite IH, count_status_get, filter_cons.
  destruct (decide (lead_get l "status" "New" = s)); cbn [length]; lia.
Qed.


(** ** The price in the pricing email *)

(** A token whose name is not a variable is still there after the
    rendering. *)
Lemma render_tokens_keeps_unknown vars segs n :
  Dict.get vars n = None ->
  In (Placeholder n) segs ->
  Py.contains (token n) (render_tokens vars segs) = true.
Proof.
  intros Hn. induction segs as [| [t | m] segs IH]; intros Hin; [done | |].
  - destruct Hin as [[=] | Hin]. cbn [render_tokens].
    by apply contains_app_r, IH.
  - cbn [render_tokens]. destruct Hin as [[= ->] | Hin].
    + rewrite Hn. apply contains_prefix, prefix_app.
    + destruct (Dict.get vars m); by apply contains_app_r, IH.
Qed.

(** X21.  The pricing email never shows the price.  [send_payment_link]
    formats the amount and stores it in the lead under "price", but
    "{{price}}" is not among the tokens that personalisation replaces: for a
    lead whose values hold no opening brace, the body of the message that
    [send_payment_link] dispatches, in either country, still contains the
    text "{{price}}". *)
Theorem pricing_email_never_shows_the_price
    cfg smtp strftime_minute strftime_second Amount format_price
    w l (amount : Amount) now :
  forallb (fun kv => without open_brace kv.2)
          (variables (calendly_link cfg) l) = true ->
  let r := send_payment_link cfg smtp strftime_minute strftime_second
                             Amount format_price w l amount now in
  outbox r.2 = outbox w \/
  exists m ok,
    outbox r.2 = outbox w ++ [(m, ok)] /\
    m_to m = l !! "email" /\
    Py.contains "{{price}}" (m_html m) = true.
Proof.
  intros Hv. cbv zeta.
  destruct (send_payment_link_outbox cfg smtp strftime_minute strftime_second
              Amount format_price w l amount now) as [H | [ok H]];
    [by left | right].
  eexists _, ok. split; [exact H |]. split; [done |].
  cbn [m_html message render snd].
  rewrite (template_of_region "pricing_info" (l !! "country")
             pricing_info_us pricing_info_india eq_refl).
  unfold personalize, _personalize_template.
  change (replacements (calendly_link cfg) l)
    with (map (fun kv => (token kv.1, kv.2))
              (variables (calendly_link cfg) l)).
  destruct (Py.eq_str (l !! "country") "US").
  - change (body pricing_info_us) with (flatten pricing_info_us_body).
    rewrite apply_replacements_tokens; [| done | done | done].
    apply (render_tokens_keeps_unknown _ _ "price"); [done |].
    cbn. tauto.
  - change (body pricing_info_india) with (flatten pricing_info_india_body).
    rewrite apply_replacements_tokens; [| done | done | done].
    apply (render_tokens_keeps_unknown _ _ "price"); [done |].
    cbn. tauto.
Qed.

(** ** The call keywords *)

(** X25.  The test for a call request is a substring test that ignores the
    case of ASCII letters: a reply asks for a call as soon as one of the
    keywords "call", "meeting", "schedule", "calendly", "available" and
    "time" occurs anywhere in its body, in any mix of upper and lower case
    and also inside a longer word. *)
Theorem a_call_keyword_anywhere_asks_for_a_call pre word post :
  In (Py.lower word) call_keywords ->
  wants_call (pre +:+ word +:+ post) = true.
Proof.
  intros Hin. unfold wants_call. apply existsb_exists.
  exists (Py.lower word). split; [done |].
  rewrite !lower_app. apply contains_app_r, contains_prefix, prefix_app.
Qed.

(** ** No token is left in an outreach email *)

Lemma variables_get calendly_link l name :
  name ∈ variable_names ->
  exists v, Dict.get (variables calendly_link l) name = Some v.
Proof.
  unfold variable_names. intros H.
  repeat (apply elem_of_cons in H as [-> | H]; [by eexists |]).
  by apply elem_of_nil in H.
Qed.

Lemma dict_get_forallb {V} (P : string * V -> bool) (d : list (string * V))
    k v :
  forallb P d = true -> Dict.get d k = Some v -> exists k', P (k', v) = true.
Proof.
  induction d as [| [k0 v0] d IH]; [done |].
  cbn [forallb Dict.get]. intros [H0 Hd]%andb_true_iff.
  destruct (decide (k0 = k)); [intros [= <-]; by exists k0 | by apply IH].
Qed.

Lemma render_tokens_filled vars segs :
  forallb (fun kv => without open_brace kv.2) vars = true ->
  forallb plain segs = true ->
  (forall name, In (Placeholder name) segs ->
                exists v, Dict.get vars name = Some v) ->
  without open_brace (render_tokens vars segs) = true.
Proof.
  intros Hv. induction segs as [| [t | name] segs IH]; [done | |];
    cbn [forallb plain render_tokens];
    intros [Hp Hs]%andb_true_iff Hknown.
  - rewrite without_app, Hp. apply IH; [done |].
    intros n Hn. apply Hknown. by right.
  - destruct (Hknown name) as [v Hget]; [by left |]. rewrite Hget.
    destruct (dict_get_forallb _ _ _ _ Hv Hget) as [k' Hk']. cbn in Hk'.
    rewrite without_app, Hk'. apply IH; [done |].
    intros n Hn. apply Hknown. by right.
Qed.

(** Personalisation of a well-formed template, for a lead whose values
    hold no opening brace, gives a text without an opening brace. *)
Lemma personalize_well_formed cfg s l :
  well_formed s = true ->
  forallb (fun kv => without open_brace kv.2)
          (variables (calendly_link cfg) l) = true ->
  without open_brace (personalize cfg s l) = true.
Proof.
  unfold well_formed.
  intros [[Hs%String.eqb_eq Hp]%andb_true_iff Hf]%andb_true_iff Hv.
  unfold personalize, _personalize_template. rewrite <- Hs.
  change (replacements (calendly_link cfg) l)
    with (map (fun kv => (token kv.1, kv.2))
              (variables (calendly_link cfg) l)).
  rewrite apply_replacements_tokens; [| done | done | done].
  apply render_tokens_filled; [done | done |].
  intros name Hin. apply variables_get.
  rewrite forallb_forall in Hf. specialize (Hf _ Hin). cbn in Hf.
  by apply bool_decide_eq_true in Hf.
Qed.

Lemma outreach_templates_well_formed :
  forallb (fun t => well_formed (subject t) && well_formed (body t))
          outreach_templates = true /\
  well_formed (subject pricing_info_us) = true /\
  well_formed (subject pricing_info_india) = true /\
  well_formed onboarding_template_us = true /\
  well_formed onboarding_template_other = true.
Proof. repeat split; vm_compute; reflexivity. Qed.

Lemma template_of_outreach stage country :
  stage <> "pricing_info" ->
  In (template_of stage country) outreach_templates.
Proof.
  intros Hstage.
  assert (E : template_of stage country
              = match Dict.get templates stage with
                | Some t =>
                    default (default initial_us (Dict.get t "us"))
                            (Dict.get t (country_code country))
                | None =>
                    if Py.eq_str country "US" then initial_us
                    else initial_india
                end).
  { unfold template_of, template_data, lookup_template, _get_email_templates,
      get_or_subscript, subscript, country_code.
    change (Dict.get templates "initial")
      with (Some [("us", initial_us); ("india", initial_india)]).
    cbn match. destruct (Dict.get templates stage) as [t |] eqn:Ht.
    - cbn [default from_option Datatypes.id].
      destruct (known_stage_has_us stage t Ht) as [us ->].
      by destruct (Dict.get t _).
    - cbn [default from_option Datatypes.id].
      by destruct (Py.eq_str country "US"). }
  rewrite E. unfold templates, country_code. cbn [Dict.get].
  repeat (destruct (decide (_ = stage));
          [subst; try done;
           destruct (Py.eq_str country "US"); cbn; tauto |]).
  destruct (Py.eq_str country "US"); cbn; tauto.
Qed.

(** X23.  No token is left in an outreach email.  For a lead whose
    substituted values hold no opening brace, the subject and the body that
    are rendered for any stage other than "pricing_info" (the stages
    "initial", "follow_up_1" to "follow_up_3" and "call_invite", and any
    unknown stage, which gets "initial") hold no opening brace: every
    placeholder of these templates is one that personalisation replaces.
    The same holds of the subject of the "pricing_info" email and of the
    bodies of the two onboarding emails. *)
Theorem outreach_emails_have_no_token_left cfg stage l :
  forallb (fun kv => without open_brace kv.2)
          (variables (calendly_link cfg) l) = true ->
  (stage <> "pricing_info" ->
   without open_brace (render cfg stage l).1 = true /\
   without open_brace (render cfg stage l).2 = true) /\
  without open_brace (render cfg "pricing_info" l).1 = true /\
  without open_brace (personalize cfg onboarding_template_us l) = true /\
  without open_brace (personalize cfg onboarding_template_other l) = true.
Proof.
  intros Hv.
  destruct outreach_templates_well_formed as (Hall & Hpu & Hpi & Hou & Hoo).
  split; [| split; [| split]].
  - intros Hstage. unfold render. cbn [fst snd].
    pose proof (template_of_outreach stage (l !! "country") Hstage) as Hin.
    rewrite forallb_forall in Hall. apply Hall in Hin.
    apply andb_true_iff in Hin as [Hs Hb].
    split; by apply personalize_well_formed.
  - unfold render. cbn [fst].
    rewrite (template_of_region "pricing_info" (l !! "country")
               pricing_info_us pricing_info_india eq_refl).
    destruct (Py.eq_str (l !! "country") "US");
      by apply personalize_well_formed.
  - by apply personalize_well_formed.
  - by apply personalize_well_formed.
Qed.

(** ** The counts of the analytics *)

Lemma sum_dict_set (d : list (string * Z)) k v :
  foldr Z.add 0 (Dict.set d k v).*2
  = foldr Z.add 0 d.*2 - default 0 (Dict.get d k) + v.
Proof.
  induction d as [| [k0 v0] d IH]; cbn [Dict.set Dict.get fmap list_fmap
                                        foldr snd default from_option].
  - cbn. lia.
  - destruct (decide (k0 = k)) as [-> | Hk]; cbn; [lia |].
    change (foldr Z.add 0 (Dict.set d k v).*2
            = foldr Z.add 0 d.*2 - default 0 (Dict.get d k) + v) in IH.
    change (v0 + foldr Z.add 0 (Dict.set d k v).*2
            = v0 + foldr Z.add 0 d.*2 - default 0 (Dict.get d k) + v).
    lia.
Qed.

Lemma sum_count_status d l :
  foldr Z.add 0 (count_status d l).*2 = foldr Z.add 0 d.*2 + 1.
Proof.
  unfold count_status. set (status := lead_get l "status" "New").
  rewrite sum_dict_set. unfold Dict.mem.
  destruct (Dict.get d status) eqn:E.
  - rewrite E. cbn. lia.
  - rewrite sum_dict_set, E, dict_get_set_eq. cbn. lia.
Qed.

Lemma sum_by_status ls d :
  foldr Z.add 0 (fold_left count_status ls d).*2
  = foldr Z.add 0 d.*2 + Z.of_nat (length ls).
Proof.
  revert d. induction ls as [| l ls IH]; intros d; [cbn; lia |].
  cbn [fold_left length]. rewrite IH, sum_count_status. lia.
Qed.

Lemma region_leads_rows cfg sp name :
  sheets_service cfg = true ->
  get_leads cfg sp []
    (Some match name with
          | US_Leads_sheet => "US"
          | India_Leads_sheet => "IN"
          end) None
  = map (fun row => inferred name (lead_of_row row)) (tail (sheet_of sp name)).
Proof.
  intros Hs. rewrite get_leads_sheets by done.
  destruct name; cbn [Py.eq_str String.eqb Ascii.eqb Bool.eqb andb negb
                      sheet_of];
    by rewrite sheet_leads_all, ?app_nil_r.
Qed.

Lemma status_of_row name row :
  lead_get (inferred name (lead_of_row row)) "status" "New"
  = default "" (row !! col_status).
Proof.
  unfold lead_get. rewrite inferred_lookup_ne by done.
  by rewrite (lead_of_row_lookup row 13 "status" eq_refl).
Qed.

(** X22.  The counts of [get_analytics_data] are counts of rows.  For each
    of the two sheets the total is the number of its data rows, the count
    under a status is the number of data rows whose status cell reads that
    status (a missing count is 0, and a row with an empty status cell is
    counted under the empty status, not under "New"), and the counts of all
    the statuses add up to the total. *)
Theorem analytics_count_the_rows cfg sp a :
  get_analytics_data cfg sp = Some a ->
  let rows name := tail (sheet_of sp name) in
  let stats name :=
    match name with
    | US_Leads_sheet => us_leads a
    | India_Leads_sheet => india_leads a
    end in
  forall name,
    total (stats name) = Z.of_nat (length (rows name)) /\
    (forall s,
       default 0 (Dict.get (by_status (stats name)) s)
       = Z.of_nat (length (filter (fun row => default "" (row !! col_status)
                                              = s) (rows name)))) /\
    foldr Z.add 0 (by_status (stats name)).*2 = total (stats name).
Proof.
  unfold get_analytics_data.
  destruct (sheets_service cfg) eqn:Hs; [| done]. cbn [negb].
  intros [= <-]. cbv zeta. intros name.
  assert (E : match name with
              | US_Leads_sheet =>
                  region_stats (get_leads cfg sp [] (Some "US") None)
              | India_Leads_sheet =>
                  region_stats (get_leads cfg sp [] (Some "IN") None)
              end
              = region_stats
                  (map (fun row => inferred name (lead_of_row row))
                       (tail (sheet_of sp name)))).
  { rewrite <- (region_leads_rows cfg sp name Hs). by destruct name. }
  replace (match name with
           | US_Leads_sheet => us_leads _
           | India_Leads_sheet => india_leads _
           end)
    with (region_stats (map (fun row => inferred name (lead_of_row row))
                            (tail (sheet_of sp name))))
    by (rewrite <- E; by destruct name).
  unfold region_stats. cbn [total by_status]. rewrite length_map.
  split; [done |]. split.
  - intros s. rewrite by_status_counts. cbn [Dict.get default from_option].
    rewrite filter_map_length, Z.add_0_l. do 2 f_equal.
    apply list_filter_iff. intros row. by rewrite status_of_row.
  - rewrite sum_by_status, length_map. cbn. lia.
Qed.

(** ** Suggested prices *)

(** The list prices of the two price lists. *)
Definition list_prices (us : bool) : list (string * Z) :=
  if us then [("standard", 2500); ("premium", 3500); ("enterprise", 5000)]
  else [("standard", 40000); ("premium", 85000); ("enterprise", 150000)].

(** The factors of the company size and of the revenue, in tenths. *)
Definition size_tenths (company_size : Z) : Z :=
  if 100 <? company_size then 12 else if company_size <? 10 then 9 else 10.

Definition revenue_tenths (us : bool) (revenue : Num) : Z :=
  if exceeds revenue (if us then 10000000 else 100000000) then 13
  else if exceeds revenue (if us then 5000000 else 50000000) then 11
  else 10.

(** Each float of a list is below the next one. *)
Fixpoint ascending (xs : list float) : bool :=
  match xs with
  | x :: (y :: _) as rest => (x <? y)%float && ascending rest
  | _ => true
  end.

(** X28.  The suggested prices that are shown are exact.  [suggest_pricing]
    never raises, whatever the lead holds: a missing or unreadable company
    size counts as 0 and a missing or unreadable revenue as 0.  The
    currency is "USD" for the country "US" (also when the lead has no
    country) and "INR" for any other.  The prices are binary floats once a
    factor is applied (3300.0000000000005 for 2500 * 1.2 * 1.1), but the
    formatted prices are the decimal products: the list price times 1.2
    (more than 100 employees), 0.9 (fewer than 10) or 1, times 1.3 (revenue
    above 10M dollars, 100M rupees), 1.1 (above 5M dollars, 50M rupees) or
    1, with two decimals ".00" in dollars and as a whole number in rupees;
    the truncation by [int] never loses a rupee.  The three tiers stay in
    ascending order. *)
Theorem suggested_prices_are_the_decimal_products int_of_str float_of_str l :
  let us := String.eqb (lead_get l "country" "US") "US" in
  let amount (base : Z) :=
    base * size_tenths (company_size_of int_of_str l)
    * revenue_tenths us (revenue_of float_of_str l) / 100 in
  exists p,
    suggest_pricing int_of_str float_of_str l = Some p /\
    pricing_currency p = (if us then "USD" else "INR") /\
    map fst (pricing p) = ["standard"; "premium"; "enterprise"] /\
    formatted p
    = map (fun kb =>
             (kb.1,
              if us then "$" +:+ grouped (amount kb.2) +:+ ".00"
              else "₹" +:+ grouped (amount kb.2)))
          (list_prices us) /\
    ascending (map (fun kv => to_float kv.2) (pricing p)) = true.
Proof.
  intros us amount. subst amount. unfold suggest_pricing, revenue_tenths,
    size_tenths.
  fold us. generalize (company_size_of int_of_str l) as size.
  generalize (revenue_of float_of_str l) as revenue. intros revenue size.
  destruct us;
    destruct (100 <? size); destruct (size <? 10);
    match goal with
    | |- context [exceeds revenue ?a] =>
        destruct (exceeds revenue a);
        match goal with
        | |- context [exceeds revenue ?b] => destruct (exceeds revenue b)
        | _ => idtac
        end
    end;
    (eexists; split; [vm_compute; reflexivity |]; vm_compute; done).
Qed.

(** ** Scenarios

    A configuration, a spreadsheet with two leads and the worlds built
    from them, on which the theorems above are exercised and the behaviour
    of the code is computed. *)

Module Scenario.

Definition cfg : Config :=
  {| gmail_username := Some "sales.in@example.com";
     gmail_password := Some "secret";
     outlook_email := Some "sales.us@example.com";
     outlook_password := Some "secret";
     calendly_link := "https://calendly.com/yourusername";
     sheets_service := true;
     stripe_api_key := Some "sk_test";
     razorpay_client := true;
     email_service_importable := false |}.

(** The same configuration on a path where the import of
    [_send_onboarding_email] resolves. *)
Definition cfg_importing : Config :=
  {| gmail_username := Some "sales.in@example.com";
     gmail_password := Some "secret";
     outlook_email := Some "sales.us@example.com";
     outlook_password := Some "secret";
     calendly_link := "https://calendly.com/yourusername";
     sheets_service := true;
     stripe_api_key := Some "sk_test";
     razorpay_client := true;
     email_service_importable := true |}.

(** A process started without credentials for the spreadsheet. *)
Definition cfg_offline : Config :=
  {| gmail_username := Some "sales.in@example.com";
     gmail_password := Some "secret";
     outlook_email := Some "sales.us@example.com";
     outlook_password := Some "secret";
     calendly_link := "https://calendly.com/yourusername";
     sheets_service := false;
     stripe_api_key := Some "sk_test";
     razorpay_client := true;
     email_service_importable := false |}.

Definition delivers (n : nat) (m : Message) : bool := true.
Definition never_delivers (n : nat) (m : Message) : bool := false.

(** The first dispatch attempt of the process fails, the later ones go
    through. *)
Definition fails_once (n : nat) (m : Message) : bool :=
  match n with O => false | S _ => true end.

Definition clock (t : Z) : string := "2024-01-01 10:00".

(** A clock that reads [t] for every lead that [start_campaign] handles,
    and one that has moved on by [i] hours at the lead of position [i] and
    by a microsecond between the two readings of a record. *)
Definition at_time (t : Z) (i : nat) : Readings :=
  {| at_update := t; at_last_contact := t; at_next_follow_up := t |}.
Definition running (t : Z) (i : nat) : Readings :=
  {| at_update := t + Z.of_nat i * 3600000000;
     at_last_contact := t + Z.of_nat i * 3600000000;
     at_next_follow_up := t + Z.of_nat i * 3600000000 + 1 |}.

Definition no_link (r : LinkRequest Z) : ApiResult := OtherError.
Definition price (us : bool) (amount : Z) : option string :=
  Some (str_of_int amount).

Definition header : Row :=
  [ "ID"; "First Name"; "Last Name"; "Email"; "Phone"; "LinkedIn URL";
    "Title"; "Company"; "Website"; "Industry"; "Company Size"; "Country";
    "Estimated Revenue"; "Status"; "Source"; "Date Added"; "Last Contact";
    "Notes" ].

Definition row_of (id first email company country status : string) : Row :=
  [ id; first; "Lee"; email; ""; ""; "Owner"; company; ""; "Retail"; "12";
    country; ""; status; "Apollo.io"; "2024-01-01 09:00:00"; ""; "" ].

Definition row_ann : Row :=
  row_of "L1" "Ann" "ann@example.com" "Acme" "US" "New".
Definition row_raj : Row :=
  row_of "L3" "Raj" "raj@example.com" "Bharat Traders" "IN" "New".

Definition sp : Spreadsheet :=
  {| US_Leads := [header; row_ann]; India_Leads := [header; row_raj] |}.

Definition ann : Lead := lead_of_row row_ann.
Definition raj : Lead := lead_of_row row_raj.

(** A process that has just started. *)
Definition fresh : World :=
  {| active_campaigns := []; sheets := sp; outbox := [] |}.

Definition day : Z := 86400 * 1000000.

(** The campaign of a lead after [n] follow-ups, due at [next]. *)
Definition campaign_of (l : Lead) (n next : Z) : Campaign :=
  {| lead := l; sequence := "initial"; last_contact := 0;
     follow_up_count := n; max_follow_ups := 3; next_follow_up := next |}.

(** One campaign, without a follow-up yet, due on day 3. *)
Definition awaiting (l : Lead) : World :=
  {| active_campaigns := [(l !! "id", campaign_of l 0 (3 * day))];
     sheets := sp; outbox := [] |}.

(** The follow-up pass with each of the three servers. *)
Definition tick (w : World) (now : Z) : World :=
  _process_follow_ups cfg delivers clock clock w now.
Definition tick_failing (w : World) (now : Z) : World :=
  _process_follow_ups cfg never_delivers clock clock w now.
Definition tick_flaky (w : World) (now : Z) : World :=
  _process_follow_ups cfg fails_once clock clock w now.

(** The count, the last contact and the next follow-up of the campaigns. *)
Definition campaign_state (w : World)
  : list (option string * (Z * Z * Z)) :=
  map (fun kc => (kc.1, (follow_up_count kc.2, last_contact kc.2,
                           next_follow_up kc.2)))
      (active_campaigns w).

(** The subjects of the dispatch attempts, with their outcome. *)
Definition dispatched (w : World) : list (option string * string * bool) :=
  map (fun e => (m_to e.1, m_subject e.1, e.2)) (outbox w).

Definition stripe_paid (lead_id : string) : WebhookData :=
  {| source := "stripe"; event_type := "checkout.session.completed";
     event := ""; stripe_lead_id := lead_id; amount_total := 250000;
     razorpay_lead_id := ""; razorpay_amount := 0 |}.

(** The renderings of the amounts of the webhooks, for the amounts of the
    scenarios: whole dollars and whole rupees. *)
Definition dollars (cents : Z) : string := str_of_int (cents / 100) +:+ ".00".
Definition rupees (paise : Z) : string := str_of_int (paise / 100).

End Scenario.

Import Scenario.

(** The world after the campaigns of both leads were started on day 0. *)
Definition started : World :=
  (start_campaign cfg delivers clock clock fresh [ann; raj] (at_time 0)).2.

Lemma started_reachable :
  reachable cfg delivers clock clock Z price no_link str_of_int str_of_int
            dollars rupees started.
Proof. apply reach_start, reach_init. Qed.

(** Scenario L1 of the specification: a follow-up on days 3, 6 and 9, the
    campaign closed on day 12. *)
Example scenario_three_follow_ups_then_closed :
  campaign_state (run_ticks cfg delivers clock clock (awaiting ann)
                            [3 * day; 6 * day; 9 * day])
  = [(Some "L1", (3, 9 * day, 12 * day))] /\
  campaign_state (run_ticks cfg delivers clock clock (awaiting ann)
                            [3 * day; 6 * day; 9 * day; 12 * day]) = [] /\
  status_of (sheets (run_ticks cfg delivers clock clock (awaiting ann)
                               [3 * day; 6 * day; 9 * day; 12 * day])) "L1"
  = Some "No Response".
Proof. vm_compute. done. Qed.

Lemma follow_up_count_never_exceeds_max_witness :
  reachable cfg delivers clock clock Z price no_link str_of_int str_of_int
            dollars rupees started /\
  forall nows k c,
    In (k, c) (active_campaigns
                 (run_ticks cfg delivers clock clock started nows)) ->
    follow_up_count c <= max_follow_ups c /\ max_follow_ups c = 3 /\
    follow_up_count c <= 3.
Proof.
  split; [exact started_reachable |].
  exact (proj1 (follow_up_count_never_exceeds_max
                  cfg delivers clock clock Z price no_link str_of_int
                  str_of_int dollars rupees started started_reachable)).
Defined.

(** C2: the code at a failing dispatch.  The campaign of L1 is due on day
    3 and the server refuses every message: the pass leaves [last_contact]
    and [next_follow_up] as they were, but the count has gone from 0 to 1,
    and the next pass attempts follow-up 2, not follow-up 1 again; after
    three failed passes the fourth closes the campaign with the note
    "Completed 3 follow-ups", although nothing was delivered. *)
Example failed_dispatch_is_counted_as_a_follow_up :
  campaign_state (awaiting ann) = [(Some "L1", (0, 0, 3 * day))] /\
  campaign_state (tick_failing (awaiting ann) (3 * day))
  = [(Some "L1", (1, 0, 3 * day))] /\
  dispatched (tick_failing (awaiting ann) (3 * day))
  = [(Some "ann@example.com", "Following up: Acme", false)] /\
  dispatched (tick_failing (tick_failing (awaiting ann) (3 * day)) (4 * day))
  = [(Some "ann@example.com", "Following up: Acme", false);
     (Some "ann@example.com", "One more thing about Acme", false)] /\
  campaign_state
    (run_ticks cfg never_delivers clock clock (awaiting ann)
               [3 * day; 4 * day; 5 * day; 6 * day]) = [] /\
  notes_of
    (sheets (run_ticks cfg never_delivers clock clock (awaiting ann)
                       [3 * day; 4 * day; 5 * day; 6 * day])) "L1"
  = Some "2024-01-01 10:00 - Completed 3 follow-ups with no response".
Proof. vm_compute. done. Qed.

(** C3 fails when a dispatch fails: the first pass on day 3 does not get
    its message through, and a second pass with the same [now] attempts a
    dispatch again, delivers it and changes the campaign. *)
Lemma second_pass_retries_after_a_failed_dispatch :
  let w1 := tick_flaky (awaiting ann) (3 * day) in
  let w2 := tick_flaky w1 (3 * day) in
  w2 <> w1 /\
  dispatched w1 = [(Some "ann@example.com", "Following up: Acme", false)] /\
  dispatched w2
  = [(Some "ann@example.com", "Following up: Acme", false);
     (Some "ann@example.com", "One more thing about Acme", true)] /\
  campaign_state w1 = [(Some "L1", (1, 0, 3 * day))] /\
  campaign_state w2 = [(Some "L1", (2, 3 * day, 6 * day))].
Proof.
  cbv zeta. split; [| vm_compute; done].
  intros H. apply (f_equal campaign_state) in H. vm_compute in H.
  discriminate H.
Qed.

Lemma second_pass_changes_nothing_after_delivery_witness :
  one_record_per_lead (awaiting ann) /\
  Forall (fun e => e.2 = true)
         (attempts cfg delivers (3 * day) (active_campaigns (awaiting ann))
                   (length (outbox (awaiting ann)))) /\
  tick (tick (awaiting ann) (3 * day)) (3 * day) = tick (awaiting ann) (3 * day).
Proof.
  assert (H1 : one_record_per_lead (awaiting ann)).
  { unfold one_record_per_lead. apply NoDup_singleton. }
  assert (H2 : Forall (fun e : Message * bool => e.2 = true)
                 (attempts cfg delivers (3 * day)
                    (active_campaigns (awaiting ann))
                    (length (outbox (awaiting ann))))).
  { vm_compute. repeat constructor. }
  split; [exact H1 |]. split; [exact H2 |].
  exact (proj1 (second_pass_changes_nothing_after_delivery
                  cfg delivers clock clock (awaiting ann) (3 * day) H1 H2)).
Defined.

(** The round trip of the specification: a lead of India whose reply asks
    for a call gets the India "call_invite" and the status
    "Call Requested"; a reply without a call keyword gets no message and
    the status "Replied". *)
Definition asks_for_a_call : EmailData :=
  {| from := JString "raj@example.com";
     reply_subject := JString "Re: your message";
     reply_body := JString "Sure, let's SCHEDULE a call" |}.

Definition declines : EmailData :=
  {| from := JString "raj@example.com";
     reply_subject := JString "Re: your message";
     reply_body := JString "not interested" |}.

(** A reply whose body is [null]. *)
Definition without_body : EmailData :=
  {| from := JString "raj@example.com";
     reply_subject := JString "Re: your message";
     reply_body := JNull |}.

(** The spreadsheet with a row without cells above the row of L3, and the
    campaign of L3 on it. *)
Definition sp_gap : Spreadsheet :=
  {| US_Leads := [header; row_ann]; India_Leads := [header; []; row_raj] |}.

Definition awaiting_behind_gap : World :=
  {| active_campaigns := [(raj !! "id", campaign_of raj 0 (3 * day))];
     sheets := sp_gap; outbox := [] |}.

Example scenario_replies :
  let w1 :=
    (handle_reply cfg delivers clock clock (awaiting raj) asks_for_a_call
                  (1 * day)).2 in
  let w2 :=
    (handle_reply cfg delivers clock clock (awaiting raj) declines
                  (1 * day)).2 in
  dispatched w1 = [(Some "raj@example.com", "Schedule our call", true)] /\
  status_of (sheets w1) "L3" = Some "Call Requested" /\
  campaign_state w1 = [] /\
  dispatched w2 = [] /\
  status_of (sheets w2) "L3" = Some "Replied" /\
  campaign_state w2 = [].
Proof. vm_compute. done. Qed.


(** C4 fails for a reply without a text, and for a lead behind a row
    without cells.  The reply of L3 with the body [null] removes the
    campaign of L3 and is then given up: [False] is returned and the status
    of L3 is still "New", not "Replied".  On a sheet with an empty row above
    the row of L3, the reply "not interested" is handled with success and
    the campaign is removed, but [update_lead] does not reach the row of L3:
    the spreadsheet is as it was, the lead as new as before. *)
Lemma a_reply_can_leave_the_status_unwritten :
  let r1 := handle_reply cfg delivers clock clock (awaiting raj) without_body
                         (1 * day) in
  let r2 := handle_reply cfg delivers clock clock awaiting_behind_gap declines
                         (1 * day) in
  head (filter (fun l => PyJson.eq_json (l !! "email") (from without_body)
                         = true)
               (get_leads cfg (sheets (awaiting raj)) [] None None))
  = Some raj /\
  r1.1 = false /\
  active_campaigns r1.2 = [] /\
  outbox r1.2 = [] /\
  status_of (sheets r1.2) "L3" = Some "New" /\
  head (filter (fun l => PyJson.eq_json (l !! "email") (from declines) = true)
               (get_leads cfg sp_gap [] None None))
  = Some raj /\
  r2.1 = true /\
  active_campaigns r2.2 = [] /\
  outbox r2.2 = [] /\
  sheets r2.2 = sp_gap /\
  (get_lead cfg (sheets r2.2) "L3" ≫= fun l => l !! "status") = Some "New".
Proof.
  cbv zeta.
  split; [reflexivity |].
  split; [vm_compute; reflexivity |].
  split; [vm_compute; reflexivity |].
  split; [vm_compute; reflexivity |].
  split; [vm_compute; reflexivity |].
  split; [reflexivity |].
  split; [vm_compute; reflexivity |].
  split; [vm_compute; reflexivity |].
  split; [vm_compute; reflexivity |].
  split; vm_compute; reflexivity.
Qed.

(** C5: the code at a payment.  L3 has an active campaign when Stripe
    reports its payment.  The webhook writes the status "Payment Received"
    (and "Onboarding" once the onboarding email is out, where the import of
    the email service resolves) and leaves the campaigns of the application
    as they were; the pass of day 3 sends L3 a follow-up and overwrites the
    status with "Follow-up". *)
Example payment_leaves_the_campaign_active :
  let paid_world :=
    handle_webhook cfg delivers clock clock dollars rupees (awaiting raj)
                   (stripe_paid "L3") (1 * day) in
  let onboarded :=
    handle_webhook cfg_importing delivers clock clock dollars rupees
                   (awaiting raj) (stripe_paid "L3") (1 * day) in
  paid_world.1 = true /\
  status_of (sheets paid_world.2) "L3" = Some "Payment Received" /\
  campaign_state paid_world.2 = [(Some "L3", (0, 0, 3 * day))] /\
  dispatched (tick paid_world.2 (3 * day))
  = [(Some "raj@example.com", "Quick follow-up: Bharat Traders", true)] /\
  status_of (sheets (tick paid_world.2 (3 * day))) "L3" = Some "Follow-up" /\
  status_of (sheets onboarded.2) "L3" = Some "Onboarding" /\
  campaign_state onboarded.2 = [(Some "L3", (0, 0, 3 * day))] /\
  status_of (sheets (_process_follow_ups cfg_importing delivers clock clock
                                         onboarded.2 (3 * day))) "L3"
  = Some "Follow-up".
Proof. vm_compute. done. Qed.

(** C6 fails on a country that is neither "US" nor India: Canada, the
    empty string, "USA" and a missing country all get the India policy. *)
Lemma other_countries_get_the_India_policy :
  let india :=
    {| smtp_server := "smtp.gmail.com"; link_processor := Razorpay;
       link_currency := "INR"; template_set := "india" |} in
  routing cfg Z (Some "Canada") 2500 ann = india /\
  routing cfg Z (Some "") 2500 ann = india /\
  routing cfg Z (Some "USA") 2500 ann = india /\
  routing cfg Z None 2500 ann = india /\
  routing cfg Z (Some "Canada") 2500 ann
  <> {| smtp_server := "smtp-mail.outlook.com"; link_processor := Stripe;
        link_currency := "usd"; template_set := "us" |}.
Proof. cbv zeta. repeat split; try reflexivity. discriminate. Qed.

Lemma only_US_selects_the_US_policy_witness :
  Some "Canada" <> Some "US" /\
  routing cfg Z (Some "Canada") 2500 ann
  = {| smtp_server := "smtp.gmail.com"; link_processor := Razorpay;
       link_currency := "INR"; template_set := "india" |} /\
  routing cfg Z (Some "US") 2500 ann
  = {| smtp_server := "smtp-mail.outlook.com"; link_processor := Stripe;
       link_currency := "usd"; template_set := "us" |}.
Proof.
  assert (H : Some "Canada" <> Some "US") by discriminate.
  split; [exact H |]. split.
  - exact (proj1 (proj2 (only_US_selects_the_US_policy
                           cfg clock clock Z no_link str_of_int str_of_int
                           (Some "Canada") 2500 ann) H)).
  - exact (proj1 (proj1 (only_US_selects_the_US_policy
                           cfg clock clock Z no_link str_of_int str_of_int
                           (Some "US") 2500 ann) eq_refl)).
Defined.

(** C7 fails on an unknown stage: "follow_up_4" is not in the table, and
    the lookup answers with the "initial" template, not with an error. *)
Lemma unknown_stage_is_not_an_error :
  Dict.get templates "follow_up_4" = None /\
  lookup_template "follow_up_4" "us" = inr initial_us /\
  lookup_template "follow_up_4" "india" = inr initial_india /\
  ~ (exists e, lookup_template "follow_up_4" "us" = inl e).
Proof.
  repeat split; try reflexivity. intros [e H]. discriminate H.
Qed.

Lemma unknown_stage_gets_initial_templates_witness :
  Dict.get templates "follow_up_4" = None /\
  _get_email_templates "follow_up_4"
  = inr [("us", initial_us); ("india", initial_india)] /\
  Dict.get [("us", pricing_info_us); ("india", pricing_info_india)] "uk"
  = None /\
  exists us, Dict.get [("us", pricing_info_us); ("india", pricing_info_india)]
                      "us" = Some us /\
             lookup_template "pricing_info" "uk" = inr us.
Proof.
  assert (H : Dict.get templates "follow_up_4" = None) by reflexivity.
  assert (H' : Dict.get [("us", pricing_info_us);
                         ("india", pricing_info_india)] "uk" = None)
    by reflexivity.
  split; [exact H |]. split; [| split; [exact H' |]].
  - exact (proj1 (proj2 (proj1 (proj2
             (unknown_stage_gets_initial_templates "follow_up_4" "us")) H))).
  - exact (proj1 (proj2 (proj1
             (unknown_stage_gets_initial_templates "pricing_info" "uk")
             _ eq_refl)) H').
Defined.





(** A snapshot of ten leads, one of which has paid. *)
Definition ten_leads : Spreadsheet :=
  {| US_Leads :=
       header ::
       row_of "U1" "Ann" "ann@example.com" "Acme" "US" "Payment Received" ::
       map (fun id => row_of id "Bob" "bob@example.com" "Bolt" "US" "Replied")
           ["U2"; "U3"; "U4"; "U5"];
     India_Leads :=
       header ::
       map (fun id => row_of id "Raj" "raj@example.com" "Bharat" "IN" "New")
           ["I1"; "I2"; "I3"; "I4"; "I5"] |}.


(** Storing a lead of the United States, a lead of India by its code and
    a lead whose country is written out: the third is dropped. *)
Definition spelled_out : Lead := <["country" := "India"]> raj.

Lemma store_leads_keeps_only_US_and_IN_witness :
  sheets_service cfg = true /\
  [ann; raj; spelled_out] <> [] /\
  (store_leads cfg clock sp [ann; raj; spelled_out] 0).1 = true /\
  US_Leads (store_leads cfg clock sp [ann; raj; spelled_out] 0).2
  = US_Leads sp ++ [row_data clock ann 0] /\
  India_Leads (store_leads cfg clock sp [ann; raj; spelled_out] 0).2
  = India_Leads sp ++ [row_data clock raj 0].
Proof.
  assert (H1 : sheets_service cfg = true) by reflexivity.
  assert (H2 : [ann; raj; spelled_out] <> []) by discriminate.
  destruct (store_leads_keeps_only_US_and_IN
              cfg clock sp [ann; raj; spelled_out] 0 H1 H2)
    as (Hok & Hus & Hin & _).
  split; [exact H1 |]. split; [exact H2 |]. split; [exact Hok |].
  split.
  - rewrite Hus. vm_compute. reflexivity.
  - rewrite Hin. vm_compute. reflexivity.
Defined.

(** ** The further properties, on the scenarios *)

(** An id filter reads the row of L1 back as the lead [ann]. *)
Lemma get_leads_reads_rows_witness :
  ann ∈ get_leads cfg sp ["L1"] None None /\
  (forall k, is_Some (ann !! k) <-> k ∈ headers) /\
  ann !!! "country" <> "".
Proof.
  assert (H : ann ∈ get_leads cfg sp ["L1"] None None).
  { assert (E : get_leads cfg sp ["L1"] None None = [ann]) by reflexivity.
    rewrite E. apply list_elem_of_here. }
  split; [exact H |].
  destruct (get_leads_reads_rows cfg sp ["L1"] None None ann H)
    as (Hdom & Hcountry & _).
  split; assumption.
Defined.

(** The row of L1 after a reply was recorded. *)
Lemma updated_lead_is_read_back_witness :
  (update_lead cfg clock clock sp (Some "L1") "Replied" "Lead replied" 0).1
  = true /\
  exists l,
    get_lead cfg
      (update_lead cfg clock clock sp (Some "L1") "Replied" "Lead replied"
                   0).2 "L1" = Some l /\
    l !! "status" = Some "Replied" /\
    l !! "notes" = Some "2024-01-01 10:00 - Lead replied".
Proof.
  assert (H : (update_lead cfg clock clock sp (Some "L1") "Replied"
                           "Lead replied" 0).1 = true) by reflexivity.
  split; [exact H |].
  destruct (updated_lead_is_read_back cfg clock clock sp (Some "L1")
              "Replied" "Lead replied" 0 H)
    as (id & l0 & Hid & Hget0 & _ & Hget).
  injection Hid as <-.
  assert (E0 : get_lead cfg sp "L1" = Some ann) by reflexivity.
  rewrite E0 in Hget0. injection Hget0 as <-.
  eexists. split; [exact Hget |]. split; reflexivity.
Defined.

Lemma stored_leads_are_read_back_witness :
  sheets_service cfg = true /\
  get_leads cfg (store_leads cfg clock sp [ann; raj; spelled_out] 0).2
            [] None None
  = [ann; lead_of_row (row_data clock ann 0);
     raj; lead_of_row (row_data clock raj 0)] /\
  lead_of_row (row_data clock ann 0) !! "email" = Some "ann@example.com".
Proof.
  assert (H1 : sheets_service cfg = true) by reflexivity.
  assert (H2 : [ann; raj; spelled_out] <> []) by discriminate.
  assert (H3 : US_Leads sp <> []) by discriminate.
  assert (H4 : India_Leads sp <> []) by discriminate.
  destruct (stored_leads_are_read_back cfg clock sp [ann; raj; spelled_out]
              0 H1 H2 H3 H4) as [Hget Hfields].
  split; [exact H1 |]. split.
  - rewrite Hget. reflexivity.
  - destruct (Hfields ann) as [Hk _]. rewrite (Hk "email").
    + reflexivity.
    + do 3 apply list_elem_of_further. apply list_elem_of_here.
Defined.

(** The campaign of L1, due on day 3, in a pass of day 3 whose dispatch
    goes through. *)
Lemma pass_treats_each_campaign_by_its_own_state_witness :
  one_record_per_lead (awaiting ann) /\
  Dict.get (active_campaigns (tick (awaiting ann) (3 * day))) (Some "L1")
  = Some {| lead := ann; sequence := "initial"; last_contact := 3 * day;
            follow_up_count := 1; max_follow_ups := 3;
            next_follow_up := 6 * day |} /\
  Dict.get (active_campaigns (tick (awaiting ann) (2 * day))) (Some "L1")
  = Some (campaign_of ann 0 (3 * day)).
Proof.
  assert (H1 : one_record_per_lead (awaiting ann)).
  { unfold one_record_per_lead. apply NoDup_singleton. }
  assert (H2 : In (Some "L1", campaign_of ann 0 (3 * day))
                  (active_campaigns (awaiting ann))) by (left; reflexivity).
  destruct (pass_treats_each_campaign_by_its_own_state cfg delivers clock
              clock (awaiting ann) (3 * day) (Some "L1")
              (campaign_of ann 0 (3 * day)) H1 H2) as [_ Hdue].
  destruct (pass_treats_each_campaign_by_its_own_state cfg delivers clock
              clock (awaiting ann) (2 * day) (Some "L1")
              (campaign_of ann 0 (3 * day)) H1 H2) as [Hnot _].
  split; [exact H1 |]. split.
  - destruct Hdue as [Hget _].
    + cbn [next_follow_up campaign_of]. lia.
    + cbn [follow_up_count max_follow_ups campaign_of]. lia.
    + vm_compute. repeat constructor.
    + exact Hget.
  - destruct Hnot as [Hget _].
    + cbn [next_follow_up campaign_of]. unfold day. lia.
    + exact Hget.
Defined.

Lemma unanswered_campaign_ends_after_three_follow_ups_witness :
  one_record_per_lead (awaiting ann) /\
  3 * day + three_days <= 6 * day /\
  Dict.get (active_campaigns
              (run_ticks cfg delivers clock clock (awaiting ann)
                         [3 * day; 6 * day; 9 * day])) (Some "L1")
  = Some {| lead := ann; sequence := "initial"; last_contact := 9 * day;
            follow_up_count := 3; max_follow_ups := 3;
            next_follow_up := 9 * day + three_days |} /\
  Dict.get (active_campaigns
              (run_ticks cfg delivers clock clock (awaiting ann)
                         [3 * day; 6 * day; 9 * day; 12 * day])) (Some "L1")
  = None.
Proof.
  assert (H1 : one_record_per_lead (awaiting ann)).
  { unfold one_record_per_lead. apply NoDup_singleton. }
  assert (H2 : forall n m, delivers n m = true) by reflexivity.
  assert (H3 : In (Some "L1", campaign_of ann 0 (3 * day))
                  (active_campaigns (awaiting ann))) by (left; reflexivity).
  assert (H4 : 3 * day + three_days <= 6 * day)
    by (unfold day, three_days; lia).
  assert (H5 : 6 * day + three_days <= 9 * day)
    by (unfold day, three_days; lia).
  assert (H6 : 9 * day + three_days <= 12 * day)
    by (unfold day, three_days; lia).
  assert (H7 : next_follow_up (campaign_of ann 0 (3 * day)) <= 3 * day)
    by (cbn [next_follow_up campaign_of]; lia).
  destruct (unanswered_campaign_ends_after_three_follow_ups cfg delivers
              clock clock (awaiting ann) (Some "L1")
              (campaign_of ann 0 (3 * day))
              (3 * day) (6 * day) (9 * day) (12 * day)
              H1 H2 H3 eq_refl eq_refl H7 H4 H5 H6)
    as (_ & _ & Hthree & Hclosed & _).
  split; [exact H1 |]. split; [exact H4 |]. split; [exact Hthree |].
  exact Hclosed.
Defined.


(** An outreach for the ids L1 and L9, of which the spreadsheet has L1. *)
Lemma outreach_without_ids_goes_to_every_lead_witness :
  sheets_service cfg = true /\
  (exists results,
     (start_outreach cfg delivers clock clock fresh ["L1"; "L9"]
                     (at_time 0)).1
     = Answer results /\
     length (leads results) = 1%nat) /\
  (exists results,
     (start_outreach cfg delivers clock clock fresh [] (at_time 0)).1
     = Answer results /\
     length (leads results) = 2%nat).
Proof.
  assert (H : sheets_service cfg = true) by reflexivity.
  split; [exact H |]. split.
  - destruct (outreach_without_ids_goes_to_every_lead cfg delivers clock
                clock fresh ["L1"; "L9"] (at_time 0) H) as (r & Hr & Hlen & _).
    exists r. split; [exact Hr |]. rewrite Hlen. reflexivity.
  - destruct (outreach_without_ids_goes_to_every_lead cfg delivers clock
                clock fresh [] (at_time 0) H) as (r & Hr & Hlen & _).
    exists r. split; [exact Hr |]. rewrite Hlen. reflexivity.
Defined.

(** Three updates, one of them for another lead and one without a
    note. *)
Lemma notes_of_a_lead_only_grow_witness :
  lead_row sp "L1" = Some row_ann /\
  exists row' added,
    lead_row
      (fold_left
         (fun sp u =>
            (update_lead cfg clock clock sp u.1.1.1 u.1.1.2 u.1.2 u.2).2)
         [(Some "L1", "Initial Contact", "Initial email sent", 0);
          (Some "L3", "Replied", "Lead replied: hello", 1 * day);
          (Some "L1", "Follow-up", "", 3 * day)] sp) "L1"
    = Some row' /\
    default "" (row' !! col_notes)
    = default "" (row_ann !! col_notes) +:+ added.
Proof.
  assert (H : lead_row sp "L1" = Some row_ann) by reflexivity.
  split; [exact H |].
  exact (notes_of_a_lead_only_grow cfg clock clock sp "L1" row_ann
           [(Some "L1", "Initial Contact", "Initial email sent", 0);
            (Some "L3", "Replied", "Lead replied: hello", 1 * day);
            (Some "L1", "Follow-up", "", 3 * day)] H).
Defined.

Lemma pricing_email_never_shows_the_price_witness :
  forallb (fun kv => without open_brace kv.2)
          (variables (calendly_link cfg) ann) = true /\
  exists m ok,
    outbox (send_payment_link cfg delivers clock clock Z price
                              (awaiting ann) ann 2500 0).2
    = [(m, ok)] /\
    Py.contains "{{price}}" (m_html m) = true.
Proof.
  assert (H : forallb (fun kv => without open_brace kv.2)
                (variables (calendly_link cfg) ann) = true)
    by (vm_compute; reflexivity).
  split; [exact H |].
  destruct (pricing_email_never_shows_the_price cfg delivers clock clock Z
              price (awaiting ann) ann 2500 0 H)
    as [Hnone | (m & ok & Hout & _ & Hprice)].
  - exfalso. apply (f_equal (@length _)) in Hnone. vm_compute in Hnone.
    discriminate Hnone.
  - exists m, ok. split; [exact Hout | exact Hprice].
Defined.

Lemma analytics_count_the_rows_witness :
  exists a,
    get_analytics_data cfg ten_leads = Some a /\
    total (us_leads a) = 5 /\
    default 0 (Dict.get (by_status (us_leads a)) "Replied") = 4 /\
    default 0 (Dict.get (by_status (us_leads a)) "Onboarding") = 0.
Proof.
  eexists. split; [reflexivity |].
  destruct (analytics_count_the_rows cfg ten_leads _ eq_refl US_Leads_sheet)
    as (Htotal & Hcount & _).
  split; [exact Htotal |]. split.
  - rewrite (Hcount "Replied"). reflexivity.
  - rewrite (Hcount "Onboarding"). reflexivity.
Defined.

(** The second follow-up for L1. *)
Lemma outreach_emails_have_no_token_left_witness :
  forallb (fun kv => without open_brace kv.2)
          (variables (calendly_link cfg) ann) = true /\
  without open_brace (render cfg "follow_up_2" ann).1 = true /\
  without open_brace (render cfg "follow_up_2" ann).2 = true.
Proof.
  assert (H : forallb (fun kv => without open_brace kv.2)
                      (variables (calendly_link cfg) ann) = true)
    by (vm_compute; reflexivity).
  destruct (outreach_emails_have_no_token_left cfg "follow_up_2" ann H)
    as [Hstage _].
  split; [exact H |]. apply Hstage. discriminate.
Defined.

(** The spreadsheet under a process without the Sheets service. *)
Lemma without_the_sheets_service_nothing_is_written_witness :
  sheets_service cfg_offline = false /\
  store_leads cfg_offline clock sp [ann] 0 = (false, sp) /\
  get_leads cfg_offline sp [] None None = [] /\
  sheets (_process_follow_ups cfg_offline delivers clock clock (awaiting ann)
                              (3 * day))
  = sheets (awaiting ann).
Proof.
  assert (H : sheets_service cfg_offline = false) by reflexivity.
  destruct (without_the_sheets_service_nothing_is_written cfg_offline
              delivers clock clock Z price no_link str_of_int str_of_int
              dollars rupees H)
    as (Hstore & Hget & _ & _ & _ & Hpass & _).
  split; [exact H |]. split; [apply Hstore |]. split; [apply Hget |].
  apply Hpass.
Defined.

(** A keyword in upper case inside a longer word. *)
Lemma a_call_keyword_anywhere_asks_for_a_call_witness :
  In (Py.lower "TIME") call_keywords /\
  wants_call ("Some" +:+ "TIME" +:+ "s I read them") = true.
Proof.
  assert (H : In (Py.lower "TIME") call_keywords)
    by (vm_compute; repeat (first [left; reflexivity | right])).
  split; [exact H |].
  exact (a_call_keyword_anywhere_asks_for_a_call "Some" "TIME"
           "s I read them" H).
Defined.

